(** * dstack-ingress DNS provider layer: a shallow embedding

    The development follows [scripts/dns_providers]: the record model and the
    shared reconciliation helpers of [base.py], the three adapters
    ([cloudflare.py], [linode.py], [namecheap.py]) and the provider factory
    ([factory.py]).

    Python objects with mutable attributes are modelled by explicit state
    passing; a method is a function [S -> outcome A * S] where the outcome is
    a returned value or a raised exception.  Remote HTTP APIs are an abstract
    transition function on an abstract world; every request an adapter issues
    is appended to a trace kept in the adapter state. *)

From stdpp Require Import base strings gmap list pretty.
From Stdlib Require Import ZArith Lia.

Set Default Proof Using "Type".

(** ** Python values, strings and control flow *)

Module Py.

(** JSON / Python values stored in the [data] extension map of a record. *)
Inductive PyVal := PyNone | PyInt (z : Z) | PyStr (s : string).

#[global] Instance PyVal_eq_dec : EqDecision PyVal.
Proof. solve_decision. Defined.

(** Truthiness of [str], [Optional[str]] and [Optional[dict]] values. *)
Definition truthy_str (s : string) : bool := negb (String.eqb s "").

Definition truthy (o : option string) : bool :=
  match o with
  | Some s => truthy_str s
  | None => false
  end.

Definition truthy_dict (o : option (gmap string PyVal)) : bool :=
  match o with
  | Some d => negb (bool_decide (d = ∅))
  | None => false
  end.

(** [s.endswith(suf)] and [s.startswith(pre)]. *)
Definition endswith (s suf : string) : bool :=
  (String.length suf <=? String.length s)%nat
  && String.eqb
       (String.substring (String.length s - String.length suf)
                         (String.length suf) s) suf.

Definition startswith (s pre : string) : bool := String.prefix pre s.

(** [s.lower()] on ASCII letters. *)
Definition lower_ascii (c : Ascii.ascii) : Ascii.ascii :=
  let n := Ascii.nat_of_ascii c in
  if ((65 <=? n) && (n <=? 90))%nat then Ascii.ascii_of_nat (n + 32) else c.

Fixpoint lower (s : string) : string :=
  match s with
  | EmptyString => EmptyString
  | String c r => String (lower_ascii c) (lower r)
  end.

(** [s.strip] with the double-quote character as argument: drop the
    quote characters at both ends. *)
Definition quote : Ascii.ascii := Ascii.ascii_of_nat 34.

Fixpoint lstrip_quote (s : string) : string :=
  match s with
  | String c r => if Ascii.eqb c quote then lstrip_quote r else s
  | EmptyString => EmptyString
  end.

Fixpoint rstrip_quote (s : string) : string :=
  match s with
  | EmptyString => EmptyString
  | String c r =>
      match rstrip_quote r with
      | EmptyString => if Ascii.eqb c quote then EmptyString else String c EmptyString
      | r' => String c r'
      end
  end.

Definition strip_quote (s : string) : string := rstrip_quote (lstrip_quote s).

(** The f-string that wraps [s] in literal double quotes. *)
Definition quoted (s : string) : string :=
  String quote (s +:+ String quote EmptyString).

(** [s.split(sep)] for a one-character separator; never returns []. *)
Fixpoint split_char (sep : Ascii.ascii) (s : string) : list string :=
  match s with
  | EmptyString => [EmptyString]
  | String c r =>
      if Ascii.eqb c sep then EmptyString :: split_char sep r
      else match split_char sep r with
           | w :: ws => String c w :: ws
           | [] => [String c EmptyString]
           end
  end.

(** [s.split(sep, maxsplit)]: at most [maxsplit] cuts, from the left. *)
Fixpoint split_char_max (sep : Ascii.ascii) (maxsplit : nat) (s : string)
  : list string :=
  match maxsplit with
  | O => [s]
  | S m =>
      match s with
      | EmptyString => [EmptyString]
      | String c r =>
          if Ascii.eqb c sep then EmptyString :: split_char_max sep m r
          else match split_char_max sep maxsplit r with
               | w :: ws => String c w :: ws
               | [] => [String c EmptyString]
               end
      end
  end.

(** [s.replace(old, new)] for a non-empty [old]: non-overlapping
    occurrences, left to right.  [skip] counts the characters of a matched
    occurrence that remain to be dropped. *)
Fixpoint replace_go (old new : string) (skip : nat) (s : string) : string :=
  match s with
  | EmptyString => EmptyString
  | String c r =>
      match skip with
      | S k => replace_go old new k r
      | O =>
          if String.prefix old s
          then new +:+ replace_go old new (String.length old - 1) r
          else String c (replace_go old new 0 r)
      end
  end.

Definition replace (s old new : string) : string := replace_go old new 0 s.

(** [sep.join(l)] *)
Definition join (sep : string) (l : list string) : string := String.concat sep l.

(** Substring test, [sub in s]. *)
Fixpoint contains (s sub : string) : bool :=
  String.prefix sub s
  || match s with
     | EmptyString => false
     | String _ r => contains r sub
     end.

(** Exceptions the modelled code can raise. *)
Inductive exn :=
| ValueError (msg : string)
| AttributeError (msg : string)
| gaierror (msg : string).

(** The outcome of running a method: a value, an exception, or an
    exhausted iteration budget for the one unbounded loop of the code
    (Cloudflare's page loop). *)
Inductive outcome (A : Type) :=
| Ret (a : A)
| Raise (e : exn)
| OutOfFuel.
Arguments Ret {A} a.
Arguments Raise {A} e.
Arguments OutOfFuel {A}.

(** State and exception monad: attribute writes done before an exception
    stay visible. *)
Definition M (S A : Type) : Type := S -> outcome A * S.

Definition ret {S A} (a : A) : M S A := fun s => (Ret a, s).

Definition raise {S A} (e : exn) : M S A := fun s => (Raise e, s).

Definition bind {S A B} (m : M S A) (k : A -> M S B) : M S B :=
  fun s =>
    match m s with
    | (Ret a, s') => k a s'
    | (Raise e, s') => (Raise e, s')
    | (OutOfFuel, s') => (OutOfFuel, s')
    end.

Definition gets {S A} (f : S -> A) : M S A := fun s => (Ret (f s), s).

Definition modify {S} (f : S -> S) : M S unit := fun s => (Ret tt, f s).

(** [if c: body] for a statement body. *)
Definition when {S} (c : bool) (body : M S unit) : M S unit :=
  if c then body else ret tt.

(** Run a call and drop its result, as in an expression statement. *)
Definition ignore {S A} (m : M S A) : M S unit := bind m (fun _ => ret tt).

End Py.
Export Py.

Notation "'let*' x := m 'in' k" := (bind m (fun x => k))
  (at level 10, x name, m at level 100, k at level 200).

(** ** base.py: the record model *)

Module RecordType.

Inductive t := A | AAAA | CNAME | TXT | MX | NS | CAA | SRV | PTR.

#[global] Instance eq_dec : EqDecision t.
Proof. solve_decision. Defined.

(** [record_type.value] *)
Definition value (ty : t) : string :=
  match ty with
  | A => "A" | AAAA => "AAAA" | CNAME => "CNAME" | TXT => "TXT" | MX => "MX"
  | NS => "NS" | CAA => "CAA" | SRV => "SRV" | PTR => "PTR"
  end.

Definition members : list t := [A; AAAA; CNAME; TXT; MX; NS; CAA; SRV; PTR].

(** [RecordType(s)]: lookup of a member by value; [None] stands for the
    [ValueError] the enum constructor raises on any other argument. *)
Definition of_value (s : string) : option t :=
  List.find (fun ty => String.eqb (value ty) s) members.

Definition eqb (x y : t) : bool := bool_decide (x = y).

End RecordType.

Module DNSRecord.

Record t := mk {
  id : option string;
  name : string;
  type : RecordType.t;
  content : string;
  ttl : Z;
  proxied : bool;
  priority : option Z;
  data : option (gmap string PyVal)
}.

#[global] Instance eq_dec : EqDecision t.
Proof. solve_decision. Defined.

End DNSRecord.

Module CAARecord.

Record t := mk {
  name : string;
  flags : Z;
  tag : string;
  value : string;
  ttl : Z
}.

#[global] Instance eq_dec : EqDecision t.
Proof. solve_decision. Defined.

End CAARecord.

(** [RecordType(x)] for a value read off the wire, which may be absent. *)
Definition RecordType_call {S} (x : option string) : M S RecordType.t :=
  match x with
  | Some s =>
      match RecordType.of_value s with
      | Some ty => ret ty
      | None => raise (ValueError (s +:+ " is not a valid RecordType"))
      end
  | None => raise (ValueError "None is not a valid RecordType")
  end.

(** ** base.py: the provider contract and the shared [set_*] helpers *)

(** The four abstract methods of [DNSProvider]; [S] is the state of the
    adapter instance together with whatever it talks to. *)
Class DNSProvider (S : Type) := {
  get_dns_records : string -> option RecordType.t -> M S (list DNSRecord.t);
  create_dns_record : DNSRecord.t -> M S bool;
  delete_dns_record : string -> string -> M S bool;
  create_caa_record : CAARecord.t -> M S bool
}.

Module Base.
Section Helpers.
Context {S : Type} {P : DNSProvider S}.

(** [if record.id: self.delete_dns_record(record.id, name)] *)
Definition delete_if_id (record : DNSRecord.t) (name : string) : M S unit :=
  match DNSRecord.id record with
  | Some rid => when (truthy_str rid) (ignore (delete_dns_record rid name))
  | None => ret tt
  end.

(** The [for record in existing_records] loop of [set_a_record]:
    [Some b] when the loop body executed [return b], [None] when the loop
    ran to its end. *)
Fixpoint set_a_record_loop (name ip_address : string)
         (existing_records : list DNSRecord.t) : M S (option bool) :=
  match existing_records with
  | [] => ret None
  | record :: rest =>
      if String.eqb (DNSRecord.content record) ip_address
      then ret (Some true)
      else let* _ := delete_if_id record name in
           set_a_record_loop name ip_address rest
  end.

Definition set_a_record (name ip_address : string) (ttl : Z) (proxied : bool)
  : M S bool :=
  let* existing_records := get_dns_records name (Some RecordType.A) in
  let* early := set_a_record_loop name ip_address existing_records in
  match early with
  | Some b => ret b
  | None =>
      let new_record :=
        DNSRecord.mk None name RecordType.A ip_address ttl proxied None None in
      create_dns_record new_record
  end.

Fixpoint set_cname_record_loop (name content : string)
         (existing_records : list DNSRecord.t) : M S (option bool) :=
  match existing_records with
  | [] => ret None
  | record :: rest =>
      if String.eqb (DNSRecord.content record) content
      then ret (Some true)
      else let* _ := delete_if_id record name in
           set_cname_record_loop name content rest
  end.

Definition set_cname_record (name content : string) (ttl : Z) (proxied : bool)
  : M S bool :=
  let* existing_records := get_dns_records name (Some RecordType.CNAME) in
  let* early := set_cname_record_loop name content existing_records in
  match early with
  | Some b => ret b
  | None =>
      let new_record :=
        DNSRecord.mk None name RecordType.CNAME content ttl proxied None None in
      create_dns_record new_record
  end.

(** Default [set_alias_record]: delegate to the CNAME path. *)
Definition set_alias_record (name content : string) (ttl : Z) (proxied : bool)
  : M S bool :=
  set_cname_record name content ttl proxied.

(** The equality test of [set_txt_record]: the stored content equals the
    request, or the request wrapped in double quotes. *)
Definition txt_same_content (record : DNSRecord.t) (content : string) : bool :=
  String.eqb (DNSRecord.content record) content
  || String.eqb (DNSRecord.content record) (quoted content).

Fixpoint set_txt_record_loop (name content : string)
         (existing_records : list DNSRecord.t) : M S (option bool) :=
  match existing_records with
  | [] => ret None
  | record :: rest =>
      if txt_same_content record content
      then ret (Some true)
      else let* _ := delete_if_id record name in
           set_txt_record_loop name content rest
  end.

Definition set_txt_record (name content : string) (ttl : Z) : M S bool :=
  let* existing_records := get_dns_records name (Some RecordType.TXT) in
  let* early := set_txt_record_loop name content existing_records in
  match early with
  | Some b => ret b
  | None =>
      let new_record :=
        DNSRecord.mk None name RecordType.TXT content ttl false None None in
      create_dns_record new_record
  end.

(** [record.data.get(key) == s] for a data map that is present and a
    string [s]. *)
Definition data_get_is (record : DNSRecord.t) (key s : string) : bool :=
  match DNSRecord.data record with
  | Some d => bool_decide (d !! key = Some (PyStr s))
  | None => false
  end.

Definition caa_same_tag (record : DNSRecord.t) (tag : string) : bool :=
  truthy_dict (DNSRecord.data record) && data_get_is record "tag" tag.

Fixpoint set_caa_record_loop (name tag value : string)
         (existing_records : list DNSRecord.t) : M S (option bool) :=
  match existing_records with
  | [] => ret None
  | record :: rest =>
      if caa_same_tag record tag
      then if data_get_is record "value" value
           then ret (Some true)
           else let* _ := delete_if_id record name in
                set_caa_record_loop name tag value rest
      else set_caa_record_loop name tag value rest
  end.

Definition set_caa_record (name tag value : string) (flags ttl : Z) : M S bool :=
  let* existing_records := get_dns_records name (Some RecordType.CAA) in
  let* early := set_caa_record_loop name tag value existing_records in
  match early with
  | Some b => ret b
  | None => create_caa_record (CAARecord.mk name flags tag value ttl)
  end.

End Helpers.
End Base.

(** ** Observing the calls a helper makes on the four primitives *)

Inductive Call :=
| CallGet (name : string) (record_type : option RecordType.t)
| CallCreate (record : DNSRecord.t)
| CallDelete (record_id domain : string)
| CallCreateCAA (caa_record : CAARecord.t).

(** A call to a primitive is first appended to the log, then forwarded. *)
Definition logged {S A} (c : Call) (m : M S A) : M (S * list Call) A :=
  fun '(s, log) => let '(r, s') := m s in (r, (s', log ++ [c])).

Definition spy {S} (P : DNSProvider S) : DNSProvider (S * list Call) := {|
  get_dns_records name ty := logged (CallGet name ty) (get_dns_records name ty);
  create_dns_record r := logged (CallCreate r) (create_dns_record r);
  delete_dns_record rid dom := logged (CallDelete rid dom) (delete_dns_record rid dom);
  create_caa_record caa := logged (CallCreateCAA caa) (create_caa_record caa)
|}.

(** The four loops share one shape: skip the records that are not
    [relevant], stop with [True] at the first relevant record that carries
    the requested content, delete (when it has an id) every relevant record
    met before that. *)
Fixpoint reconcile_loop {S} {P : DNSProvider S}
         (relevant same : DNSRecord.t -> bool) (name : string)
         (existing_records : list DNSRecord.t) : M S (option bool) :=
  match existing_records with
  | [] => ret None
  | record :: rest =>
      if relevant record
      then if same record
           then ret (Some true)
           else let* _ := Base.delete_if_id record name in
                reconcile_loop relevant same name rest
      else reconcile_loop relevant same name rest
  end.

(** The first record of a listing that stops the loop, and the records the
    loop walks over before reaching it. *)
Definition stops (relevant same : DNSRecord.t -> bool) (r : DNSRecord.t) : bool :=
  relevant r && same r.

Fixpoint walked (relevant same : DNSRecord.t -> bool) (l : list DNSRecord.t)
  : list DNSRecord.t :=
  match l with
  | [] => []
  | r :: rest => if stops relevant same r then [] else r :: walked relevant same rest
  end.

(** The rest of the listing, from the record that stops the loop on. *)
Fixpoint reached (relevant same : DNSRecord.t -> bool) (l : list DNSRecord.t)
  : list DNSRecord.t :=
  match l with
  | [] => []
  | r :: rest => if stops relevant same r then l else reached relevant same rest
  end.

(** The ids the loop passes to [delete_dns_record] for the records [l]. *)
Fixpoint doomed (relevant : DNSRecord.t -> bool) (l : list DNSRecord.t)
  : list string :=
  match l with
  | [] => []
  | r :: rest =>
      match DNSRecord.id r with
      | Some rid =>
          if relevant r && truthy_str rid
          then rid :: doomed relevant rest
          else doomed relevant rest
      | None => doomed relevant rest
      end
  end.

(** Deleting a list of ids in order, results dropped. *)
Fixpoint delete_each {S} {P : DNSProvider S} (name : string) (ids : list string)
  : M S unit :=
  match ids with
  | [] => ret tt
  | rid :: rest =>
      let* _ := delete_dns_record rid name in
      delete_each name rest
  end.

(** The delete calls for the ids [ids], in order. *)
Definition delete_calls (name : string) (ids : list string) : list Call :=
  List.map (fun rid => CallDelete rid name) ids.

(** A call that does not create anything but the record [r]. *)
Definition creates_only (r : DNSRecord.t) (c : Call) : Prop :=
  match c with
  | CallCreate r' => r' = r
  | CallCreateCAA _ => False
  | _ => True
  end.

(** A provider whose [create_dns_record] reports failure by its flag and
    never by an exception. *)
Definition creates_return {S} (P : DNSProvider S) : Prop :=
  forall r s, exists b s', create_dns_record r s = (Ret b, s').

(** A provider whose [delete_dns_record] reports failure by its flag and
    never by an exception. *)
Definition deletes_return {S} (P : DNSProvider S) : Prop :=
  forall rid dom s, exists b s', delete_dns_record rid dom s = (Ret b, s').

(** ** An in-memory provider *)

(** A provider kept in memory, standing for the simulated provider state
    the idempotence property of [set_a_record] is run against.  It is not
    one of the repository's adapters: a record store with provider-assigned
    ids, listing by exact name and optional type. *)
Module Sim.

Record state := mk {
  records : list DNSRecord.t;
  next_id : nat
}.

Definition listed (name : string) (ty : option RecordType.t) (r : DNSRecord.t)
  : bool :=
  String.eqb (DNSRecord.name r) name
  && match ty with
     | Some t => RecordType.eqb (DNSRecord.type r) t
     | None => true
     end.

Definition listing (name : string) (ty : option RecordType.t) (st : state)
  : list DNSRecord.t :=
  List.filter (listed name ty) (records st).

Definition has_id (rid : string) (r : DNSRecord.t) : bool :=
  bool_decide (DNSRecord.id r = Some rid).

Definition fresh (st : state) : string := "r" +:+ pretty (next_id st).

Definition with_id (rid : string) (r : DNSRecord.t) : DNSRecord.t :=
  DNSRecord.mk (Some rid) (DNSRecord.name r) (DNSRecord.type r)
               (DNSRecord.content r) (DNSRecord.ttl r) (DNSRecord.proxied r)
               (DNSRecord.priority r) (DNSRecord.data r).

Definition with_id_opt (rid : option string) (r : DNSRecord.t) : DNSRecord.t :=
  DNSRecord.mk rid (DNSRecord.name r) (DNSRecord.type r)
               (DNSRecord.content r) (DNSRecord.ttl r) (DNSRecord.proxied r)
               (DNSRecord.priority r) (DNSRecord.data r).

(** [r] survives the deletion of the ids [ids]. *)
Definition survives (ids : list string) (r : DNSRecord.t) : bool :=
  forallb (fun rid => negb (has_id rid r)) ids.

Definition add (r : DNSRecord.t) : M state bool :=
  fun st =>
    (Ret true, mk (records st ++ [with_id (fresh st) r]) (Datatypes.S (next_id st))).

Definition caa_as_record (c : CAARecord.t) : DNSRecord.t :=
  DNSRecord.mk None (CAARecord.name c) RecordType.CAA (CAARecord.value c)
    (CAARecord.ttl c) false None
    (Some (<["flags" := PyInt (CAARecord.flags c)]>
           (<["tag" := PyStr (CAARecord.tag c)]>
            (<["value" := PyStr (CAARecord.value c)]> ∅)))).

#[global] Instance provider : DNSProvider state := {|
  get_dns_records name ty :=
    gets (listing name ty);
  create_dns_record r := add r;
  delete_dns_record rid _ :=
    fun st =>
      (Ret (existsb (has_id rid) (records st)),
       mk (List.filter (fun r => negb (has_id rid r)) (records st)) (next_id st));
  create_caa_record c := add (caa_as_record c)
|}.

(** Listed records carry pairwise distinct, non-empty ids. *)
Definition wf (st : state) : Prop :=
  NoDup (List.map DNSRecord.id (records st))
  /\ Forall (fun r => truthy (DNSRecord.id r) = true) (records st).

End Sim.

(** ** cloudflare.py *)

Module Cloudflare.

(** A zone object of the zone listing, read with [zone.get]. *)
Record zone := mk_zone {
  z_id : option string;
  z_name : option string
}.

(** A record object of the record listing, read with [record_data.get]. *)
Record record_data := mk_record_data {
  rd_id : option string;
  rd_name : string;
  rd_type : option string;
  rd_content : string;
  rd_ttl : option Z;
  rd_proxied : option bool;
  rd_priority : option Z;
  rd_data : option (gmap string PyVal)
}.

(** The JSON body of a POST to [zones/{zone_id}/dns_records]. *)
Inductive payload :=
| RecordPayload (type name content : string) (ttl : Z)
                (proxied : option bool) (priority : option Z)
| CAAPayload (name : string) (ttl flags : Z) (tag value : string).

(** The method and endpoint of a call to [_make_request]. *)
Inductive request :=
| GetZones (page : nat)
| GetRecords (zone_id name : string) (record_type : option RecordType.t)
| PostRecord (zone_id : string) (data : payload)
| DeleteRecord (zone_id record_id : string).

(** The dictionary [_make_request] returns: [success] is
    [result.get("success", False)], [zones] and [records] are
    [result.get("result", [])] read as zone or record objects, and
    [total_pages] is the entry of a non-empty [result_info]. *)
Record response := mk_response {
  success : bool;
  zones : list zone;
  total_pages : option nat;
  records : list record_data
}.

Definition failure : response := mk_response false [] None [].

Section Adapter.
Context {World : Type}.

(** The remote API behind [_make_request], which catches every exception
    and reports it as an unsuccessful response. *)
Variable http : request -> World -> response * World.

(** Bound on the iterations of the page loop of [_get_zone_info]. *)
Variable fuel : nat.

(** The adapter instance ([zone_id], [zone_domain]), the remote world and
    the requests issued so far. *)
Record state := mk {
  zone_id : option string;
  zone_domain : option string;
  world : World;
  trace : list request
}.

Definition _make_request (req : request) : M state response :=
  fun st =>
    let '(resp, w) := http req (world st) in
    (Ret resp, mk (zone_id st) (zone_domain st) w (trace st ++ [req])).

(** The locals [zone_name_len], [zone_id], [zone_name_found] of
    [_get_zone_info]. *)
Record best := mk_best {
  zone_name_len : nat;
  best_zone_id : option string;
  zone_name_found : option string
}.

(** The [for zone in zones] loop: [inl] is its [return], [inr] the locals
    at its end. *)
Fixpoint scan_zones (domain : string) (zs : list zone) (b : best)
  : (option string * string) + best :=
  match zs with
  | [] => inr b
  | z :: rest =>
      let zone_name := default "" (z_name z) in
      if String.eqb domain zone_name
      then inl (z_id z, zone_name)
      else if endswith domain ("." +:+ zone_name)
              && (zone_name_len b <? String.length zone_name)%nat
           then scan_zones domain rest
                  (mk_best (String.length zone_name) (z_id z) (Some zone_name))
           else scan_zones domain rest b
  end.

(** The [while page <= total_pages] loop and the code after it. *)
Fixpoint page_loop (n : nat) (domain : string) (page total : nat) (b : best)
  : M state (option (option string * string)) :=
  if (page <=? total)%nat
  then match n with
       | O => fun st => (OutOfFuel, st)
       | Datatypes.S n' =>
           let* result := _make_request (GetZones page) in
           if negb (success result) then ret None
           else if bool_decide (zones result = []) && (page =? 1)%nat
           then ret None
           else
             let total' := default total (total_pages result) in
             match scan_zones domain (zones result) b with
             | inl hit => ret (Some hit)
             | inr b' => page_loop n' domain (page + 1) total' b'
             end
       end
  else
    match best_zone_id b, zone_name_found b with
    | Some zid, Some zname =>
        if truthy_str zid && truthy_str zname
        then ret (Some (Some zid, zname))
        else ret None
    | _, _ => ret None
    end.

Definition _get_zone_info (domain : string)
  : M state (option (option string * string)) :=
  page_loop fuel domain 1 1 (mk_best 0 None None).

(** [domain == zone_domain or domain.endswith("." + zone_domain)] *)
Definition covers (zone_domain domain : string) : bool :=
  String.eqb domain zone_domain || endswith domain ("." +:+ zone_domain).

(** The test that lets [_ensure_zone_id] return the cached id. *)
Definition cache_hit (zid zdom : option string) (domain : string) : bool :=
  truthy zid && truthy zdom && covers (default "" zdom) domain.

Definition _ensure_zone_id (domain : string) : M state (option string) :=
  let* zid := gets zone_id in
  let* zdom := gets zone_domain in
  if cache_hit zid zdom domain then ret zid
  else
    let* zone_info := _get_zone_info domain in
    let* _ :=
      match zone_info with
      | Some (i, n) =>
          modify (fun st => mk i (Some n) (world st) (trace st))
      | None => ret tt
      end in
    gets zone_id.

(** The loop that turns the record objects into [DNSRecord]s. *)
Fixpoint build_records (l : list record_data) : M state (list DNSRecord.t) :=
  match l with
  | [] => ret []
  | rd :: rest =>
      let* ty := RecordType_call (rd_type rd) in
      let record :=
        DNSRecord.mk (rd_id rd) (rd_name rd) ty (rd_content rd)
                     (default 60%Z (rd_ttl rd)) (default false (rd_proxied rd))
                     (rd_priority rd) (rd_data rd) in
      let* records := build_records rest in
      ret (record :: records)
  end.

Definition get_dns_records (name : string) (record_type : option RecordType.t)
  : M state (list DNSRecord.t) :=
  let* zone_id := _ensure_zone_id name in
  match zone_id with
  | Some zid =>
      if truthy_str zid then
        let* result := _make_request (GetRecords zid name record_type) in
        if negb (success result) then ret []
        else build_records (records result)
      else ret []
  | None => ret []
  end.

Definition create_dns_record (record : DNSRecord.t) : M state bool :=
  let* zone_id := _ensure_zone_id (DNSRecord.name record) in
  match zone_id with
  | Some zid =>
      if truthy_str zid then
        let ty := DNSRecord.type record in
        let data :=
          RecordPayload
            (RecordType.value ty) (DNSRecord.name record)
            (if RecordType.eqb ty RecordType.TXT
             then quoted (DNSRecord.content record)
             else DNSRecord.content record)
            (DNSRecord.ttl record)
            (if RecordType.eqb ty RecordType.CNAME
             then Some (DNSRecord.proxied record) else None)
            (DNSRecord.priority record) in
        let* result := _make_request (PostRecord zid data) in
        ret (success result)
      else ret false
  | None => ret false
  end.

Definition delete_dns_record (record_id domain : string) : M state bool :=
  let* zone_id := _ensure_zone_id domain in
  match zone_id with
  | Some zid =>
      if truthy_str zid then
        let* result := _make_request (DeleteRecord zid record_id) in
        ret (success result)
      else ret false
  | None => ret false
  end.

Definition create_caa_record (caa_record : CAARecord.t) : M state bool :=
  let* zone_id := _ensure_zone_id (CAARecord.name caa_record) in
  match zone_id with
  | Some zid =>
      if truthy_str zid then
        let clean_value := strip_quote (CAARecord.value caa_record) in
        let data :=
          CAAPayload (CAARecord.name caa_record) (CAARecord.ttl caa_record)
                     (CAARecord.flags caa_record) (CAARecord.tag caa_record)
                     clean_value in
        let* result := _make_request (PostRecord zid data) in
        ret (success result)
      else ret false
  | None => ret false
  end.

Definition provider : DNSProvider state :=
  Build_DNSProvider state get_dns_records create_dns_record
                    delete_dns_record create_caa_record.

End Adapter.

(** The name a zone object is matched by: [zone.get("name", "")]. *)
Definition zname (z : zone) : string := default "" (z_name z).

(** A zone object as the API lists it: with a non-empty id and name. *)
Definition wf_zone (z : zone) : Prop :=
  truthy (z_id z) = true /\ truthy (z_name z) = true.

(** A remote that lists the zones [pages], page by page, each page
    reporting the number of pages. *)
Definition page_response (pages : list (list zone)) (p : nat) : response :=
  mk_response true (nth (p - 1) pages []) (Some (length pages)) [].

Definition serves_zones {World : Type}
           (http : request -> World -> response * World)
           (pages : list (list zone)) : Prop :=
  forall w p, fst (http (GetZones p) w) = page_response pages p.

(** [st'] differs from [st] by zone-listing requests only. *)
Definition extends {World : Type} (st st' : @state World) : Prop :=
  zone_id st' = zone_id st /\ zone_domain st' = zone_domain st
  /\ exists more, trace st' = trace st ++ more
                  /\ Forall (fun r => exists p, r = GetZones p) more.

(** The result of a resolution over the zones [all]: a listed zone that
    covers [domain] and is no shorter than any other listed zone that
    covers it, or nothing when no listed zone covers [domain]. *)
Definition longest_match (all : list zone) (domain : string)
           (r : option (option string * string)) : Prop :=
  match r with
  | Some (i, n) =>
      exists z, In z all /\ i = z_id z /\ n = zname z
                /\ covers n domain = true
                /\ forall z', In z' all -> covers (zname z') domain = true ->
                               String.length (zname z') <= String.length n
  | None => forall z, In z all -> covers (zname z) domain = false
  end.

(** What the locals of [_get_zone_info] hold after the zones [seen]. *)
Definition best_of (domain : string) (seen : list zone) (b : best) : Prop :=
  (forall z, In z seen -> String.eqb domain (zname z) = false)
  /\ (forall z, In z seen -> endswith domain ("." +:+ zname z) = true ->
                String.length (zname z) <= zone_name_len b)
  /\ ((zone_name_len b = 0 /\ best_zone_id b = None /\ zone_name_found b = None)
      \/ exists z, In z seen /\ best_zone_id b = z_id z
                   /\ zone_name_found b = Some (zname z)
                   /\ zone_name_len b = String.length (zname z)
                   /\ endswith domain ("." +:+ zname z) = true).

End Cloudflare.

(** ** linode.py *)

Module Linode.

(** A domain object of the domain listing. *)
Record domain_obj := mk_domain_obj {
  d_id : option Z;
  d_domain : option string
}.

(** A record object of [domains/{id}/records]. *)
Record record_data := mk_record_data {
  rd_id : option Z;
  rd_name : option string;
  rd_type : option string;
  rd_target : option string;
  rd_ttl_sec : option Z;
  rd_priority : option Z;
  rd_tag : option string
}.

(** The JSON body of a POST to [domains/{zone_id}/records]. *)
Inductive payload :=
| RecordPayload (type name target : string) (ttl_sec : Z) (priority : option Z)
| CAAPayload (name tag target : string) (ttl_sec : Z).

Inductive request :=
| GetDomains
| GetDomain (domain_id : string)
| GetRecords (domain_id : string)
| PostRecord (domain_id : string) (data : payload)
| DeleteRecord (domain_id record_id : string).

(** The dictionary [_make_request] returns: [success], and its [data]
    entry read as a domain listing ([data_domains]), as one domain
    ([data_domain]) or as a record listing ([data_records]). *)
Record response := mk_response {
  success : bool;
  data_domains : list domain_obj;
  data_domain : option string;
  data_records : list record_data
}.

(** [str(x)] for an optional JSON integer. *)
Definition str (x : option Z) : string :=
  match x with
  | Some z => pretty z
  | None => "None"
  end.

(** Truthiness of an optional JSON integer. *)
Definition truthy_int (x : option Z) : bool :=
  match x with
  | Some z => negb (z =? 0)%Z
  | None => false
  end.

(** The override of [set_alias_record].  Its body calls the methods of
  [self], so it is written over the provider contract; at run time
  [self] is the Linode adapter. *)
Section Alias.
Context {S : Type} {P : DNSProvider S}.

(** [socket.gethostbyname]: the address, or [None] when the call raises
    [socket.gaierror]. *)
Variable gethostbyname : string -> option string.

(** [for record in existing_cname_records: if record.id: delete] *)
Fixpoint delete_cnames (name : string) (l : list DNSRecord.t) : M S unit :=
  match l with
  | [] => ret tt
  | record :: rest =>
      let* _ := Base.delete_if_id record name in
      delete_cnames name rest
  end.

Definition set_alias_record (name content : string) (ttl : Z) (proxied : bool)
  : M S bool :=
  let domain := content in
  let* ip_address :=
    match gethostbyname domain with
    | Some ip => ret ip
    | None => raise (gaierror "Name or service not known")
    end in
  if negb (truthy_str ip_address)
  then raise (gaierror "Could not resolve any variant of the domain")
  else
    let* existing_cname_records :=
      get_dns_records name (Some RecordType.CNAME) in
    let* _ := delete_cnames name existing_cname_records in
    Base.set_a_record name ip_address ttl false.

End Alias.

Section Adapter.
Context {World : Type}.

Variable http : request -> World -> response * World.

Record state := mk {
  zone_id : option string;
  zone_domain : option string;
  world : World;
  trace : list request
}.

Definition _make_request (req : request) : M state response :=
  fun st =>
    let '(resp, w) := http req (world st) in
    (Ret resp, mk (zone_id st) (zone_domain st) w (trace st ++ [req])).

(** The [for domain_obj in domains] loop of [_get_zone_id]: [inl] is its
    [return], [inr] the locals [best_match_domain], [best_match_length] at
    its end. *)
Fixpoint scan_domains (domain : string) (ds : list domain_obj)
         (best_match_domain : option Z) (best_match_length : nat)
  : string + (option Z * nat) :=
  match ds with
  | [] => inr (best_match_domain, best_match_length)
  | domain_obj :: rest =>
      let domain_name := default "" (d_domain domain_obj) in
      if String.eqb domain domain_name
      then inl (str (d_id domain_obj))
      else if endswith domain ("." +:+ domain_name)
              && (best_match_length <? String.length domain_name)%nat
           then scan_domains domain rest (d_id domain_obj)
                             (String.length domain_name)
           else scan_domains domain rest best_match_domain best_match_length
  end.

Definition _get_zone_id (domain : string) : M state (option string) :=
  let* result := _make_request GetDomains in
  if negb (success result) then ret None
  else
    match scan_domains domain (data_domains result) None 0 with
    | inl zid => ret (Some zid)
    | inr (best_match_domain, _) =>
        if truthy_int best_match_domain
        then ret (Some (str best_match_domain))
        else ret None
    end.

Definition _get_subdomain (fqdn domain_id : string) : M state string :=
  let* result := _make_request (GetDomain domain_id) in
  if negb (success result) then ret fqdn
  else
    let domain_name := default "" (data_domain result) in
    if String.eqb fqdn domain_name then ret ""
    else if endswith fqdn ("." +:+ domain_name)
    then ret (String.substring 0
                (String.length fqdn - (String.length domain_name + 1)) fqdn)
    else ret fqdn.

Definition covers (zone_domain domain : string) : bool :=
  String.eqb domain zone_domain || endswith domain ("." +:+ zone_domain).

Definition cache_hit (zid zdom : option string) (domain : string) : bool :=
  truthy zid && truthy zdom && covers (default "" zdom) domain.

Definition _ensure_zone_id (domain : string) : M state (option string) :=
  let* zid := gets zone_id in
  let* zdom := gets zone_domain in
  if cache_hit zid zdom domain then ret zid
  else
    let* found := _get_zone_id domain in
    let* _ := modify (fun st => mk found (zone_domain st) (world st) (trace st)) in
    let* _ :=
      match found with
      | Some zid' =>
          when (truthy_str zid')
            (let* result := _make_request (GetDomain zid') in
             when (success result)
               (modify (fun st =>
                          mk (zone_id st) (Some (default "" (data_domain result)))
                             (world st) (trace st))))
      | None => ret tt
      end in
    gets zone_id.

(** The [for record_data in ...] loop of [get_dns_records]. *)
Fixpoint build_records (name subdomain : string)
         (record_type : option RecordType.t) (l : list record_data)
  : M state (list DNSRecord.t) :=
  match l with
  | [] => ret []
  | rd :: rest =>
      let record_name := default "" (rd_name rd) in
      if String.eqb record_name subdomain then
        let record_type_str := default "" (rd_type rd) in
        let skip :=
          match record_type with
          | Some ty => negb (String.eqb (RecordType.value ty) record_type_str)
          | None => false
          end in
        if skip then build_records name subdomain record_type rest
        else
          let data :=
            if String.eqb record_type_str "CAA" then
              let target := default "" (rd_target rd) in
              let tag := default "issue" (rd_tag rd) in
              Some (<["flags" := PyInt 0]>
                    (<["tag" := PyStr tag]>
                     (<["value" := PyStr (strip_quote target)]> ∅)))
            else None in
          let* ty := RecordType_call (Some record_type_str) in
          let record :=
            DNSRecord.mk (Some (str (rd_id rd))) name ty
                         (default "" (rd_target rd))
                         (default 60%Z (rd_ttl_sec rd)) false
                         (rd_priority rd) data in
          let* records := build_records name subdomain record_type rest in
          ret (record :: records)
      else build_records name subdomain record_type rest
  end.

Definition get_dns_records (name : string) (record_type : option RecordType.t)
  : M state (list DNSRecord.t) :=
  let* zone_id := _ensure_zone_id name in
  match zone_id with
  | Some zid =>
      if truthy_str zid then
        let* result := _make_request (GetRecords zid) in
        if negb (success result) then ret []
        else
          let* subdomain := _get_subdomain name zid in
          build_records name subdomain record_type (data_records result)
      else ret []
  | None => ret []
  end.

Definition create_dns_record (record : DNSRecord.t) : M state bool :=
  let* zone_id := _ensure_zone_id (DNSRecord.name record) in
  match zone_id with
  | Some zid =>
      if truthy_str zid then
        let* subdomain := _get_subdomain (DNSRecord.name record) zid in
        let ty := DNSRecord.type record in
        let content := DNSRecord.content record in
        let data :=
          RecordPayload
            (RecordType.value ty) subdomain
            (if RecordType.eqb ty RecordType.TXT
                && negb (startswith content (String quote EmptyString))
             then quoted content else content)
            (DNSRecord.ttl record) (DNSRecord.priority record) in
        let* result := _make_request (PostRecord zid data) in
        ret (success result)
      else ret false
  | None => ret false
  end.

Definition delete_dns_record (record_id domain : string) : M state bool :=
  let* zone_id := _ensure_zone_id domain in
  match zone_id with
  | Some zid =>
      if truthy_str zid then
        let* result := _make_request (DeleteRecord zid record_id) in
        ret (success result)
      else ret false
  | None => ret false
  end.

Definition create_caa_record (caa_record : CAARecord.t) : M state bool :=
  let* zone_id := _ensure_zone_id (CAARecord.name caa_record) in
  match zone_id with
  | Some zid =>
      if truthy_str zid then
        let* subdomain := _get_subdomain (CAARecord.name caa_record) zid in
        let clean_value := strip_quote (CAARecord.value caa_record) in
        let data :=
          CAAPayload subdomain (CAARecord.tag caa_record) clean_value
                     (CAARecord.ttl caa_record) in
        let* result := _make_request (PostRecord zid data) in
        ret (success result)
      else ret false
  | None => ret false
  end.

Definition provider : DNSProvider state :=
  Build_DNSProvider state get_dns_records create_dns_record
                    delete_dns_record create_caa_record.

End Adapter.

Definition dname (d : domain_obj) : string := default "" (d_domain d).

(** A domain object as the API lists it: with a non-zero id and a
    non-empty name. *)
Definition wf_domain (d : domain_obj) : Prop :=
  truthy_int (d_id d) = true /\ truthy (d_domain d) = true.

(** A remote that answers the domain listing with [ds]. *)
Definition serves_domains {World : Type}
           (http : request -> World -> response * World)
           (ds : list domain_obj) : Prop :=
  forall w, exists one recs,
    fst (http GetDomains w) = mk_response true ds one recs.

(** The result of [_get_zone_id] over the domains [all]: the id of a
    listed domain that covers [domain] and is no shorter than any other
    listed domain that covers it, or nothing when none covers it. *)
Definition longest_match (all : list domain_obj) (domain : string)
           (r : option string) : Prop :=
  match r with
  | Some i =>
      exists d, In d all /\ i = str (d_id d)
                /\ covers (dname d) domain = true
                /\ forall d', In d' all -> covers (dname d') domain = true ->
                               String.length (dname d') <= String.length (dname d)
  | None => forall d, In d all -> covers (dname d) domain = false
  end.

(** What the locals of [_get_zone_id] hold after the domains [seen]. *)
Definition best_of (domain : string) (seen : list domain_obj)
           (best_match_domain : option Z) (best_match_length : nat) : Prop :=
  (forall d, In d seen -> String.eqb domain (dname d) = false)
  /\ (forall d, In d seen -> endswith domain ("." +:+ dname d) = true ->
                String.length (dname d) <= best_match_length)
  /\ ((best_match_length = 0 /\ best_match_domain = None)
      \/ exists d, In d seen /\ best_match_domain = d_id d
                   /\ best_match_length = String.length (dname d)
                   /\ endswith domain ("." +:+ dname d) = true).

End Linode.

(** ** namecheap.py *)

Module Namecheap.

(** A [host] element of a [getHosts] response, read with [host.get]. *)
Record host := mk_host {
  h_Name : option string;
  h_Type : option string;
  h_HostId : option string;
  h_Address : option string;
  h_TTL : option string;
  h_MXPref : option string
}.

(** The dictionary [create_dns_record] builds for the new host record. *)
Record host_dict := mk_host_dict {
  HostName : string;
  RecordType_ : string;
  Address : string;
  TTL : string;
  MXPref : option string
}.

(** An element of the list handed to [_set_dns_records]: a [DNSRecord]
    object kept from the listing, or a dictionary. *)
Inductive entry :=
| Obj (r : DNSRecord.t)
| Dict (d : host_dict).

(** The numbered form parameters of one host in a [setHosts] call. *)
Record host_params := mk_host_params {
  p_HostName : string;
  p_RecordType : string;
  p_Address : string;
  p_TTL : string;
  p_MXPref : option string
}.

(** The [Command] of a call to [_make_request], with its parameters. *)
Inductive request :=
| GetBalances
| GetHosts (SLD TLD : string)
| SetHosts (SLD TLD : string) (hosts : list host_params).

(** The dictionary [_make_request] returns: [success] and, read off the
    [result] tree, the [host] elements. *)
Record response := mk_response {
  success : bool;
  hosts : list host
}.

Section Adapter.
Context {World : Type}.

Variable http : request -> World -> response * World.

(** The builtin [int] on strings; [None] stands for its [ValueError]. *)
Variable py_int : string -> option Z.

(** The adapter has no mutable attribute; the state is the remote world
    and the requests issued so far. *)
Record state := mk {
  world : World;
  trace : list request
}.

Definition _make_request (req : request) : M state response :=
  fun st =>
    let '(resp, w) := http req (world st) in
    (Ret resp, mk w (trace st ++ [req])).

Definition int_call (s : string) : M state Z :=
  match py_int s with
  | Some z => ret z
  | None => raise (ValueError ("invalid literal for int() with base 10: " +:+ s))
  end.

(** [parts[-2]] and [parts[-1]] of a list with at least two elements. *)
Fixpoint last_two (parts : list string) : option (string * string) :=
  match parts with
  | [] => None
  | [_] => None
  | [a; b] => Some (a, b)
  | _ :: rest => last_two rest
  end.

Definition _get_domain_info (domain : string) : option (string * string) :=
  last_two (split_char (Ascii.ascii_of_nat 46) domain).

(** The body of the [for host in host_elements] loop for a host that is
    not skipped.  The arguments of the [DNSRecord] constructor are
    evaluated in order, so the first failing conversion decides the
    exception.  An absent [Address] is read as the empty content. *)
Definition build_record (sld tld : string) (h : host) : M state DNSRecord.t :=
  let suffix := "." +:+ sld +:+ "." +:+ tld in
  let* record_name :=
    match h_Name h with
    | Some n =>
        if String.eqb n "@" then ret (sld +:+ "." +:+ tld)
        else if negb (endswith n suffix) then ret (n +:+ suffix)
        else ret n
    | None =>
        raise (AttributeError "'NoneType' object has no attribute 'endswith'")
    end in
  let* ty := RecordType_call (h_Type h) in
  let* ttl := int_call (default "1800" (h_TTL h)) in
  let* priority :=
    match h_MXPref h with
    | Some p =>
        if truthy_str p
        then let* z := int_call p in ret (Some z)
        else ret None
    | None => ret None
    end in
  let record :=
    DNSRecord.mk (h_HostId h) record_name ty (default "" (h_Address h))
                 ttl false priority None in
  if bool_decide (h_Type h = Some "CAA") then
    match split_char_max (Ascii.ascii_of_nat 32) 2 (default "" (h_Address h)) with
    | [p0; p1; p2] =>
        let* flags := int_call p0 in
        ret (DNSRecord.mk (h_HostId h) record_name ty (default "" (h_Address h))
               ttl false priority
               (Some (<["flags" := PyInt flags]>
                      (<["tag" := PyStr p1]>
                       (<["value" := PyStr p2]> ∅)))))
    | _ => ret record
    end
  else ret record.

Fixpoint build_records (sld tld : string) (record_type : option RecordType.t)
         (l : list host) : M state (list DNSRecord.t) :=
  match l with
  | [] => ret []
  | h :: rest =>
      let skip :=
        match record_type with
        | Some ty => negb (bool_decide (h_Type h = Some (RecordType.value ty)))
        | None => false
        end in
      if skip then build_records sld tld record_type rest
      else
        let* record := build_record sld tld h in
        let* records := build_records sld tld record_type rest in
        ret (record :: records)
  end.

Definition get_dns_records (name : string) (record_type : option RecordType.t)
  : M state (list DNSRecord.t) :=
  match _get_domain_info name with
  | None => ret []
  | Some (sld, tld) =>
      let* result := _make_request (GetHosts sld tld) in
      if negb (success result) then ret []
      else build_records sld tld record_type (hosts result)
  end.

(** The [for i, record in enumerate(records, 1)] loop of
    [_set_dns_records]: [record.get] exists on dictionaries only. *)
Fixpoint host_parameters (records : list entry) : M state (list host_params) :=
  match records with
  | [] => ret []
  | Obj _ :: _ =>
      raise (AttributeError "'DNSRecord' object has no attribute 'get'")
  | Dict d :: rest =>
      let p :=
        mk_host_params (HostName d) (RecordType_ d) (Address d) (TTL d)
          (if String.eqb (RecordType_ d) "MX"
           then Some (default "10" (MXPref d)) else None) in
      let* ps := host_parameters rest in
      ret (p :: ps)
  end.

Definition _set_dns_records (sld tld : string) (records : list entry)
  : M state bool :=
  let* params := host_parameters records in
  let* result := _make_request (SetHosts sld tld params) in
  ret (success result).

Definition create_dns_record (record : DNSRecord.t) : M state bool :=
  match _get_domain_info (DNSRecord.name record) with
  | None => ret false
  | Some (sld, tld) =>
      let* existing_records := get_dns_records (DNSRecord.name record) None in
      let hostname :=
        if String.eqb (DNSRecord.name record) (sld +:+ "." +:+ tld) then "@"
        else replace (DNSRecord.name record) ("." +:+ sld +:+ "." +:+ tld) "" in
      let filtered_records :=
        List.filter
          (fun r => negb (String.eqb (DNSRecord.name r) (DNSRecord.name record)
                          && RecordType.eqb (DNSRecord.type r)
                                            (DNSRecord.type record)))
          existing_records in
      let new_record :=
        mk_host_dict hostname (RecordType.value (DNSRecord.type record))
          (DNSRecord.content record) (pretty (DNSRecord.ttl record))
          (match DNSRecord.priority record with
           | Some p =>
               if RecordType.eqb (DNSRecord.type record) RecordType.MX
                  && negb (p =? 0)%Z
               then Some (pretty p) else None
           | None => None
           end) in
      _set_dns_records sld tld
        (List.map Obj filtered_records ++ [Dict new_record])
  end.

Definition delete_dns_record (record_id domain : string) : M state bool :=
  match _get_domain_info domain with
  | None => ret false
  | Some (sld, tld) =>
      let* existing_records := get_dns_records domain None in
      let filtered_records :=
        List.filter
          (fun r => negb (bool_decide (DNSRecord.id r = Some record_id)))
          existing_records in
      _set_dns_records sld tld (List.map Obj filtered_records)
  end.

(** Prints a warning and returns [True]. *)
Definition create_caa_record (caa_record : CAARecord.t) : M state bool :=
  ret true.

Definition provider : DNSProvider state :=
  Build_DNSProvider state get_dns_records create_dns_record
                    delete_dns_record create_caa_record.

End Adapter.

(** A remote that refuses to read or write the hosts of [sld].[tld],
    as it does for a domain that is not in the account. *)
Definition rejects {World : Type}
           (http : request -> World -> response * World)
           (sld tld : string) : Prop :=
  forall w,
    success (fst (http (GetHosts sld tld) w)) = false
    /\ forall hosts, success (fst (http (SetHosts sld tld hosts) w)) = false.

End Namecheap.

(** ** factory.py *)

Module Factory.

Inductive provider_class :=
| CloudflareDNSProvider
| LinodeDNSProvider
| NamecheapDNSProvider.

(** The attributes a freshly constructed adapter holds; its zone cache
    is empty. *)
Inductive instance :=
| CloudflareInstance (api_token : string)
| LinodeInstance (api_token : string)
| NamecheapInstance (username api_key client_ip : string) (sandbox : bool).

(** [os.environ] *)
Definition environ := gmap string string.

Definition DETECT_ENV (c : provider_class) : string :=
  match c with
  | CloudflareDNSProvider => "CLOUDFLARE_API_TOKEN"
  | LinodeDNSProvider => "LINODE_API_TOKEN"
  | NamecheapDNSProvider => "NAMECHEAP_API_KEY"
  end.

(** [cls.suitable()] *)
Definition suitable (env : environ) (c : provider_class) : bool :=
  bool_decide (is_Some (env !! DETECT_ENV c)).

(** The constructors [__init__] of the three adapters. *)
Definition construct (env : environ) (c : provider_class) : outcome instance :=
  match c with
  | CloudflareDNSProvider =>
      if truthy (env !! "CLOUDFLARE_API_TOKEN")
      then Ret (CloudflareInstance (default "" (env !! "CLOUDFLARE_API_TOKEN")))
      else Raise (ValueError "CLOUDFLARE_API_TOKEN environment variable is required")
  | LinodeDNSProvider =>
      if truthy (env !! "LINODE_API_TOKEN")
      then Ret (LinodeInstance (default "" (env !! "LINODE_API_TOKEN")))
      else Raise (ValueError "LINODE_API_TOKEN environment variable is required")
  | NamecheapDNSProvider =>
      if truthy (env !! "NAMECHEAP_USERNAME") && truthy (env !! "NAMECHEAP_API_KEY")
      then Ret (NamecheapInstance
                  (default "" (env !! "NAMECHEAP_USERNAME"))
                  (default "" (env !! "NAMECHEAP_API_KEY"))
                  (default "127.0.0.1" (env !! "NAMECHEAP_CLIENT_IP"))
                  (String.eqb (lower (default "false" (env !! "NAMECHEAP_SANDBOX")))
                              "true"))
      else Raise (ValueError "NAMECHEAP_USERNAME and NAMECHEAP_API_KEY are required")
  end.

(** The class attribute [PROVIDERS], in insertion order. *)
Definition PROVIDERS : list (string * provider_class) :=
  [("cloudflare", CloudflareDNSProvider);
   ("linode", LinodeDNSProvider);
   ("namecheap", NamecheapDNSProvider)].

Definition lookup (key : string) : option provider_class :=
  option_map snd (List.find (fun kv => String.eqb (fst kv) key) PROVIDERS).

(** [for name, provider in cls.PROVIDERS.items(): if provider.suitable()] *)
Fixpoint first_suitable (env : environ) (table : list (string * provider_class))
  : option string :=
  match table with
  | [] => None
  | (name, provider) :: rest =>
      if suitable env provider then Some name else first_suitable env rest
  end.

Definition detect_error : string :=
  "Could not detect DNS provider type from environment variables. "
  +:+ "Please set DNS_PROVIDER environment variable.".

Definition _detect_provider_type (env : environ) : outcome string :=
  if truthy (env !! "DNS_PROVIDER")
  then Ret (default "" (env !! "DNS_PROVIDER"))
  else match first_suitable env PROVIDERS with
       | Some name => Ret name
       | None => Raise (ValueError detect_error)
       end.

Definition unsupported_error (provider_type : string) : string :=
  "Unsupported DNS provider: " +:+ provider_type
  +:+ ". Supported providers: " +:+ join ", " (List.map fst PROVIDERS).

(** The part of [create_provider] after the selector is known. *)
Definition create_selected (env : environ) (provider_type : string)
  : outcome instance :=
  let provider_type := lower provider_type in
  match lookup provider_type with
  | None => Raise (ValueError (unsupported_error provider_type))
  | Some provider_class => construct env provider_class
  end.

Definition create_provider (env : environ) (provider_type : option string)
  : outcome instance :=
  if truthy provider_type
  then create_selected env (default "" provider_type)
  else match _detect_provider_type env with
       | Ret detected => create_selected env detected
       | Raise e => Raise e
       | OutOfFuel => OutOfFuel
       end.

Definition get_supported_providers : list string := List.map fst PROVIDERS.

End Factory.

(** ** Fixtures *)

(** Records used in the examples. *)
Definition sim_record (rid : option string) (name : string)
           (ty : RecordType.t) (content : string) : DNSRecord.t :=
  DNSRecord.mk rid name ty content 60 false None None.

Definition sim_caa (rid : option string) (name tag value : string) : DNSRecord.t :=
  Sim.with_id_opt rid
    (Sim.caa_as_record (CAARecord.mk name 0 tag value 60)).

(** A Cloudflare account with the zones example.com and sub.example.com on
    one page: the zone listing is served, a record creation is accepted in
    whatever zone it names, every other request is refused. *)
Definition example_zones : list (list Cloudflare.zone) :=
  [[Cloudflare.mk_zone (Some "z1") (Some "example.com");
    Cloudflare.mk_zone (Some "z2") (Some "sub.example.com")]].

Definition example_cloudflare (req : Cloudflare.request) (w : unit)
  : Cloudflare.response * unit :=
  match req with
  | Cloudflare.GetZones p => (Cloudflare.page_response example_zones p, w)
  | Cloudflare.PostRecord _ _ => (Cloudflare.mk_response true [] None [], w)
  | _ => (Cloudflare.failure, w)
  end.

(** The same account at Linode. *)
Definition example_domains : list Linode.domain_obj :=
  [Linode.mk_domain_obj (Some 1%Z) (Some "example.com");
   Linode.mk_domain_obj (Some 2%Z) (Some "sub.example.com")].

Definition example_linode (req : Linode.request) (w : unit)
  : Linode.response * unit :=
  match req with
  | Linode.GetDomains => (Linode.mk_response true example_domains None [], w)
  | Linode.GetDomain i =>
      (Linode.mk_response true []
         (if String.eqb i "1" then Some "example.com"
          else if String.eqb i "2" then Some "sub.example.com" else None) [], w)
  | _ => (Linode.mk_response false [] None [], w)
  end.

(** A Namecheap account without any domain: every request is refused. *)
Definition example_namecheap (req : Namecheap.request) (w : unit)
  : Namecheap.response * unit :=
  (Namecheap.mk_response false [], w).

(** A stand-in for the builtin [int]: no string is accepted. *)
Definition no_int (s : string) : option Z := None.

(** An environment with Linode and Namecheap credentials and no override. *)
Definition example_environ : Factory.environ :=
  <["LINODE_API_TOKEN" := "token-l"]>
    (<["NAMECHEAP_API_KEY" := "key-n"]>
       (<["NAMECHEAP_USERNAME" := "user-n"]> ∅)).

(** A Cloudflare adapter that has cached the zone example.com. *)
Definition cached_example : @Cloudflare.state unit :=
  Cloudflare.mk (Some "z1") (Some "example.com") tt [].

(** A stand-in for the builtin [int] on plain decimal literals. *)
Fixpoint digits_value (acc : Z) (s : string) : option Z :=
  match s with
  | EmptyString => Some acc
  | String c r =>
      let n := Ascii.nat_of_ascii c in
      if ((48 <=? n) && (n <=? 57))%nat
      then digits_value (acc * 10 + Z.of_nat (n - 48)) r
      else None
  end.

Definition decimal_int (s : string) : option Z :=
  match s with
  | EmptyString => None
  | _ => digits_value 0 s
  end.

(** A Namecheap account holding example.com with two A hosts; writes are
    accepted. *)
Definition example_hosts : list Namecheap.host :=
  [Namecheap.mk_host (Some "www") (Some "A") (Some "1") (Some "10.0.0.1")
                     (Some "300") None;
   Namecheap.mk_host (Some "api") (Some "A") (Some "2") (Some "10.0.0.2")
                     (Some "300") None].

Definition example_namecheap_hosts (req : Namecheap.request) (w : unit)
  : Namecheap.response * unit :=
  match req with
  | Namecheap.GetHosts "example" "com" => (Namecheap.mk_response true example_hosts, w)
  | Namecheap.SetHosts "example" "com" _ => (Namecheap.mk_response true [], w)
  | _ => (Namecheap.mk_response false [], w)
  end.

(** A Linode remote kept in memory, holding the one domain example.com
    (id 1): its records and the next record id. *)
Module LinodeSim.

Record world := mk {
  records : list Linode.record_data;
  next_id : Z
}.

Definition refused : Linode.response := Linode.mk_response false [] None [].

Definition stored (rid : Z) (data : Linode.payload) : Linode.record_data :=
  match data with
  | Linode.RecordPayload type name target ttl_sec priority =>
      Linode.mk_record_data (Some rid) (Some name) (Some type) (Some target)
                            (Some ttl_sec) priority None
  | Linode.CAAPayload name tag target ttl_sec =>
      Linode.mk_record_data (Some rid) (Some name) (Some "CAA") (Some target)
                            (Some ttl_sec) None (Some tag)
  end.

Definition http (req : Linode.request) (w : world) : Linode.response * world :=
  match req with
  | Linode.GetDomains =>
      (Linode.mk_response true
         [Linode.mk_domain_obj (Some 1%Z) (Some "example.com")] None [], w)
  | Linode.GetDomain i =>
      if String.eqb i "1"
      then (Linode.mk_response true [] (Some "example.com") [], w)
      else (refused, w)
  | Linode.GetRecords i =>
      if String.eqb i "1"
      then (Linode.mk_response true [] None (records w), w)
      else (refused, w)
  | Linode.PostRecord i data =>
      if String.eqb i "1"
      then (Linode.mk_response true [] None [],
            mk (records w ++ [stored (next_id w) data]) (next_id w + 1))
      else (refused, w)
  | Linode.DeleteRecord i rid =>
      if String.eqb i "1"
      then (Linode.mk_response true [] None [],
            mk (List.filter
                  (fun r => negb (String.eqb (Linode.str (Linode.rd_id r)) rid))
                  (records w))
               (next_id w))
      else (refused, w)
  end.

(** The resolver of the example: one known host. *)
Definition gethostbyname (host : string) : option string :=
  if String.eqb host "target.example.org" then Some "203.0.113.7" else None.

(** The remote with one CNAME record at app.example.com. *)
Definition with_cname : world :=
  mk [Linode.mk_record_data (Some 7%Z) (Some "app") (Some "CNAME")
        (Some "old.example.net") (Some 60%Z) None None] 8.

End LinodeSim.

(** A Cloudflare remote kept in memory, holding the zone example.com
    (id z1): its records and the number of the next record id. *)
Module CloudflareSim.

Record world := mk {
records : list Cloudflare.record_data;
next_id : nat
}.

Definition stored (rid : string) (data : Cloudflare.payload)
: Cloudflare.record_data :=
match data with
| Cloudflare.RecordPayload type name content ttl proxied priority =>
    Cloudflare.mk_record_data (Some rid) name (Some type) content (Some ttl)
                              proxied priority None
| Cloudflare.CAAPayload name ttl flags tag value =>
    Cloudflare.mk_record_data (Some rid) name (Some "CAA")
      (pretty flags +:+ " " +:+ tag +:+ " " +:+ value) (Some ttl) None None
      (Some (<["flags" := PyInt flags]>
             (<["tag" := PyStr tag]>
              (<["value" := PyStr value]> ∅))))
end.

Definition wanted (name : string) (record_type : option RecordType.t)
         (r : Cloudflare.record_data) : bool :=
String.eqb (Cloudflare.rd_name r) name
&& match record_type with
   | Some ty => bool_decide (Cloudflare.rd_type r = Some (RecordType.value ty))
   | None => true
   end.

Definition http (req : Cloudflare.request) (w : world)
: Cloudflare.response * world :=
match req with
| Cloudflare.GetZones p =>
    (Cloudflare.page_response
       [[Cloudflare.mk_zone (Some "z1") (Some "example.com")]] p, w)
| Cloudflare.GetRecords zid name record_type =>
    if String.eqb zid "z1"
    then (Cloudflare.mk_response true [] None
            (List.filter (wanted name record_type) (records w)), w)
    else (Cloudflare.failure, w)
| Cloudflare.PostRecord zid data =>
    if String.eqb zid "z1"
    then (Cloudflare.mk_response true [] None [],
          mk (records w ++ [stored ("r" +:+ pretty (next_id w)) data])
             (Datatypes.S (next_id w)))
    else (Cloudflare.failure, w)
| Cloudflare.DeleteRecord zid rid =>
    if String.eqb zid "z1"
    then (Cloudflare.mk_response true [] None [],
          mk (List.filter
                (fun r => negb (bool_decide (Cloudflare.rd_id r = Some rid)))
                (records w))
             (next_id w))
    else (Cloudflare.failure, w)
end.

Definition empty : world := mk [] 0.

End CloudflareSim.

(** ** Predicates and fixtures for the further properties *)

(** The two tests a record object passes to be returned by Linode's
    [get_dns_records] under a type filter: its name is the subdomain and
    its type is the filter's. *)
Definition linode_selected (subdomain : string) (ty : RecordType.t)
           (rd : Linode.record_data) : bool :=
  String.eqb (default "" (Linode.rd_name rd)) subdomain
  && String.eqb (RecordType.value ty) (default "" (Linode.rd_type rd)).

(** A Linode adapter that has cached the domain example.com. *)
Definition cached_linode : @Linode.state unit :=
  Linode.mk (Some "1") (Some "example.com") tt [].

(** A Cloudflare account whose zone listing has two pages: the first is
    served and holds the zone example.com, the second fails. *)
Definition flaky_cloudflare (req : Cloudflare.request) (w : unit)
  : Cloudflare.response * unit :=
  match req with
  | Cloudflare.GetZones 1 =>
      (Cloudflare.mk_response true
         [Cloudflare.mk_zone (Some "z1") (Some "example.com")] (Some 2) [], w)
  | _ => (Cloudflare.failure, w)
  end.
(** The suffix match held in the locals of [_get_zone_info] covers the
    domain. *)
Definition best_covers (domain : string) (b : Cloudflare.best) : Prop :=
  forall zn, Cloudflare.zone_name_found b = Some zn ->
             endswith domain ("." +:+ zn) = true.
(** The [data] dictionary of a CAA record: what Cloudflare's
    [create_caa_record] posts and what the record listing hands back. *)
Definition caa_data (flags : Z) (tag value : string) : gmap string PyVal :=
  <["flags" := PyInt flags]>
    (<["tag" := PyStr tag]> (<["value" := PyStr value]> ∅)).
(** An environment where the Cloudflare token is present but empty while
    Linode is fully configured. *)
Definition empty_token_environ : Factory.environ :=
  <["CLOUDFLARE_API_TOKEN" := ""]> (<["LINODE_API_TOKEN" := "token-l"]> ∅).

(** ** dnsman.py *)

Module Dnsman.

(** The positional [action] argument, restricted by its [choices]. *)
Inductive action := set_cname | set_alias | set_txt | set_caa.

(** The namespace [parse_args] returns: [--domain] is required, the other
    options are [None] when absent. *)
Record args := mk_args {
  a_action : action;
  a_domain : string;
  a_provider : option string;
  a_content : option string;
  a_caa_tag : option string;
  a_caa_value : option string
}.

(** The object the factory hands back: the four primitives of the adapter
    and its [set_alias_record], which the Linode adapter overrides.  The
    other helpers are those of the base class for every adapter. *)
Record provider_object (S : Type) := mk_provider_object {
  primitives : DNSProvider S;
  alias_method : string -> string -> Z -> bool -> M S bool
}.
Arguments primitives {S} _.
Arguments alias_method {S} _.

Section Main.
Context {S : Type}.

(** The adapter object behind a constructed instance. *)
Variable adapter : Factory.instance -> provider_object S.

(** [success = ...; if not success: sys.exit(1)] inside the [try] of
    [main]: a false result ends the process with status 1, and so does any
    exception, which one of the two [except] clauses catches; otherwise
    [main] returns and the status is 0. *)
Definition report (call : M S bool) : M S Z :=
  fun s =>
    match call s with
    | (Ret true, s') => (Ret 0%Z, s')
    | (Ret false, s') => (Ret 1%Z, s')
    | (Raise _, s') => (Ret 1%Z, s')
    | (OutOfFuel, s') => (OutOfFuel, s')
    end.

(** [main], after [parse_args]: the exit status of the process. *)
Definition main (env : Factory.environ) (a : args) : M S Z :=
  match Factory.create_provider env (a_provider a) with
  | Raise _ => ret 1%Z
  | OutOfFuel => fun s => (OutOfFuel, s)
  | Ret instance =>
      let provider := adapter instance in
      match a_action a with
      | set_cname =>
          if negb (truthy (a_content a)) then ret 1%Z
          else report (alias_method provider (a_domain a)
                         (default "" (a_content a)) 60 false)
      | set_alias =>
          if negb (truthy (a_content a)) then ret 1%Z
          else report (alias_method provider (a_domain a)
                         (default "" (a_content a)) 60 false)
      | set_txt =>
          if negb (truthy (a_content a)) then ret 1%Z
          else report (Base.set_txt_record (P := primitives provider)
                         (a_domain a) (default "" (a_content a)) 60)
      | set_caa =>
          if negb (truthy (a_caa_tag a)) || negb (truthy (a_caa_value a))
          then ret 1%Z
          else report (Base.set_caa_record (P := primitives provider)
                         (a_domain a) (default "" (a_caa_tag a))
                         (default "" (a_caa_value a)) 0 60)
      end
  end.

End Main.

(** The objects the three adapters are, over a provider [P] for their
    primitives: Cloudflare and Namecheap create CNAME records for an alias
    (Namecheap's override calls [set_cname_record] as the default does),
    Linode resolves the target and creates an A record. *)
Definition cname_object {S : Type} (P : DNSProvider S) : provider_object S :=
  mk_provider_object S P (Base.set_alias_record (P := P)).

Definition linode_object {S : Type} (P : DNSProvider S)
           (gethostbyname : string -> option string) : provider_object S :=
  mk_provider_object S P (Linode.set_alias_record (P := P) gethostbyname).

End Dnsman.

(** A call that creates, if anything, an A record. *)
Definition creates_a_only (c : Call) : Prop :=
  match c with
  | CallCreate r => DNSRecord.type r = RecordType.A
  | CallCreateCAA _ => False
  | _ => True
  end.
(** A Linode remote whose domain objects agree with its domain listing
    [ds]: asking for a listed domain by its id succeeds and names it. *)
Definition linode_serves_details {World : Type}
           (http : Linode.request -> World -> Linode.response * World)
           (ds : list Linode.domain_obj) : Prop :=
  forall d w, In d ds ->
    let answer := fst (http (Linode.GetDomain (Linode.str (Linode.d_id d))) w) in
    Linode.success answer = true
    /\ Linode.data_domain answer = Linode.d_domain d.

(** Outcomes that are not an exception, and outcomes that are no other
    exception than a [ValueError]. *)
Definition never_raises {A : Type} (o : outcome A) : Prop :=
  forall e, o <> Raise e.

Definition raises_only_ValueError {A : Type} (o : outcome A) : Prop :=
  forall e, o = Raise e -> exists msg, e = ValueError msg.

(** ** certman.py *)

Module Certman.

(** The class of a constructed adapter and the certbot attributes the
    three classes declare. *)
Definition class_of (instance : Factory.instance) : Factory.provider_class :=
  match instance with
  | Factory.CloudflareInstance _ => Factory.CloudflareDNSProvider
  | Factory.LinodeInstance _ => Factory.LinodeDNSProvider
  | Factory.NamecheapInstance _ _ _ _ => Factory.NamecheapDNSProvider
  end.

Definition CERTBOT_PLUGIN (c : Factory.provider_class) : string :=
  match c with
  | Factory.CloudflareDNSProvider => "dns-cloudflare"
  | Factory.LinodeDNSProvider => "dns-linode"
  | Factory.NamecheapDNSProvider => "dns-namecheap"
  end.

Definition CERTBOT_PROPAGATION_SECONDS (c : Factory.provider_class) : Z :=
  match c with
  | Factory.CloudflareDNSProvider => 120
  | Factory.LinodeDNSProvider => 300
  | Factory.NamecheapDNSProvider => 120
  end.

Definition CERTBOT_CREDENTIALS_FILE (c : Factory.provider_class) : string :=
  match c with
  | Factory.CloudflareDNSProvider => "~/.cloudflare/cloudflare.ini"
  | Factory.LinodeDNSProvider => "~/.linode/credentials.ini"
  | Factory.NamecheapDNSProvider => "~/.namecheap/namecheap.ini"
  end.

(** [s.strip()] on strings of code points below 256: the characters for
    which [str.isspace] holds are dropped at both ends. *)
Definition isspace (c : Ascii.ascii) : bool :=
  let n := Ascii.nat_of_ascii c in
  ((9 <=? n) && (n <=? 13) || (28 <=? n) && (n <=? 32)
   || (n =? 133) || (n =? 160))%nat.

Fixpoint lstrip (s : string) : string :=
  match s with
  | String c r => if isspace c then lstrip r else s
  | EmptyString => EmptyString
  end.

Fixpoint rstrip (s : string) : string :=
  match s with
  | EmptyString => EmptyString
  | String c r =>
      match rstrip r with
      | EmptyString => if isspace c then EmptyString else String c EmptyString
      | r' => String c r'
      end
  end.

Definition strip (s : string) : string := rstrip (lstrip s).

(** What escapes a method of [CertManager]: an exception of the provider
    layer, or the [RuntimeError] of [_get_certbot_command]. *)
Inductive raised :=
| FromProvider (e : exn)
| RuntimeError (msg : string).

Inductive result (A : Type) :=
| Returned (a : A)
| Raised (e : raised).
Arguments Returned {A} a.
Arguments Raised {A} e.

(** A [subprocess.CompletedProcess] with captured text output. *)
Record completed := mk_completed {
  returncode : Z;
  stdout : string;
  stderr : string
}.

(** The positional [action] argument of the command line. *)
Inductive action := obtain | renew | auto | setup.

(** [action.value], the string [run_action] compares. *)
Definition action_name (a : action) : string :=
  match a with
  | obtain => "obtain" | renew => "renew" | auto => "auto" | setup => "setup"
  end.

Record args := mk_args {
  a_action : action;
  a_domain : option string;
  a_email : option string;
  a_provider : option string
}.

(** A [CertManager]: the provider type given or detected, and the adapter
    the factory built for it. *)
Record manager := mk_manager {
  provider_type : string;
  provider : Factory.instance
}.

(** [CertManager.__init__] *)
Definition CertManager (env : Factory.environ) (provider_type : option string)
  : outcome manager :=
  let selected :=
    if truthy provider_type then Ret (default "" provider_type)
    else Factory._detect_provider_type env in
  match selected with
  | Ret provider_type =>
      match Factory.create_provider env (Some provider_type) with
      | Ret provider => Ret (mk_manager provider_type provider)
      | Raise e => Raise e
      | OutOfFuel => OutOfFuel
      end
  | Raise e => Raise e
  | OutOfFuel => OutOfFuel
  end.

Section Manager.
Context {S : Type}.

(** The machine the script runs on: pip and certbot processes, the
    provider's own checks, the file system. *)
Variable install_plugin : manager -> S -> bool * S.
Variable namecheap_validate_credentials : S -> bool * S.
Variable setup_certbot_credentials : Factory.instance -> S -> bool * S.

(** [_get_certbot_command]: the certbot of the Python environment, or the
    [RuntimeError] raised when there is none. *)
Variable _get_certbot_command : S -> result (list string).
Variable expanduser : string -> string.
Variable exists_ : string -> S -> bool.
Variable isfile : string -> S -> bool.

(** [subprocess.run]: the completed process, or [None] when the call
    raises (a time-out included). *)
Variable subprocess_run : list string -> S -> option completed * S.

(** [provider.validate_credentials()]: only the Namecheap adapter
    overrides the default, which returns [True]. *)
Definition validate_credentials (instance : Factory.instance) (s : S) : bool * S :=
  match instance with
  | Factory.NamecheapInstance _ _ _ _ => namecheap_validate_credentials s
  | _ => (true, s)
  end.

Definition setup_credentials (self : manager) (s : S) : bool * S :=
  setup_certbot_credentials (provider self) s.

Definition _build_certbot_command (self : manager)
           (action domain email : string) (s : S) : result (list string) :=
  let class := class_of (provider self) in
  let plugin := CERTBOT_PLUGIN class in
  if negb (truthy_str plugin)
  then Raised (FromProvider
                 (ValueError ("No certbot plugin configured for "
                              +:+ provider_type self)))
  else
    match _get_certbot_command s with
    | Raised e => Raised e
    | Returned certbot_cmd =>
        let base_cmd :=
          certbot_cmd ++ [action; "-a"; plugin; "--non-interactive"; "-v"] in
        let with_credentials :=
          if truthy_str (CERTBOT_CREDENTIALS_FILE class) then
            let credentials_file :=
              expanduser (CERTBOT_CREDENTIALS_FILE class) in
            if exists_ credentials_file s
            then Returned
                   (base_cmd
                      ++ ["--" +:+ plugin +:+ "-credentials=" +:+ credentials_file])
            else Raised (FromProvider
                           (ValueError ("Credentials file does not exist: "
                                        +:+ credentials_file)))
          else Returned base_cmd in
        match with_credentials with
        | Raised e => Raised e
        | Returned base_cmd =>
            let base_cmd :=
              if String.eqb action "certonly"
              then base_cmd ++ ["--agree-tos"; "--no-eff-email"; "--email"; email;
                                "-d"; domain]
              else base_cmd in
            Returned (base_cmd ++ ["--dns-cloudflare-propagation-seconds=120"])
        end
    end.

Definition obtain_certificate (self : manager)
           (domain email : string) (s : S) : result bool * S :=
  let '(installed, s) := install_plugin self s in
  if negb installed then (Returned false, s)
  else
    let '(valid, s) := validate_credentials (provider self) s in
    if negb valid then (Returned false, s)
    else
      let '(ready, s) := setup_credentials self s in
      if negb ready then (Returned false, s)
      else
        match _build_certbot_command self "certonly" domain email s with
        | Raised e => (Raised e, s)
        | Returned cmd =>
            match subprocess_run cmd s with
            | (Some result, s) =>
                (Returned (returncode result =? 0)%Z, s)
            | (None, s) => (Returned false, s)
            end
        end.

(** [(success, renewed)] *)
Definition renew_certificate (self : manager) (domain : string)
           (s : S) : result (bool * bool) * S :=
  let '(installed, s) := install_plugin self s in
  if negb installed then (Returned (false, false), s)
  else
    match _build_certbot_command self "renew" domain "" s with
    | Raised e => (Raised e, s)
    | Returned cmd =>
        match subprocess_run cmd s with
        | (Some result, s) =>
            if (returncode result =? 0)%Z then (Returned (true, true), s)
            else
              let error_output :=
                if truthy_str (stderr result) then strip (stderr result) else "" in
              let stdout_output :=
                if truthy_str (stdout result) then strip (stdout result) else "" in
              if contains error_output "unrecognized arguments"
              then (Returned (false, false), s)
              else if contains stdout_output "No renewals were attempted"
              then (Returned (true, false), s)
              else (Returned (false, false), s)
        | (None, s) => (Returned (false, false), s)
        end
    end.

Definition certificate_exists (domain : string) (s : S) : bool :=
  isfile ("/etc/letsencrypt/live/" +:+ domain +:+ "/fullchain.pem") s.

(** [(success, needs_evidence)] *)
Definition run_action (self : manager)
           (domain email action : string) (s : S) : result (bool * bool) * S :=
  if String.eqb action "auto" then
    if certificate_exists domain s
    then renew_certificate self domain s
    else match obtain_certificate self domain email s with
         | (Returned success, s) => (Returned (success, success), s)
         | (Raised e, s) => (Raised e, s)
         end
  else if String.eqb action "obtain" then
    match obtain_certificate self domain email s with
    | (Returned success, s) => (Returned (success, success), s)
    | (Raised e, s) => (Raised e, s)
    end
  else if String.eqb action "renew" then renew_certificate self domain s
  else (Raised (FromProvider (ValueError ("Invalid action: " +:+ action))), s).

(** [main], after [parse_args]: the exit status of the process.  Every
    [sys.exit] and both [except] clauses end it; a normal return is status
    0.  For the action [renew] an absent [--email] is handed on as it is;
    [run_action] does not read it on that path and it is written as the
    empty string here. *)
Definition main (env : Factory.environ) (a : args) (s : S) : Z * S :=
  match CertManager env (a_provider a) with
  | Ret manager =>
      match a_action a with
      | setup =>
          let '(installed, s) := install_plugin manager s in
          if negb installed then (1%Z, s)
          else
            let '(ready, s) := setup_credentials manager s in
            if negb ready then (1%Z, s) else (0%Z, s)
      | _ =>
          if negb (truthy (a_domain a)) then (1%Z, s)
          else
            let missing_email :=
              match a_action a with
              | obtain | auto => negb (truthy (a_email a))
              | _ => false
              end in
            if missing_email && negb (truthy (env !! "CERTBOT_EMAIL"))
            then (1%Z, s)
            else
              let email :=
                if missing_email then default "" (env !! "CERTBOT_EMAIL")
                else default "" (a_email a) in
              match run_action manager (default "" (a_domain a)) email
                               (action_name (a_action a)) s with
              | (Returned (success, needs_evidence), s) =>
                  if negb success then (1%Z, s)
                  else if negb needs_evidence then (2%Z, s)
                  else (0%Z, s)
              | (Raised _, s) => (1%Z, s)
              end
      end
  | _ => (1%Z, s)
  end.

End Manager.

End Certman.


(** * Properties *)

(** ** The state and exception monad *)

Lemma bind_ret_l {S A B} (a : A) (k : A -> M S B) s : bind (ret a) k s = k a s.
Proof. reflexivity. Qed.

Lemma bind_Ret {S A B} (m : M S A) (k : A -> M S B) s a s' :
  m s = (Ret a, s') -> bind m k s = k a s'.
Proof. intros H. unfold bind. now rewrite H. Qed.

Lemma bind_Raise {S A B} (m : M S A) (k : A -> M S B) s e s' :
  m s = (Raise e, s') -> bind m k s = (Raise e, s').
Proof. intros H. unfold bind. now rewrite H. Qed.

(** ** Strings *)

Lemma endswith_length s suf :
  endswith s suf = true -> String.length suf <= String.length s.
Proof.
  unfold endswith. intros H. apply andb_prop in H as [H _].
  now apply Nat.leb_le.
Qed.

Lemma string_length_append s1 s2 :
  String.length (s1 +:+ s2) = String.length s1 + String.length s2.
Proof.
  induction s1 as [|c s1 IH]; [reflexivity|].
  change (String c s1 +:+ s2) with (String c (s1 +:+ s2)).
  cbn [String.length]. now rewrite IH.
Qed.

Lemma substring_all s : String.substring 0 (String.length s) s = s.
Proof. induction s as [|c s IH]; [reflexivity|]. cbn. now rewrite IH. Qed.

Lemma substring_split s : forall n,
  n <= String.length s ->
  String.substring 0 n s +:+ String.substring n (String.length s - n) s = s.
Proof.
  induction s as [|c s IH]; intros [|n] Hn; cbn in Hn; try lia.
  - reflexivity.
  - cbn [String.length Nat.sub]. change ("" +:+ ?x) with x.
    apply (substring_all (String c s)).
  - cbn [String.length Nat.sub String.substring].
    change (String c ?x +:+ ?y) with (String c (x +:+ y)).
    rewrite IH by lia. reflexivity.
Qed.

Lemma substring_append pre suf :
  String.substring (String.length pre) (String.length suf) (pre +:+ suf) = suf.
Proof.
  induction pre as [|c pre IH]; [apply substring_all|].
  change (String c pre +:+ suf) with (String c (pre +:+ suf)). exact IH.
Qed.

(** [endswith] is the suffix test. *)
Lemma endswith_spec s suf :
  endswith s suf = true <-> exists pre, s = pre +:+ suf.
Proof.
  unfold endswith. rewrite andb_true_iff, Nat.leb_le, String.eqb_eq. split.
  - intros [Hlen Hsub].
    exists (String.substring 0 (String.length s - String.length suf) s).
    pose proof (substring_split s (String.length s - String.length suf)) as H.
    replace (String.length s - (String.length s - String.length suf))
      with (String.length suf) in H by lia.
    rewrite Hsub in H. symmetry. apply H. lia.
  - intros [pre ->]. rewrite string_length_append. split; [lia|].
    replace (String.length pre + String.length suf - String.length suf)
      with (String.length pre) by lia.
    apply substring_append.
Qed.

Lemma truthy_str_nonempty s : truthy_str s = true <-> s <> "".
Proof.
  unfold truthy_str. destruct (String.eqb_spec s ""); simpl; split; congruence.
Qed.

Lemma existsb_stops_all (same : DNSRecord.t -> bool) l :
  existsb (stops (fun _ => true) same) l = existsb same l.
Proof. induction l as [|r l IH]; simpl; [reflexivity|]. now rewrite IH. Qed.

(** ** The shared loops *)

(** Runs the listing call that opens a [set_*] helper on the spied
    provider, given what the listing returns. *)
Ltac listing_step Hget :=
  unfold bind at 1 3; cbn [get_dns_records spy logged]; rewrite Hget.

(** Splits a membership in [l ++ [x]] into its two cases. *)
Ltac in_snoc H := apply in_app_or in H as [H|[<-|[]]].

Section Loops.
Context {S : Type} (P : DNSProvider S).

Lemma set_a_record_loop_shape name ip recs :
  Base.set_a_record_loop name ip recs
  = reconcile_loop (fun _ => true)
      (fun r => String.eqb (DNSRecord.content r) ip) name recs.
Proof.
  induction recs as [|r rest IH]; simpl; [reflexivity|].
  destruct (String.eqb _ _); [reflexivity|]. now rewrite IH.
Qed.

Lemma set_cname_record_loop_shape name content recs :
  Base.set_cname_record_loop name content recs
  = reconcile_loop (fun _ => true)
      (fun r => String.eqb (DNSRecord.content r) content) name recs.
Proof.
  induction recs as [|r rest IH]; simpl; [reflexivity|].
  destruct (String.eqb _ _); [reflexivity|]. now rewrite IH.
Qed.

Lemma set_txt_record_loop_shape name content recs :
  Base.set_txt_record_loop name content recs
  = reconcile_loop (fun _ => true)
      (fun r => Base.txt_same_content r content) name recs.
Proof.
  induction recs as [|r rest IH]; simpl; [reflexivity|].
  destruct (Base.txt_same_content _ _); [reflexivity|]. now rewrite IH.
Qed.

Lemma set_caa_record_loop_shape name tag value recs :
  Base.set_caa_record_loop name tag value recs
  = reconcile_loop (fun r => Base.caa_same_tag r tag)
      (fun r => Base.data_get_is r "value" value) name recs.
Proof.
  induction recs as [|r rest IH]; simpl; [reflexivity|].
  destruct (Base.caa_same_tag _ _); [|exact IH].
  destruct (Base.data_get_is _ _ _); [reflexivity|]. now rewrite IH.
Qed.

End Loops.

Section Spied.
Context {S : Type} (P : DNSProvider S).
Hypothesis Hdel : deletes_return P.

Lemma delete_each_returns name ids s :
  fst (delete_each name ids s) = Ret tt.
Proof using Hdel.
  revert s. induction ids as [|rid rest IH]; intros s; simpl; [reflexivity|].
  destruct (Hdel rid name s) as (b & s' & E).
  rewrite (bind_Ret _ _ _ _ _ E). apply IH.
Qed.

Lemma reconcile_loop_spy relevant same name recs s log :
  reconcile_loop (P := spy P) relevant same name recs (s, log)
  = (Ret (if existsb (stops relevant same) recs then Some true else None),
     (snd (delete_each name (doomed relevant (walked relevant same recs)) s),
      log ++ delete_calls name (doomed relevant (walked relevant same recs)))).
Proof using Hdel.
  revert s log. induction recs as [|r rest IH]; intros s log.
  - simpl. now rewrite app_nil_r.
  - cbn [reconcile_loop existsb walked].
    assert (Hst : stops relevant same r = relevant r && same r) by reflexivity.
    rewrite !Hst. clear Hst.
    destruct (relevant r) eqn:Er; cbn [andb orb].
    + destruct (same r) eqn:Es; cbn [andb orb doomed].
      * simpl. now rewrite app_nil_r.
      * unfold Base.delete_if_id. rewrite Er.
        destruct (DNSRecord.id r) as [rid|]; cbn [andb].
        -- destruct (truthy_str rid); cbn [when].
           ++ destruct (Hdel rid name s) as (b & s' & E).
              cbn [delete_each map delete_calls].
              rewrite (bind_Ret _ _ _ _ _ E).
              unfold bind at 1, ignore, bind at 1.
              cbn [delete_dns_record spy logged]. rewrite E.
              cbn [ret]. rewrite IH. unfold delete_calls. cbn [map].
              now rewrite <- app_assoc.
           ++ apply IH.
        -- apply IH.
    + rewrite IH. cbn [doomed]. rewrite Er. destruct (DNSRecord.id r); reflexivity.
Qed.

Lemma walked_all relevant same recs :
  existsb (stops relevant same) recs = false ->
  walked relevant same recs = recs.
Proof.
  induction recs as [|r rest IH]; simpl; [reflexivity|].
  destruct (stops relevant same r); simpl; [discriminate|].
  intros H. now rewrite IH.
Qed.

(** The body shared by the four [set_*] helpers, run on the spied
    provider: list, walk, then either stop or call [finish]. *)
Lemma reconcile_spy relevant same name ty (finish : M (S * list Call) bool)
      recs s s1 log :
  get_dns_records name ty s = (Ret recs, s1) ->
  (let* existing_records := get_dns_records (DNSProvider := spy P) name ty in
   let* early := reconcile_loop (P := spy P) relevant same name existing_records in
   match early with
   | Some b => ret b
   | None => finish
   end) (s, log)
  = let before := walked relevant same recs in
    let st := (snd (delete_each name (doomed relevant before) s1),
               log ++ [CallGet name ty] ++ delete_calls name (doomed relevant before)) in
    if existsb (stops relevant same) recs then (Ret true, st) else finish st.
Proof using Hdel.
  intros Hget. cbn zeta.
  unfold bind at 1. cbn [get_dns_records spy logged]. rewrite Hget.
  unfold bind at 1. rewrite reconcile_loop_spy.
  rewrite <- app_assoc.
  destruct (existsb _ recs); reflexivity.
Qed.

Lemma reconcile_spy_head relevant same name ty (finish : M (S * list Call) bool)
      r rest s s1 log :
  get_dns_records name ty s = (Ret (r :: rest), s1) ->
  stops relevant same r = true ->
  (let* existing_records := get_dns_records (DNSProvider := spy P) name ty in
   let* early := reconcile_loop (P := spy P) relevant same name existing_records in
   match early with
   | Some b => ret b
   | None => finish
   end) (s, log)
  = (Ret true, (s1, log ++ [CallGet name ty])).
Proof using Hdel.
  intros Hget Hr. rewrite (reconcile_spy _ _ _ _ _ _ _ _ _ Hget).
  cbn [existsb walked]. rewrite Hr. cbn [orb doomed delete_each ret snd].
  unfold delete_calls. cbn [map]. now rewrite app_nil_r.
Qed.

End Spied.

(** ** The in-memory provider *)

Module SimFacts.
Import Sim.

Lemma deletes_return_sim : deletes_return Sim.provider.
Proof. intros rid dom st. eexists _, _. reflexivity. Qed.

Lemma delete_each_sim name ids st :
  delete_each name ids st
  = (Ret tt, mk (List.filter (survives ids) (records st)) (next_id st)).
Proof.
  revert st. induction ids as [|rid rest IH]; intros [recs n]; simpl.
  - unfold ret. f_equal. f_equal.
    induction recs as [|r recs IHr]; simpl; [reflexivity|]. now rewrite <- IHr.
  - unfold bind. rewrite IH. simpl. f_equal. f_equal.
    induction recs as [|r recs IHr]; simpl; [reflexivity|].
    destruct (has_id rid r); simpl; [exact IHr|].
    destruct (survives rest r); simpl; [now rewrite IHr | exact IHr].
Qed.

Lemma filter_comm {A} (f g : A -> bool) l :
  List.filter f (List.filter g l) = List.filter g (List.filter f l).
Proof.
  induction l as [|x l IH]; simpl; [reflexivity|].
  destruct (f x) eqn:Ef, (g x) eqn:Eg; simpl; rewrite ?Ef, ?Eg, IH; reflexivity.
Qed.

(** With distinct non-empty ids, the deletes issued for a prefix of the
    listing remove that prefix and nothing else of the listing. *)
Lemma survives_prefix relevant (before after : list DNSRecord.t) :
  (forall r, In r before -> relevant r = true) ->
  NoDup (List.map DNSRecord.id (before ++ after)) ->
  Forall (fun r => truthy (DNSRecord.id r) = true) (before ++ after) ->
  List.filter (survives (doomed relevant before)) (before ++ after) = after.
Proof.
  revert after. induction before as [|r before IH]; intros after Hrel Hnd Hid.
  - simpl. clear Hrel Hnd Hid. induction after as [|x l IHl]; simpl; [reflexivity|].
    now rewrite IHl.
  - simpl in Hnd, Hid. inversion Hnd as [|? ? Hnotin Hnd']; subst.
    inversion Hid as [|? ? Hr Hid']; subst.
    cbn [doomed]. rewrite (Hrel r) by now left.
    destruct (DNSRecord.id r) as [rid|] eqn:Eid; [|discriminate Hr].
    simpl in Hr. rewrite Hr. cbn [andb app List.filter].
    assert (Hself : survives (rid :: doomed relevant before) r = false).
    { unfold survives. cbn [forallb]. unfold has_id. rewrite Eid.
      now rewrite bool_decide_eq_true_2. }
    rewrite Hself.
    rewrite <- (IH after) at 2; [|intros; apply Hrel; now right|assumption|assumption].
    apply filter_ext_in_iff. intros x Hx. unfold survives. cbn [forallb].
    replace (negb (has_id rid x)) with true; [reflexivity|].
    symmetry. apply negb_true_iff. unfold has_id. apply bool_decide_eq_false_2.
    intros Hx'. apply Hnotin. rewrite <- Hx'.
    apply list_elem_of_In. now apply in_map.
Qed.

Lemma walked_reached relevant same l :
  walked relevant same l ++ reached relevant same l = l.
Proof.
  induction l as [|r rest IH]; simpl; [reflexivity|].
  destruct (stops relevant same r); simpl; [reflexivity|]. now rewrite IH.
Qed.

Lemma reached_cases relevant same l :
  if existsb (stops relevant same) l
  then exists r rest, reached relevant same l = r :: rest /\ stops relevant same r = true
  else reached relevant same l = [].
Proof.
  induction l as [|r rest IH]; simpl; [reflexivity|].
  destruct (stops relevant same r) eqn:E; simpl; [eauto|exact IH].
Qed.

Lemma wf_listing name ty st :
  wf st ->
  NoDup (List.map DNSRecord.id (listing name ty st))
  /\ Forall (fun r => truthy (DNSRecord.id r) = true) (listing name ty st).
Proof.
  intros [Hnd Hid]. unfold listing. split.
  - clear Hid. revert Hnd. generalize (records st) as l.
    induction l as [|r l IH]; simpl; intros Hnd; [constructor|].
    apply NoDup_cons in Hnd as [Hr Hl]. specialize (IH Hl).
    destruct (listed name ty r); simpl; [|exact IH].
    apply NoDup_cons. split; [|exact IH].
    intros Hin. apply Hr. apply list_elem_of_In in Hin. apply list_elem_of_In.
    apply in_map_iff in Hin as (x & Hx & Hin). apply in_map_iff.
    exists x. split; [exact Hx|]. apply filter_In in Hin. tauto.
  - apply Forall_forall. intros r Hr. apply list_elem_of_In, filter_In in Hr as [Hr _].
    rewrite Forall_forall in Hid. apply Hid. now apply list_elem_of_In.
Qed.

(** After the deletes of one walk, the listing is what the walk had not
    reached. *)
Lemma listing_after_walk same name ty st :
  wf st ->
  let recs := listing name ty st in
  let ids := doomed (fun _ => true) (walked (fun _ => true) same recs) in
  listing name ty (snd (delete_each name ids st))
  = reached (fun _ => true) same recs.
Proof.
  intros Hwf recs ids. rewrite delete_each_sim. cbn [snd]. unfold listing.
  cbn [records]. rewrite filter_comm. fold (listing name ty st). fold recs.
  destruct (wf_listing name ty st Hwf) as [Hnd Hid]. fold recs in Hnd, Hid.
  pose proof (survives_prefix (fun _ => true)
                (walked (fun _ => true) same recs)
                (reached (fun _ => true) same recs)) as H.
  rewrite walked_reached in H. apply H; auto.
Qed.

End SimFacts.

(** ** C1: [set_a_record] *)

Section SetA.
Context {S : Type} (P : DNSProvider S).
Hypothesis Hdel : deletes_return P.

Lemma set_a_record_spy name ip ttl proxied recs s s1 log :
  get_dns_records name (Some RecordType.A) s = (Ret recs, s1) ->
  let same r := String.eqb (DNSRecord.content r) ip in
  let ids := doomed (fun _ => true) (walked (fun _ => true) same recs) in
  let st := (snd (delete_each name ids s1),
             log ++ [CallGet name (Some RecordType.A)]
                 ++ delete_calls name ids) in
  Base.set_a_record (P := spy P) name ip ttl proxied (s, log)
  = if existsb same recs
    then (Ret true, st)
    else create_dns_record (DNSProvider := spy P)
           (DNSRecord.mk None name RecordType.A ip ttl proxied None None) st.
Proof using Hdel.
  intros Hget same ids st.
  pose proof (reconcile_spy P Hdel (fun _ => true) same name _
                (create_dns_record (DNSProvider := spy P)
                   (DNSRecord.mk None name RecordType.A ip ttl proxied None None))
                _ _ _ log Hget) as H.
  cbn zeta in H. fold ids in H. fold st in H.
  rewrite existsb_stops_all in H.
  etransitivity; [|exact H].
  unfold Base.set_a_record. listing_step Hget.
  now rewrite set_a_record_loop_shape.
Qed.

End SetA.

Lemma doomed_spec relevant l rid :
  In rid (doomed relevant l)
  <-> exists r, In r l /\ relevant r = true /\ DNSRecord.id r = Some rid /\ rid <> "".
Proof.
  induction l as [|r l IH]; simpl.
  - split; [tauto|]. intros (? & [] & _).
  - destruct (DNSRecord.id r) as [i|] eqn:Ei.
    + destruct (relevant r) eqn:Er, (truthy_str i) eqn:Et; simpl; rewrite IH.
      * split.
        -- intros [->|(x & ? & ?)]; [|exists x; tauto].
           exists r. rewrite Ei. apply truthy_str_nonempty in Et. tauto.
        -- intros (x & [<-|Hx] & Hrel & Hid & Hne).
           ++ left. congruence.
           ++ right. exists x. tauto.
      * split; [intros (x & ? & ?); exists x; tauto|].
        intros (x & [<-|Hx] & Hrel & Hid & Hne); [|exists x; tauto].
        apply truthy_str_nonempty in Hne. congruence.
      * split; [intros (x & ? & ?); exists x; tauto|].
        intros (x & [<-|Hx] & Hrel & Hid & Hne); [congruence|exists x; tauto].
      * split; [intros (x & ? & ?); exists x; tauto|].
        intros (x & [<-|Hx] & Hrel & Hid & Hne); [congruence|exists x; tauto].
    + rewrite IH. split; [intros (x & ? & ?); exists x; tauto|].
      intros (x & [<-|Hx] & Hrel & Hid & Hne); [congruence|exists x; tauto].
Qed.

Lemma sim_set_a_record_twice (st : Sim.state) name ip ttl proxied log :
  Sim.wf st ->
  exists st1 log1,
    Base.set_a_record (P := spy Sim.provider) name ip ttl proxied (st, log)
    = (Ret true, (st1, log1))
    /\ Base.set_a_record (P := spy Sim.provider) name ip ttl proxied (st1, log1)
       = (Ret true, (st1, log1 ++ [CallGet name (Some RecordType.A)]))
    /\ (exists r rest,
          Sim.listing name (Some RecordType.A) st1 = r :: rest
          /\ DNSRecord.content r = ip)
    /\ (existsb (fun r => String.eqb (DNSRecord.content r) ip)
                (Sim.listing name (Some RecordType.A) st) = false ->
        exists r,
          Sim.listing name (Some RecordType.A) st1 = [r]
          /\ DNSRecord.content r = ip).
Proof.
  intros Hwf.
  set (same := fun r => String.eqb (DNSRecord.content r) ip).
  set (recs := Sim.listing name (Some RecordType.A) st).
  assert (Hget : get_dns_records name (Some RecordType.A) st = (Ret recs, st))
    by reflexivity.
  pose proof (set_a_record_spy Sim.provider SimFacts.deletes_return_sim
                name ip ttl proxied recs st st log Hget) as Hrun.
  cbn zeta in Hrun. fold same in Hrun |- *.
  pose proof (SimFacts.listing_after_walk same name (Some RecordType.A) st Hwf)
    as Hlist.
  cbn zeta in Hlist. fold recs in Hlist.
  pose proof (SimFacts.reached_cases (fun _ => true) same recs) as Hcase.
  rewrite existsb_stops_all in Hcase.
  set (ids := doomed (fun _ => true) (walked (fun _ => true) same recs)) in *.
  set (st' := snd (delete_each name ids st)) in *.
  destruct (existsb same recs) eqn:Ex.
  - destruct Hcase as (r & rest & Hreached & Hr).
    rewrite Hreached in Hlist.
    eexists _, _. split; [exact Hrun|]. split; [|split].
    + assert (Hget' : get_dns_records name (Some RecordType.A) st'
                      = (Ret (r :: rest), st')).
      { cbn [get_dns_records Sim.provider]. unfold gets. now rewrite Hlist. }
      pose proof (set_a_record_spy Sim.provider SimFacts.deletes_return_sim
                    name ip ttl proxied _ _ _
                    (log ++ [CallGet name (Some RecordType.A)]
                         ++ delete_calls name ids) Hget') as H2.
      cbn zeta in H2. fold same in H2. cbn [existsb walked] in H2.
      assert (Hs : same r = true) by exact Hr.
      unfold stops in H2. rewrite Hs in H2.
      cbn [orb andb doomed delete_each ret snd map] in H2.
      rewrite H2. now rewrite app_nil_r.
    + exists r, rest. split; [exact Hlist|].
      cbn in Hr. now apply String.eqb_eq in Hr.
    + discriminate.
  - set (new_record := DNSRecord.mk None name RecordType.A ip ttl proxied None None) in *.
    set (log' := log ++ [CallGet name (Some RecordType.A)]
                     ++ delete_calls name ids) in *.
    set (created := Sim.with_id (Sim.fresh st') new_record).
    set (st1 := Sim.mk (Sim.records st' ++ [created]) (Datatypes.S (Sim.next_id st'))).
    assert (Hlist1 : Sim.listing name (Some RecordType.A) st1 = [created]).
    { unfold Sim.listing, st1. cbn [Sim.records]. rewrite List.filter_app.
      fold (Sim.listing name (Some RecordType.A) st'). rewrite Hlist, Hcase.
      cbn [app List.filter].
      assert (Hl : Sim.listed name (Some RecordType.A) created = true).
      { unfold Sim.listed, created. cbn. now rewrite String.eqb_refl. }
      now rewrite Hl. }
    exists st1, (log' ++ [CallCreate new_record]).
    split; [exact Hrun|]. split; [|split].
    + assert (Hget' : get_dns_records name (Some RecordType.A) st1
                      = (Ret [created], st1)).
      { cbn [get_dns_records Sim.provider]. unfold gets. now rewrite Hlist1. }
      pose proof (set_a_record_spy Sim.provider SimFacts.deletes_return_sim
                    name ip ttl proxied _ _ _ (log' ++ [CallCreate new_record])
                    Hget') as H2.
      cbn zeta in H2. fold same in H2. cbn [existsb walked] in H2.
      assert (Hc : same created = true) by (cbn; apply String.eqb_refl).
      unfold stops in H2. rewrite Hc in H2.
      cbn [orb andb doomed delete_each ret snd map] in H2.
      rewrite H2. now rewrite app_nil_r.
    + exists created, []. split; [exact Hlist1|reflexivity].
    + intros _. exists created. split; [exact Hlist1|reflexivity].
Qed.

Lemma logged_run {S A} (c : Call) (m : M S A) s log :
  logged c m (s, log) = (fst (m s), (snd (m s), log ++ [c])).
Proof. unfold logged. now destruct (m s). Qed.




(** ** C7: [set_txt_record] *)

Section SetTxt.
Context {S : Type} (P : DNSProvider S).
Hypothesis Hdel : deletes_return P.

Lemma set_txt_record_spy name content ttl recs s s1 log :
  get_dns_records name (Some RecordType.TXT) s = (Ret recs, s1) ->
  let same r := Base.txt_same_content r content in
  let ids := doomed (fun _ => true) (walked (fun _ => true) same recs) in
  let st := (snd (delete_each name ids s1),
             log ++ [CallGet name (Some RecordType.TXT)]
                 ++ delete_calls name ids) in
  Base.set_txt_record (P := spy P) name content ttl (s, log)
  = if existsb same recs
    then (Ret true, st)
    else create_dns_record (DNSProvider := spy P)
           (DNSRecord.mk None name RecordType.TXT content ttl false None None) st.
Proof using Hdel.
  intros Hget same ids st.
  pose proof (reconcile_spy P Hdel (fun _ => true) same name _
                (create_dns_record (DNSProvider := spy P)
                   (DNSRecord.mk None name RecordType.TXT content ttl false None None))
                _ _ _ log Hget) as H.
  cbn zeta in H. rewrite existsb_stops_all in H.
  etransitivity; [|exact H].
  unfold Base.set_txt_record. listing_step Hget.
  now rewrite set_txt_record_loop_shape.
Qed.

End SetTxt.

Lemma txt_same_content_spec r content :
  Base.txt_same_content r content = true
  <-> DNSRecord.content r = content \/ DNSRecord.content r = quoted content.
Proof.
  unfold Base.txt_same_content. rewrite orb_true_iff, !String.eqb_eq. tauto.
Qed.




(** ** C3 and C10: [set_caa_record] *)

Lemma caa_same_tag_spec r tag :
  Base.caa_same_tag r tag = true
  <-> exists d, DNSRecord.data r = Some d /\ d <> ∅ /\ d !! "tag" = Some (PyStr tag).
Proof.
  unfold Base.caa_same_tag, Base.data_get_is, truthy_dict.
  destruct (DNSRecord.data r) as [d|]; simpl.
  - rewrite andb_true_iff, negb_true_iff, bool_decide_eq_false, bool_decide_eq_true.
    split.
    + intros [? ?]. exists d. auto.
    + intros (d' & [= <-] & ? & ?). auto.
  - split; [discriminate|]. intros (d & [=] & _).
Qed.

Lemma caa_unstructured_ignored r tag :
  DNSRecord.data r = None \/ DNSRecord.data r = Some ∅ ->
  Base.caa_same_tag r tag = false.
Proof.
  intros [H|H]; unfold Base.caa_same_tag; rewrite H; reflexivity.
Qed.

Lemma walked_sub relevant same l r : In r (walked relevant same l) -> In r l.
Proof.
  induction l as [|x l IH]; simpl; [tauto|].
  destruct (stops relevant same x); simpl; [tauto|]. intuition.
Qed.

Lemma walked_skip relevant same others r rest :
  Forall (fun x => relevant x = false) others ->
  stops relevant same r = true ->
  walked relevant same (others ++ r :: rest) = others
  /\ doomed relevant others = []
  /\ existsb (stops relevant same) (others ++ r :: rest) = true.
Proof.
  intros Hothers Hr. induction Hothers as [|x others Hx _ IH].
  - cbn [app walked doomed existsb]. now rewrite Hr.
  - destruct IH as (IH1 & IH2 & IH3).
    assert (Hs : stops relevant same x = false) by (unfold stops; now rewrite Hx).
    cbn [app walked doomed existsb]. rewrite Hs, Hx, IH1, IH2, IH3.
    now destruct (DNSRecord.id x).
Qed.

Section SetCaa.
Context {S : Type} (P : DNSProvider S).
Hypothesis Hdel : deletes_return P.

Lemma set_caa_record_spy name tag value flags ttl recs s s1 log :
  get_dns_records name (Some RecordType.CAA) s = (Ret recs, s1) ->
  let same_tag r := Base.caa_same_tag r tag in
  let same_value r := Base.data_get_is r "value" value in
  let ids := doomed same_tag (walked same_tag same_value recs) in
  let st := (snd (delete_each name ids s1),
             log ++ [CallGet name (Some RecordType.CAA)]
                 ++ delete_calls name ids) in
  Base.set_caa_record (P := spy P) name tag value flags ttl (s, log)
  = if existsb (stops same_tag same_value) recs
    then (Ret true, st)
    else create_caa_record (DNSProvider := spy P)
           (CAARecord.mk name flags tag value ttl) st.
Proof using Hdel.
  intros Hget same_tag same_value ids st.
  pose proof (reconcile_spy P Hdel same_tag same_value name _
                (create_caa_record (DNSProvider := spy P)
                   (CAARecord.mk name flags tag value ttl))
                _ _ _ log Hget) as H.
  cbn zeta in H. etransitivity; [|exact H].
  unfold Base.set_caa_record. listing_step Hget.
  now rewrite set_caa_record_loop_shape.
Qed.

End SetCaa.




Section Frame.
Context {S : Type} (P : DNSProvider S).

Lemma reconcile_loop_filter relevant same name recs (s : S) :
  reconcile_loop relevant same name recs s
  = reconcile_loop relevant same name (List.filter relevant recs) s.
Proof.
  revert s. induction recs as [|r rest IH]; intros s; [reflexivity|].
  cbn [reconcile_loop List.filter]. destruct (relevant r) eqn:Er.
  - cbn [reconcile_loop]. rewrite Er. destruct (same r); [reflexivity|].
    unfold bind. destruct (Base.delete_if_id r name s) as [[?| |] ?]; auto.
  - apply IH.
Qed.

Lemma delete_if_id_log r name (s : S) log :
  exists new,
    snd (snd (Base.delete_if_id (P := spy P) r name (s, log))) = log ++ new
    /\ Forall (fun c => exists rid, c = CallDelete rid name
                                    /\ DNSRecord.id r = Some rid) new.
Proof.
  unfold Base.delete_if_id. destruct (DNSRecord.id r) as [rid|].
  - destruct (truthy_str rid); cbn [when].
    + unfold ignore, bind. cbn [delete_dns_record spy]. rewrite logged_run.
      exists [CallDelete rid name]. split.
      * now destruct (fst (delete_dns_record rid name s)).
      * repeat constructor. eauto.
    + exists []. split; [now rewrite app_nil_r|constructor].
  - exists []. split; [now rewrite app_nil_r|constructor].
Qed.

Lemma reconcile_loop_log relevant same name recs (s : S) log :
  exists new,
    snd (snd (reconcile_loop (P := spy P) relevant same name recs (s, log)))
    = log ++ new
    /\ Forall (fun c => exists rid r,
                   c = CallDelete rid name /\ In r recs
                   /\ relevant r = true /\ DNSRecord.id r = Some rid) new.
Proof.
  revert s log. induction recs as [|r rest IH]; intros s log.
  - exists []. split; [now rewrite app_nil_r|constructor].
  - cbn [reconcile_loop]. destruct (relevant r) eqn:Er.
    + destruct (same r).
      * exists []. split; [now rewrite app_nil_r|constructor].
      * destruct (delete_if_id_log r name s log) as (new1 & E1 & F1).
        unfold bind.
        destruct (Base.delete_if_id r name (s, log)) as [[[]| |] [s' log']];
          cbn [snd] in E1; subst log'.
        -- destruct (IH s' (log ++ new1)) as (new2 & E2 & F2).
           exists (new1 ++ new2). split; [now rewrite E2, app_assoc|].
           apply Forall_app. split.
           ++ eapply Forall_impl; [exact F1|]. intros c (rid & -> & Hid).
              exists rid, r. simpl. auto.
           ++ eapply Forall_impl; [exact F2|]. intros c (rid & x & -> & ? & ?).
              exists rid, x. simpl. auto.
        -- exists new1. split; [reflexivity|].
           eapply Forall_impl; [exact F1|]. intros c (rid & -> & Hid).
           exists rid, r. simpl. auto.
        -- exists new1. split; [reflexivity|].
           eapply Forall_impl; [exact F1|]. intros c (rid & -> & Hid).
           exists rid, r. simpl. auto.
    + destruct (IH s log) as (new & E & F). exists new. split; [exact E|].
      eapply Forall_impl; [exact F|]. intros c (rid & x & -> & ? & ?).
      exists rid, x. simpl. auto.
Qed.

Lemma reconcile_loop_early relevant same name recs (s : S) b :
  fst (reconcile_loop relevant same name recs s) = Ret (Some b) ->
  b = true /\ exists r, In r recs /\ relevant r = true /\ same r = true.
Proof.
  revert s. induction recs as [|r rest IH]; intros s; [discriminate|].
  cbn [reconcile_loop]. destruct (relevant r) eqn:Er.
  - destruct (same r) eqn:Es.
    + intros [= <-]. split; [reflexivity|]. exists r. simpl. auto.
    + unfold bind. destruct (Base.delete_if_id r name s) as [[[]| |] s'];
        try discriminate.
      intros H. apply IH in H as (? & x & ? & ?). split; [assumption|].
      exists x. simpl. auto.
  - intros H. apply IH in H as (? & x & ? & ?). split; [assumption|].
    exists x. simpl. auto.
Qed.

End Frame.

(** C10.  In the loop of [set_caa_record] a listed record counts exactly
    when its data map is present, non-empty and maps the key tag to the
    requested tag; a record whose data is [None] or the empty map never
    counts.  The loop run on a listing and on the listing with all other
    records removed give the same result, final state and call log; every
    call the loop adds to the log is a delete for the id of a record that
    counts; and a [return True] inside the loop is due to a record that
    counts and carries the requested value. *)
Theorem set_caa_record_skips_unstructured
        (S : Type) (P : DNSProvider S) (name tag value : string)
        (recs : list DNSRecord.t) (s : S) (log : list Call) :
  let considered r := Base.caa_same_tag r tag in
  let loop l :=
    Base.set_caa_record_loop (P := spy P) name tag value l (s, log) in
  (forall r, DNSRecord.data r = None \/ DNSRecord.data r = Some ∅ ->
             considered r = false)
  /\ (forall r, considered r = true
                <-> exists d, DNSRecord.data r = Some d /\ d <> ∅
                              /\ d !! "tag" = Some (PyStr tag))
  /\ loop recs = loop (List.filter considered recs)
  /\ (exists new,
         snd (snd (loop recs)) = log ++ new
         /\ Forall (fun c => exists rid r,
                        c = CallDelete rid name /\ In r recs
                        /\ considered r = true /\ DNSRecord.id r = Some rid) new)
  /\ (forall b, fst (loop recs) = Ret (Some b) ->
                b = true
                /\ exists r, In r recs /\ considered r = true
                             /\ Base.data_get_is r "value" value = true).
Proof.
  intros considered loop. unfold loop.
  rewrite !set_caa_record_loop_shape.
  split; [|split; [|split; [|split]]].
  - intros r. apply caa_unstructured_ignored.
  - intros r. apply caa_same_tag_spec.
  - apply reconcile_loop_filter.
  - apply reconcile_loop_log.
  - intros b. apply reconcile_loop_early.
Qed.

Lemma set_caa_record_skips_unstructured_witness :
  let recs := [sim_record (Some "r0") "example.com" RecordType.CAA "0 issue old-ca.org";
               sim_caa (Some "r1") "example.com" "issue" "other-ca.org"] in
  Base.set_caa_record_loop (P := spy Sim.provider) "example.com" "issue"
    "letsencrypt.org" recs (Sim.mk recs 2, [])
  = (Ret None,
     (Sim.mk [sim_record (Some "r0") "example.com" RecordType.CAA "0 issue old-ca.org"] 2,
      [CallDelete "r1" "example.com"])).
Proof.
  intros recs.
  destruct (set_caa_record_skips_unstructured _ Sim.provider "example.com" "issue"
              "letsencrypt.org" recs (Sim.mk recs 2) []) as (_ & _ & H & _).
  rewrite H. vm_compute. reflexivity.
Defined.

(** ** C2: zone resolution *)

Module CloudflareFacts.
Import Cloudflare.

Section Resolution.
Context {World : Type} (http : request -> World -> response * World).
Variable domain : string.

(** A zone covers a name when the name is the zone name or ends with a dot
    followed by the zone name. *)
Lemma cf_covers_spec zn :
  covers zn domain = true
  <-> domain = zn \/ exists pre, domain = pre +:+ "." +:+ zn.
Proof.
  unfold covers. now rewrite orb_true_iff, String.eqb_eq, endswith_spec.
Qed.

Lemma cf_covers_length zn : covers zn domain = true -> String.length zn <= String.length domain.
Proof.
  unfold covers. intros H. apply orb_prop in H as [H|H].
  - apply String.eqb_eq in H. now subst.
  - apply endswith_length in H.
    change (String.length ("." +:+ zn)) with (S (String.length zn)) in H. lia.
Qed.

Lemma scan_zones_spec zs : forall seen b,
  best_of domain seen b ->
  match scan_zones domain zs b with
  | inl hit => exists z, In z zs /\ hit = (z_id z, zname z)
                         /\ String.eqb domain (zname z) = true
  | inr b' => best_of domain (seen ++ zs) b'
  end.
Proof.
  induction zs as [|z zs IH]; intros seen b Hb.
  - simpl. now rewrite app_nil_r.
  - cbn [scan_zones]. fold (zname z).
    destruct (String.eqb domain (zname z)) eqn:Eeq.
    + exists z. simpl. auto.
    + destruct Hb as (Hne & Hmax & Hbest).
      assert (Hfin : forall b0, best_of domain (seen ++ [z]) b0 ->
                match scan_zones domain zs b0 with
                | inl hit => exists z0, In z0 (z :: zs) /\ hit = (z_id z0, zname z0)
                                        /\ String.eqb domain (zname z0) = true
                | inr b' => best_of domain (seen ++ z :: zs) b'
                end).
      { intros b0 Hb0. specialize (IH _ _ Hb0).
        destruct (scan_zones domain zs b0) as [hit|b'].
        - destruct IH as (x & Hx & ?). exists x. split; [now right|assumption].
        - now rewrite <- app_assoc in IH. }
      destruct (endswith domain ("." +:+ zname z)) eqn:Eend; cbn [andb].
      * destruct (Nat.ltb_spec (zone_name_len b) (String.length (zname z)))
          as [Hlt|Hge]; apply Hfin.
        -- split; [|split].
           ++ intros x Hx. in_snoc Hx; auto.
           ++ intros x Hx Hend. cbn [zone_name_len].
              in_snoc Hx; [|lia].
              specialize (Hmax x Hx Hend). lia.
           ++ right. exists z. cbn. split; [apply in_or_app; right; now left|auto].
        -- split; [|split].
           ++ intros x Hx. in_snoc Hx; auto.
           ++ intros x Hx Hend.
              in_snoc Hx; [auto|lia].
           ++ destruct Hbest as [?|(x & Hx & ?)]; [now left|right].
              exists x. split; [apply in_or_app; now left|assumption].
      * apply Hfin. split; [|split].
        -- intros x Hx. in_snoc Hx; auto.
        -- intros x Hx Hend.
           in_snoc Hx; [auto|congruence].
        -- destruct Hbest as [?|(x & Hx & ?)]; [now left|right].
           exists x. split; [apply in_or_app; now left|assumption].
Qed.

Variable pages : list (list zone).
Hypothesis Hserve : serves_zones http pages.
Hypothesis Hpages : Forall (fun p => p <> []) pages.
Hypothesis Hwf : Forall wf_zone (concat pages).

Lemma wf_zname z : In z (concat pages) -> zname z <> "".
Proof using Hwf.
  intros Hz. rewrite Forall_forall in Hwf.
  destruct (Hwf z (proj2 (list_elem_of_In _ _) Hz)) as [_ Hn].
  unfold zname. destruct (z_name z) as [n|]; [|discriminate].
  now apply truthy_str_nonempty.
Qed.

Lemma make_request_zones page st :
  exists st',
    _make_request http (GetZones page) st = (Ret (page_response pages page), st').
Proof using Hserve.
  unfold _make_request. specialize (Hserve (world st) page).
  destruct (http (GetZones page) (world st)) as [resp w]. simpl in Hserve.
  subst resp. eauto.
Qed.

Lemma page_loop_spec rest : forall done b n page total st,
  pages = done ++ rest ->
  page = length done + 1 ->
  total = length pages \/ (done = [] /\ total = 1 /\ rest <> []) ->
  best_of domain (concat done) b ->
  length rest < n ->
  exists r st',
    page_loop http n domain page total b st = (Ret r, st')
    /\ longest_match (concat pages) domain r.
Proof using Hserve Hpages Hwf.
  induction rest as [|p rest IH]; intros done b n page total st Hsplit Hpage Htotal Hb Hn.
  - rewrite app_nil_r in Hsplit. subst done.
    destruct Htotal as [->|(_ & _ & [])]; [|reflexivity].
    assert (Hcond : (page <=? length pages)%nat = false)
      by (apply Nat.leb_gt; lia).
    destruct Hb as (Hne & Hmax & Hbest).
    destruct n; cbn [page_loop]; rewrite Hcond.
    all: destruct Hbest as [(Hlen & Hid & Hfound)|(z & Hz & Hid & Hfound & Hlen & Hend)].
    all: rewrite Hid, ?Hfound.
    1,3: eexists _, _; split; [reflexivity|]; intros z Hz; unfold covers;
         rewrite (Hne z Hz); cbn [orb];
         destruct (endswith domain ("." +:+ zname z)) eqn:E; [|reflexivity];
         specialize (Hmax z Hz E); pose proof (wf_zname z Hz) as Hnz;
         destruct (zname z); [congruence|simpl in Hmax; lia].
    all: rewrite Forall_forall in Hwf;
         destruct (Hwf z (proj2 (list_elem_of_In _ _) Hz)) as [Hi Hnm];
         destruct (z_id z) as [zid|] eqn:Ezid; [|discriminate Hi];
         simpl in Hi; rewrite Hi;
         assert (Hzn : truthy_str (zname z) = true)
           by (unfold zname; destruct (z_name z); [exact Hnm|discriminate]);
         rewrite Hzn; cbn [andb];
         eexists _, _; (split; [reflexivity|]);
         exists z; rewrite Ezid; (repeat split; auto);
         [unfold covers; rewrite Hend; apply orb_true_r|];
         intros z' Hz' Hc; unfold covers in Hc; rewrite (Hne z' Hz') in Hc;
         cbn [orb] in Hc; specialize (Hmax z' Hz' Hc); lia.
  - assert (Hcond : (page <=? total)%nat = true).
    { apply Nat.leb_le. destruct Htotal as [->|(-> & -> & _)].
      - rewrite Hsplit, length_app. simpl. lia.
      - simpl in Hpage. lia. }
    destruct n as [|n]; [simpl in Hn; lia|].
    cbn [page_loop]. rewrite Hcond.
    destruct (make_request_zones page st) as (st1 & Hreq).
    rewrite (bind_Ret _ _ _ _ _ Hreq).
    assert (Hnth : nth (page - 1) pages [] = p).
    { rewrite Hsplit, Hpage. replace (length done + 1 - 1) with (length done) by lia.
      rewrite app_nth2 by lia. now rewrite Nat.sub_diag. }
    unfold page_response. cbn [success zones total_pages negb default].
    rewrite Hnth.
    assert (Hp : p <> []).
    { rewrite Forall_forall in Hpages. apply Hpages.
      rewrite Hsplit. apply list_elem_of_In, in_or_app. right. now left. }
    rewrite bool_decide_eq_false_2 by exact Hp. cbn [andb].
    pose proof (scan_zones_spec p (concat done) b Hb) as Hscan.
    destruct (scan_zones domain p b) as [hit|b'].
    + destruct Hscan as (z & Hz & -> & Heq).
      eexists _, _. split; [reflexivity|].
      exists z. split; [|split; [reflexivity|split; [reflexivity|split]]].
      * rewrite Hsplit, concat_app. apply in_or_app. right.
        simpl. apply in_or_app. now left.
      * unfold covers. now rewrite Heq.
      * intros z' _ Hc. apply cf_covers_length in Hc.
        apply String.eqb_eq in Heq. now rewrite <- Heq.
    + apply (IH (done ++ [p]) b' n (page + 1) (length pages) st1).
      * now rewrite <- app_assoc.
      * rewrite length_app. simpl. lia.
      * now left.
      * rewrite concat_app. simpl. now rewrite app_nil_r.
      * simpl in Hn. lia.
Qed.

Lemma get_zone_info_spec fuel st :
  length pages < fuel ->
  exists r st',
    _get_zone_info http fuel domain st = (Ret r, st')
    /\ longest_match (concat pages) domain r.
Proof using Hserve Hpages Hwf.
  intros Hfuel. unfold _get_zone_info.
  destruct (Nat.eq_dec (length pages) 0) as [Hz|Hnz].
  - destruct fuel as [|n]; [lia|].
    cbn [page_loop Nat.leb].
    destruct (make_request_zones 1 st) as (st1 & Hreq).
    rewrite (bind_Ret _ _ _ _ _ Hreq).
    apply List.length_zero_iff_nil in Hz. rewrite Hz. cbn.
    eexists _, _. split; [reflexivity|]. intros z [].
  - apply (page_loop_spec pages [] _ fuel 1 1 st).
    + reflexivity.
    + reflexivity.
    + right. repeat split. intros E. apply Hnz. now rewrite E.
    + split; [|split]; try (intros z []). now left.
    + exact Hfuel.
Qed.

End Resolution.
End CloudflareFacts.

Module LinodeFacts.
Import Linode.

Section Resolution.
Context {World : Type} (http : request -> World -> response * World).
Variable domain : string.

Lemma ln_covers_spec zn :
  covers zn domain = true
  <-> domain = zn \/ exists pre, domain = pre +:+ "." +:+ zn.
Proof.
  unfold covers. now rewrite orb_true_iff, String.eqb_eq, endswith_spec.
Qed.

Lemma ln_covers_length zn :
  covers zn domain = true -> String.length zn <= String.length domain.
Proof.
  unfold covers. intros H. apply orb_prop in H as [H|H].
  - apply String.eqb_eq in H. now subst.
  - apply endswith_length in H.
    change (String.length ("." +:+ zn)) with (S (String.length zn)) in H. lia.
Qed.

Lemma scan_domains_spec ds : forall seen best len,
  best_of domain seen best len ->
  match scan_domains domain ds best len with
  | inl hit => exists d, In d ds /\ hit = str (d_id d)
                         /\ String.eqb domain (dname d) = true
  | inr (best', len') => best_of domain (seen ++ ds) best' len'
  end.
Proof.
  induction ds as [|d ds IH]; intros seen best len Hb.
  - simpl. now rewrite app_nil_r.
  - cbn [scan_domains]. fold (dname d).
    destruct (String.eqb domain (dname d)) eqn:Eeq.
    + exists d. simpl. auto.
    + destruct Hb as (Hne & Hmax & Hbest).
      assert (Hfin : forall best0 len0, best_of domain (seen ++ [d]) best0 len0 ->
                match scan_domains domain ds best0 len0 with
                | inl hit => exists d0, In d0 (d :: ds) /\ hit = str (d_id d0)
                                        /\ String.eqb domain (dname d0) = true
                | inr (best', len') => best_of domain (seen ++ d :: ds) best' len'
                end).
      { intros best0 len0 Hb0. specialize (IH _ _ _ Hb0).
        destruct (scan_domains domain ds best0 len0) as [hit|[best' len']].
        - destruct IH as (x & Hx & ?). exists x. split; [now right|assumption].
        - now rewrite <- app_assoc in IH. }
      destruct (endswith domain ("." +:+ dname d)) eqn:Eend; cbn [andb].
      * destruct (Nat.ltb_spec len (String.length (dname d)))
          as [Hlt|Hge]; apply Hfin.
        -- split; [|split].
           ++ intros x Hx. in_snoc Hx; auto.
           ++ intros x Hx Hend.
              in_snoc Hx; [|lia].
              specialize (Hmax x Hx Hend). lia.
           ++ right. exists d. split; [apply in_or_app; right; now left|auto].
        -- split; [|split].
           ++ intros x Hx. in_snoc Hx; auto.
           ++ intros x Hx Hend.
              in_snoc Hx; [auto|lia].
           ++ destruct Hbest as [?|(x & Hx & ?)]; [now left|right].
              exists x. split; [apply in_or_app; now left|assumption].
      * apply Hfin. split; [|split].
        -- intros x Hx. in_snoc Hx; auto.
        -- intros x Hx Hend.
           in_snoc Hx; [auto|congruence].
        -- destruct Hbest as [?|(x & Hx & ?)]; [now left|right].
           exists x. split; [apply in_or_app; now left|assumption].
Qed.

Variable ds : list domain_obj.
Hypothesis Hserve : serves_domains http ds.
Hypothesis Hwf : Forall wf_domain ds.

Lemma get_zone_id_spec st :
  exists r st',
    _get_zone_id http domain st = (Ret r, st')
    /\ longest_match ds domain r.
Proof using Hserve Hwf.
  unfold _get_zone_id, bind at 1, _make_request.
  destruct (Hserve (world st)) as (one & recs & Hresp).
  destruct (http GetDomains (world st)) as [resp w]. simpl in Hresp. subst resp.
  cbn [success negb data_domains].
  assert (Hb0 : best_of domain [] None 0).
  { split; [|split]; try (intros d []). now left. }
  pose proof (scan_domains_spec ds [] None 0 Hb0) as Hscan.
  destruct (scan_domains domain ds None 0) as [hit|[best len]].
  - destruct Hscan as (d & Hd & -> & Heq).
    eexists _, _. split; [reflexivity|].
    exists d. split; [exact Hd|split; [reflexivity|split]].
    + unfold covers. now rewrite Heq.
    + intros d' _ Hc. apply ln_covers_length in Hc.
      apply String.eqb_eq in Heq. now rewrite <- Heq.
  - simpl in Hscan. destruct Hscan as (Hne & Hmax & Hbest).
    destruct Hbest as [(-> & ->)|(d & Hd & -> & -> & Hend)].
    + cbn [truthy_int]. eexists _, _. split; [reflexivity|].
      intros d Hd. unfold covers. rewrite (Hne d Hd). cbn [orb].
      destruct (endswith domain ("." +:+ dname d)) eqn:E; [|reflexivity].
      specialize (Hmax d Hd E).
      rewrite Forall_forall in Hwf.
      destruct (Hwf d (proj2 (list_elem_of_In _ _) Hd)) as [_ Hn].
      unfold dname in Hmax. destruct (d_domain d) as [n|]; [|discriminate].
      simpl in Hn. apply truthy_str_nonempty in Hn.
      destruct n; [congruence|simpl in Hmax; lia].
    + rewrite Forall_forall in Hwf.
      destruct (Hwf d (proj2 (list_elem_of_In _ _) Hd)) as [Hi _].
      rewrite Hi. eexists _, _. split; [reflexivity|].
      exists d. split; [exact Hd|split; [reflexivity|split]].
      * unfold covers. rewrite Hend. apply orb_true_r.
      * intros d' Hd' Hc. unfold covers in Hc. rewrite (Hne d' Hd') in Hc.
        cbn [orb] in Hc. exact (Hmax d' Hd' Hc).
Qed.

End Resolution.
End LinodeFacts.

(** C2.  Against a remote that serves the account's zones (Cloudflare: in
    pages that each report the page count; Linode: in the one domain
    listing), all of them with an id and a non-empty name, resolution of
    [domain] returns: a listed zone whose name equals [domain] or is a
    dot-suffix of it, such that no listed zone with that property has a
    longer name, with its id (Cloudflare: the pair of id and name; Linode:
    the id as a string); or nothing, and then no listed zone has that
    property.  So a match is returned whenever there is one.  The page loop
    needs one iteration per page.  A zone name covers [domain] exactly when
    [domain] is the zone name or ends with a dot followed by it. *)
Theorem longest_suffix_zone_resolution :
  (forall (World : Type)
          (http : Cloudflare.request -> World -> Cloudflare.response * World)
          (fuel : nat) (pages : list (list Cloudflare.zone)) (domain : string)
          (st : Cloudflare.state),
      Cloudflare.serves_zones http pages ->
      Forall (fun p => p <> []) pages ->
      Forall Cloudflare.wf_zone (concat pages) ->
      length pages < fuel ->
      exists r st',
        Cloudflare._get_zone_info http fuel domain st = (Ret r, st')
        /\ Cloudflare.longest_match (concat pages) domain r
        /\ ((exists z, In z (concat pages)
                       /\ Cloudflare.covers (Cloudflare.zname z) domain = true) ->
            r <> None))
  /\ (forall (World : Type)
             (http : Linode.request -> World -> Linode.response * World)
             (ds : list Linode.domain_obj) (domain : string)
             (st : Linode.state),
         Linode.serves_domains http ds ->
         Forall Linode.wf_domain ds ->
         exists r st',
           Linode._get_zone_id http domain st = (Ret r, st')
           /\ Linode.longest_match ds domain r
           /\ ((exists d, In d ds
                          /\ Linode.covers (Linode.dname d) domain = true) ->
               r <> None))
  /\ (forall zone_name domain,
         (Cloudflare.covers zone_name domain = true
          <-> domain = zone_name
              \/ exists pre, domain = pre +:+ "." +:+ zone_name)
         /\ (Linode.covers zone_name domain = true
             <-> domain = zone_name
                 \/ exists pre, domain = pre +:+ "." +:+ zone_name)).
Proof.
  split; [|split].
  - intros World http fuel pages domain st Hserve Hpages Hwf Hfuel.
    destruct (CloudflareFacts.get_zone_info_spec http domain pages Hserve
                Hpages Hwf fuel st Hfuel) as (r & st' & Hrun & Hr).
    exists r, st'. split; [exact Hrun|split; [exact Hr|]].
    intros (z & Hz & Hc) ->. simpl in Hr. rewrite (Hr z Hz) in Hc. discriminate.
  - intros World http ds domain st Hserve Hwf.
    destruct (LinodeFacts.get_zone_id_spec http domain ds Hserve Hwf st)
      as (r & st' & Hrun & Hr).
    exists r, st'. split; [exact Hrun|split; [exact Hr|]].
    intros (d & Hd & Hc) ->. simpl in Hr. rewrite (Hr d Hd) in Hc. discriminate.
  - intros zone_name domain. split.
    + apply CloudflareFacts.cf_covers_spec.
    + apply LinodeFacts.ln_covers_spec.
Qed.

Lemma longest_suffix_zone_resolution_witness :
  (exists st',
      Cloudflare._get_zone_info example_cloudflare 2 "a.sub.example.com"
        (Cloudflare.mk None None tt [])
      = (Ret (Some (Some "z2", "sub.example.com")), st'))
  /\ (exists st',
         Linode._get_zone_id example_linode "a.sub.example.com"
           (Linode.mk None None tt [])
         = (Ret (Some "2"), st')).
Proof.
  split.
  - destruct (proj1 longest_suffix_zone_resolution unit example_cloudflare 2
                example_zones "a.sub.example.com" (Cloudflare.mk None None tt []))
      as (r & st' & Hrun & _).
    + intros w p. reflexivity.
    + repeat constructor. discriminate.
    + repeat constructor.
    + simpl. lia.
    + exists st'. rewrite Hrun. vm_compute in Hrun.
      injection Hrun as <- _. reflexivity.
  - destruct (proj1 (proj2 longest_suffix_zone_resolution) unit example_linode
                example_domains "a.sub.example.com" (Linode.mk None None tt []))
      as (r & st' & Hrun & _).
    + intros w. eexists _, _. reflexivity.
    + repeat constructor.
    + exists st'. rewrite Hrun. vm_compute in Hrun.
      injection Hrun as <- _. reflexivity.
Defined.

(** ** C4 and C5: the zone-handle cache and failed resolution *)

Module CloudflareCache.
Import Cloudflare.

Section Cache.
Context {World : Type} (http : request -> World -> response * World).
Variable fuel : nat.

Lemma cf_make_request_run req st :
  _make_request http req st
  = (Ret (fst (http req (world st))),
     mk (zone_id st) (zone_domain st) (snd (http req (world st)))
        (trace st ++ [req])).
Proof. unfold _make_request. now destruct (http req (world st)). Qed.

(** A cache hit answers from the cache: no request, no state change. *)
Lemma cf_ensure_zone_id_hit domain st :
  cache_hit (zone_id st) (zone_domain st) domain = true ->
  _ensure_zone_id http fuel domain st = (Ret (zone_id st), st).
Proof.
  intros H. unfold _ensure_zone_id, bind, gets. now rewrite H.
Qed.

(** The page loop leaves the cache alone and only adds requests. *)
Lemma extends_refl (st : @state World) : extends st st.
Proof.
  repeat split. exists []. split; [now rewrite app_nil_r|constructor].
Qed.

Lemma page_loop_frame n : forall domain page total b st r st',
  page_loop http n domain page total b st = (r, st') -> extends st st'.
Proof.
  induction n as [|n IH]; intros domain page total b st r st'; cbn [page_loop].
  - destruct (page <=? total)%nat.
    + intros [= _ <-]. apply extends_refl.
    + destruct (best_zone_id b), (zone_name_found b);
        try destruct (truthy_str _ && truthy_str _);
        intros [= _ <-]; apply extends_refl.
  - destruct (page <=? total)%nat.
    + unfold bind at 1. rewrite cf_make_request_run.
      set (st1 := mk _ _ _ _).
      assert (Hone : extends st st1).
      { repeat split. exists [GetZones page]. split; [reflexivity|].
        repeat constructor. eauto. }
      destruct (negb _); [intros [= _ <-]; exact Hone|].
      destruct (bool_decide _ && _); [intros [= _ <-]; exact Hone|].
      destruct (scan_zones _ _ _) as [hit|b']; [intros [= _ <-]; exact Hone|].
      intros Hrec. apply IH in Hrec.
      destruct Hrec as (H1 & H2 & more & H3 & H4).
      split; [exact H1|split; [exact H2|]].
      exists (GetZones page :: more). split.
      * rewrite H3. unfold st1. cbn [trace]. now rewrite <- app_assoc.
      * constructor; eauto.
    + destruct (best_zone_id b), (zone_name_found b);
        try destruct (truthy_str _ && truthy_str _);
        intros [= _ <-]; apply extends_refl.
Qed.

(** A miss re-resolves: the first thing that happens is the request for
    page 1 of the zone listing. *)
Lemma page_loop_lists_first n domain b st :
  exists more,
    trace (snd (page_loop http (Datatypes.S n) domain 1 1 b st))
    = trace st ++ GetZones 1 :: more.
Proof.
  cbn [page_loop Nat.leb]. unfold bind at 1. rewrite cf_make_request_run.
  set (st1 := mk _ _ _ _).
  assert (Hone : trace st1 = trace st ++ [GetZones 1]) by reflexivity.
  destruct (negb _); [exists []; exact Hone|].
  destruct (bool_decide _ && _); [exists []; exact Hone|].
  destruct (scan_zones _ _ _) as [hit|b']; [exists []; exact Hone|].
  match goal with |- context [page_loop http n domain ?p ?t b' st1] =>
    destruct (page_loop http n domain p t b' st1) as [r st2] eqn:E end.
  apply page_loop_frame in E as (_ & _ & more & H & _).
  exists more. cbn [snd]. rewrite H, Hone. now rewrite <- app_assoc.
Qed.

Lemma cf_ensure_zone_id_miss domain st :
  cache_hit (zone_id st) (zone_domain st) domain = false ->
  _ensure_zone_id http fuel domain st
  = match _get_zone_info http fuel domain st with
    | (Ret (Some (i, n)), st') => (Ret i, mk i (Some n) (world st') (trace st'))
    | (Ret None, st') => (Ret (zone_id st'), st')
    | (Raise e, st') => (Raise e, st')
    | (OutOfFuel, st') => (OutOfFuel, st')
    end.
Proof.
  intros H. unfold _ensure_zone_id, bind at 1 2, gets at 1 2. rewrite H.
  unfold bind at 1.
  destruct (_get_zone_info http fuel domain st) as [[[[i n]|]| |] st'];
    reflexivity.
Qed.

(** A re-resolution that finds a zone overwrites both cache fields. *)
Lemma ensure_zone_id_overwrites domain st i n st' :
  cache_hit (zone_id st) (zone_domain st) domain = false ->
  _get_zone_info http fuel domain st = (Ret (Some (i, n)), st') ->
  exists st'',
    _ensure_zone_id http fuel domain st = (Ret i, st'')
    /\ zone_id st'' = i /\ zone_domain st'' = Some n.
Proof.
  intros H Hres. rewrite (cf_ensure_zone_id_miss _ _ H), Hres. eauto.
Qed.

(** A re-resolution that finds nothing keeps the cache and answers
    with the cached id. *)
Lemma ensure_zone_id_stale domain st :
  cache_hit (zone_id st) (zone_domain st) domain = false ->
  fst (_get_zone_info http fuel domain st) = Ret None ->
  exists st',
    _ensure_zone_id http fuel domain st = (Ret (zone_id st), st')
    /\ zone_id st' = zone_id st /\ zone_domain st' = zone_domain st.
Proof.
  intros H Hres. rewrite (cf_ensure_zone_id_miss _ _ H).
  destruct (_get_zone_info http fuel domain st) as [r st'] eqn:E.
  simpl in Hres. subst r.
  apply page_loop_frame in E as (H1 & H2 & _). rewrite H1. eauto.
Qed.

(** *** No zone covers the name *)

Variable pages : list (list zone).
Hypothesis Hserve : serves_zones http pages.
Variable domain : string.
Hypothesis Hnone :
  forall z, In z (concat pages) -> covers (zname z) domain = false.

Lemma scan_zones_none zs b :
  (forall z, In z zs -> covers (zname z) domain = false) ->
  scan_zones domain zs b = inr b.
Proof.
  induction zs as [|z zs IH]; intros H; [reflexivity|].
  cbn [scan_zones]. fold (zname z).
  pose proof (H z (or_introl eq_refl)) as Hz. unfold covers in Hz.
  apply orb_false_elim in Hz as [-> ->]. cbn [andb].
  apply IH. intros x Hx. apply H. now right.
Qed.

Lemma page_loop_none rest : forall done n page total st,
  pages = done ++ rest ->
  page = length done + 1 ->
  total = length pages \/ (done = [] /\ total = 1) ->
  length rest < n ->
  exists st',
    page_loop http n domain page total (mk_best 0 None None) st = (Ret None, st').
Proof using Hserve Hnone.
  induction rest as [|p rest IH]; intros done n page total st Hsplit Hpage Htotal Hn.
  - rewrite app_nil_r in Hsplit.
    destruct n as [|n]; [simpl in Hn; lia|]. cbn [page_loop].
    destruct (page <=? total)%nat eqn:Hcond; [|eauto].
    apply Nat.leb_le in Hcond.
    destruct Htotal as [Ht|(Hd & Ht)]; [rewrite Hsplit in Ht; lia|].
    rewrite Hd in Hsplit, Hpage. simpl in Hpage. rewrite Hpage.
    unfold bind at 1. rewrite cf_make_request_run, Hserve.
    unfold page_response. rewrite Hsplit. cbn. eauto.
  - destruct n as [|n]; [simpl in Hn; lia|]. cbn [page_loop].
    assert (Hcond : (page <=? total)%nat = true).
    { apply Nat.leb_le. destruct Htotal as [Ht|(Hd & Ht)].
      - rewrite Ht, Hsplit, length_app. simpl. lia.
      - rewrite Hd in Hpage. simpl in Hpage. lia. }
    rewrite Hcond. unfold bind at 1. rewrite cf_make_request_run, Hserve.
    unfold page_response. cbn [success zones total_pages negb default].
    destruct (bool_decide _ && _); [eauto|].
    assert (Hnth : nth (page - 1) pages [] = p).
    { rewrite Hsplit, Hpage. replace (length done + 1 - 1) with (length done) by lia.
      rewrite app_nth2 by lia. now rewrite Nat.sub_diag. }
    rewrite Hnth, scan_zones_none.
    + apply (IH (done ++ [p])).
      * now rewrite <- app_assoc.
      * rewrite length_app. simpl. lia.
      * now left.
      * simpl in Hn. lia.
    + intros z Hz. apply Hnone. rewrite Hsplit, concat_app.
      apply in_or_app. right. simpl. apply in_or_app. now left.
Qed.

Hypothesis Hfuel : length pages < fuel.

Lemma get_zone_info_none st :
  exists st', _get_zone_info http fuel domain st = (Ret None, st').
Proof using Hserve Hnone Hfuel.
  apply (page_loop_none pages []); auto.
Qed.

(** Without a cached id, a resolution that finds no zone yields no id. *)
Lemma cf_ensure_zone_id_none st :
  truthy (zone_id st) = false ->
  exists st' zid,
    _ensure_zone_id http fuel domain st = (Ret zid, st')
    /\ truthy zid = false.
Proof using Hserve Hnone Hfuel.
  intros Hid.
  assert (Hmiss : cache_hit (zone_id st) (zone_domain st) domain = false).
  { unfold cache_hit. now rewrite Hid. }
  destruct (get_zone_info_none st) as (st' & Hres).
  destruct (ensure_zone_id_stale domain st Hmiss) as (st'' & Hrun & _).
  { now rewrite Hres. }
  eauto.
Qed.

Lemma cf_no_zone_outcomes st :
  truthy (zone_id st) = false ->
  (forall ty, exists st',
      get_dns_records http fuel domain ty st = (Ret [], st'))
  /\ (forall record, DNSRecord.name record = domain ->
        exists st', create_dns_record http fuel record st = (Ret false, st'))
  /\ (forall record_id, exists st',
        delete_dns_record http fuel record_id domain st = (Ret false, st'))
  /\ (forall caa, CAARecord.name caa = domain ->
        exists st', create_caa_record http fuel caa st = (Ret false, st')).
Proof using Hserve Hnone Hfuel.
  intros Hid. destruct (cf_ensure_zone_id_none st Hid) as (st' & zid & Hrun & Hz).
  assert (Hz' : match zid with Some z => truthy_str z = false | None => True end)
    by (destruct zid; [exact Hz|exact I]).
  split; [|split; [|split]].
  - intros ty. unfold get_dns_records. rewrite (bind_Ret _ _ _ _ _ Hrun).
    destruct zid as [z|]; [rewrite Hz'|]; eauto.
  - intros record <-. unfold create_dns_record. rewrite (bind_Ret _ _ _ _ _ Hrun).
    destruct zid as [z|]; [rewrite Hz'|]; eauto.
  - intros rid. unfold delete_dns_record. rewrite (bind_Ret _ _ _ _ _ Hrun).
    destruct zid as [z|]; [rewrite Hz'|]; eauto.
  - intros caa <-. unfold create_caa_record. rewrite (bind_Ret _ _ _ _ _ Hrun).
    destruct zid as [z|]; [rewrite Hz'|]; eauto.
Qed.

End Cache.
End CloudflareCache.

Module LinodeCache.
Import Linode.

Section Cache.
Context {World : Type} (http : request -> World -> response * World).

Lemma ln_make_request_run req st :
  _make_request http req st
  = (Ret (fst (http req (world st))),
     mk (zone_id st) (zone_domain st) (snd (http req (world st)))
        (trace st ++ [req])).
Proof. unfold _make_request. now destruct (http req (world st)). Qed.

Lemma ln_ensure_zone_id_hit domain st :
  cache_hit (zone_id st) (zone_domain st) domain = true ->
  _ensure_zone_id http domain st = (Ret (zone_id st), st).
Proof.
  intros H. unfold _ensure_zone_id, bind, gets. now rewrite H.
Qed.

(** [_get_zone_id] returns after exactly one request, the domain listing,
    and leaves the cache alone. *)
Lemma get_zone_id_run domain st :
  exists r,
    _get_zone_id http domain st
    = (Ret r, mk (zone_id st) (zone_domain st)
                 (snd (http GetDomains (world st)))
                 (trace st ++ [GetDomains])).
Proof.
  unfold _get_zone_id, bind. rewrite ln_make_request_run.
  destruct (negb _); [eauto|].
  destruct (scan_domains _ _ _ _) as [zid|[best len]]; [eauto|].
  destruct (truthy_int best); eauto.
Qed.

(** A miss lists the domains first, stores what [_get_zone_id] returned
    as the cached id, even when that is nothing, and returns it. *)
Lemma ln_ensure_zone_id_miss domain st :
  cache_hit (zone_id st) (zone_domain st) domain = false ->
  exists r st',
    fst (_get_zone_id http domain st) = Ret r
    /\ _ensure_zone_id http domain st = (Ret r, st')
    /\ zone_id st' = r
    /\ exists more, trace st' = trace st ++ GetDomains :: more.
Proof.
  intros H. unfold _ensure_zone_id, bind at 1 2, gets at 1 2. rewrite H.
  destruct (get_zone_id_run domain st) as (r & Hrun).
  unfold bind at 1. rewrite Hrun. cbn [fst].
  unfold bind at 1, modify at 1. cbn [zone_domain world trace].
  destruct r as [zid|].
  - destruct (truthy_str zid); cbn [when].
    + unfold bind at 1 2. rewrite ln_make_request_run. cbn [zone_id zone_domain world trace fst snd].
      destruct (success _); cbn [when]; unfold modify, ret, gets; cbn;
        eexists _, _; (repeat split); eexists; now rewrite <- app_assoc.
    + unfold bind, ret, gets. cbn. eexists _, _. repeat split.
      exists []. reflexivity.
  - unfold bind, ret, gets. cbn. eexists _, _. repeat split.
    exists []. reflexivity.
Qed.

Lemma ensure_zone_id_returns domain st :
  exists r st', _ensure_zone_id http domain st = (Ret r, st').
Proof.
  destruct (cache_hit (zone_id st) (zone_domain st) domain) eqn:H.
  - rewrite (ln_ensure_zone_id_hit _ _ H). eauto.
  - destruct (ln_ensure_zone_id_miss _ _ H) as (r & st' & _ & Hrun & _). eauto.
Qed.

Lemma get_subdomain_returns fqdn zid st :
  exists r st', _get_subdomain http fqdn zid st = (Ret r, st').
Proof.
  unfold _get_subdomain, bind. rewrite ln_make_request_run.
  destruct (negb _); [eauto|].
  destruct (String.eqb _ _); [eauto|].
  destruct (endswith _ _); eauto.
Qed.

Lemma deletes_return_linode : deletes_return (provider http).
Proof.
  intros rid dom st.
  change (exists b s', Linode.delete_dns_record http rid dom st = (Ret b, s')).
  unfold Linode.delete_dns_record.
  destruct (ensure_zone_id_returns dom st) as (r & st' & Hrun).
  rewrite (bind_Ret _ _ _ _ _ Hrun).
  destruct r as [zid|]; [|eauto].
  destruct (truthy_str zid); [|eauto].
  unfold bind. rewrite ln_make_request_run. eauto.
Qed.

(** *** No domain covers the name *)

Variable ds : list domain_obj.
Hypothesis Hserve : serves_domains http ds.
Variable domain : string.
Hypothesis Hnone : forall d, In d ds -> covers (dname d) domain = false.

Lemma scan_domains_none l best len :
  (forall d, In d l -> covers (dname d) domain = false) ->
  scan_domains domain l best len = inr (best, len).
Proof.
  induction l as [|d l IH]; intros H; [reflexivity|].
  cbn [scan_domains]. fold (dname d).
  pose proof (H d (or_introl eq_refl)) as Hd. unfold covers in Hd.
  apply orb_false_elim in Hd as [-> ->]. cbn [andb].
  apply IH. intros x Hx. apply H. now right.
Qed.

Lemma get_zone_id_none st :
  fst (_get_zone_id http domain st) = Ret None.
Proof using Hserve Hnone.
  unfold _get_zone_id, bind. rewrite ln_make_request_run.
  destruct (Hserve (world st)) as (one & recs & ->).
  cbn [success negb data_domains]. now rewrite scan_domains_none.
Qed.

Lemma ln_ensure_zone_id_none st :
  cache_hit (zone_id st) (zone_domain st) domain = false ->
  exists st', _ensure_zone_id http domain st = (Ret None, st').
Proof using Hserve Hnone.
  intros H. destruct (ln_ensure_zone_id_miss _ _ H) as (r & st' & Hr & Hrun & _).
  rewrite get_zone_id_none in Hr. injection Hr as <-. eauto.
Qed.

Lemma ln_no_zone_outcomes st :
  cache_hit (zone_id st) (zone_domain st) domain = false ->
  (forall ty, exists st',
      get_dns_records http domain ty st = (Ret [], st'))
  /\ (forall record, DNSRecord.name record = domain ->
        exists st', create_dns_record http record st = (Ret false, st'))
  /\ (forall record_id, exists st',
        delete_dns_record http record_id domain st = (Ret false, st'))
  /\ (forall caa, CAARecord.name caa = domain ->
        exists st', create_caa_record http caa st = (Ret false, st')).
Proof using Hserve Hnone.
  intros H. destruct (ln_ensure_zone_id_none st H) as (st' & Hrun).
  split; [|split; [|split]].
  - intros ty. unfold get_dns_records. rewrite (bind_Ret _ _ _ _ _ Hrun). eauto.
  - intros record <-. unfold create_dns_record.
    rewrite (bind_Ret _ _ _ _ _ Hrun). eauto.
  - intros rid. unfold delete_dns_record.
    rewrite (bind_Ret _ _ _ _ _ Hrun). eauto.
  - intros caa <-. unfold create_caa_record.
    rewrite (bind_Ret _ _ _ _ _ Hrun). eauto.
Qed.

End Cache.
End LinodeCache.

(** C4, where the code departs from it.  On the Cloudflare adapter a
    re-resolution that finds no zone for a name outside the cached zone does
    not touch the cache: [_ensure_zone_id] returns the id cached for the
    other zone, and both cache fields stay as they were. *)
Theorem cloudflare_failed_resolution_keeps_cache
        (World : Type)
        (http : Cloudflare.request -> World -> Cloudflare.response * World)
        (fuel : nat) (domain : string) (st : Cloudflare.state) :
  Cloudflare.cache_hit (Cloudflare.zone_id st) (Cloudflare.zone_domain st) domain
  = false ->
  fst (Cloudflare._get_zone_info http fuel domain st) = Ret None ->
  exists st',
    Cloudflare._ensure_zone_id http fuel domain st
    = (Ret (Cloudflare.zone_id st), st')
    /\ Cloudflare.zone_id st' = Cloudflare.zone_id st
    /\ Cloudflare.zone_domain st' = Cloudflare.zone_domain st.
Proof. apply CloudflareCache.ensure_zone_id_stale. Qed.

Lemma cloudflare_failed_resolution_keeps_cache_witness :
  Cloudflare._ensure_zone_id example_cloudflare 2 "www.other.org" cached_example
  = (Ret (Some "z1"),
     Cloudflare.mk (Some "z1") (Some "example.com") tt [Cloudflare.GetZones 1])
  /\ Cloudflare.create_dns_record example_cloudflare 2
       (sim_record None "www.other.org" RecordType.A "10.0.0.1") cached_example
     = (Ret true,
        Cloudflare.mk (Some "z1") (Some "example.com") tt
          [Cloudflare.GetZones 1;
           Cloudflare.PostRecord "z1"
             (Cloudflare.RecordPayload "A" "www.other.org" "10.0.0.1" 60 None None)]).
Proof.
  destruct (cloudflare_failed_resolution_keeps_cache unit example_cloudflare 2
              "www.other.org" cached_example) as (st' & Hrun & _).
  - vm_compute. reflexivity.
  - vm_compute. reflexivity.
  - split.
    + rewrite Hrun. vm_compute in Hrun. injection Hrun as <-. reflexivity.
    + vm_compute. reflexivity.
Defined.

(** ** C6: the Linode alias override *)

Lemma pretty_N_go_length x : forall s,
  String.length s <= String.length (pretty_N_go x s).
Proof.
  induction (N.lt_wf_0 x) as [x _ IH]; intros s.
  assert (x = 0 \/ 0 < x)%N as [->|Hpos] by lia.
  - now rewrite pretty_N_go_0.
  - rewrite pretty_N_go_step by exact Hpos.
    etransitivity; [|apply IH, N.div_lt; [exact Hpos|reflexivity]].
    simpl. lia.
Qed.

Lemma pretty_Z_nonempty (z : Z) : pretty z <> "".
Proof.
  destruct z as [|p|p].
  - discriminate.
  - unfold pretty, pretty_Z, pretty, pretty_positive, pretty, pretty_N.
    destruct (decide (N.pos p = 0%N)) as [|_]; [discriminate|].
    rewrite pretty_N_go_step by reflexivity.
    intros E.
    pose proof (pretty_N_go_length (N.pos p `div` 10)
                  (String (pretty_N_char (N.pos p `mod` 10)) "")) as H.
    rewrite E in H. simpl in H. lia.
  - discriminate.
Qed.

Lemma linode_str_truthy x : truthy_str (Linode.str x) = true.
Proof.
  apply truthy_str_nonempty. destruct x as [z|]; [apply pretty_Z_nonempty|discriminate].
Qed.

Lemma RecordType_of_value_value ty :
  RecordType.of_value (RecordType.value ty) = Some ty.
Proof. destruct ty; reflexivity. Qed.

Module LinodeRecords.
Import Linode.

Section Records.
Context {World : Type} (http : request -> World -> response * World).

(** With a type filter the record loop does not raise; every record it
    builds has a non-empty id, the requested name and the type of the
    filter. *)
Lemma build_records_typed name subdomain ty l (st : @state World) :
  exists recs,
    build_records name subdomain (Some ty) l st = (Ret recs, st)
    /\ Forall (fun r => truthy (DNSRecord.id r) = true
                        /\ DNSRecord.type r = ty
                        /\ DNSRecord.name r = name) recs.
Proof.
  induction l as [|rd l (recs & IH & Hall)]; cbn [build_records].
  - exists []. split; [reflexivity|constructor].
  - destruct (String.eqb _ subdomain); [|eauto].
    destruct (String.eqb_spec (RecordType.value ty) (default "" (rd_type rd)))
      as [E|_]; cbn [negb]; [|eauto].
    unfold RecordType_call. rewrite <- E, RecordType_of_value_value.
    unfold bind at 1, ret at 1. unfold bind at 1. rewrite IH.
    eexists. split; [reflexivity|].
    constructor; [|exact Hall]. cbn. split; [apply linode_str_truthy|auto].
Qed.

Lemma get_dns_records_typed name ty st :
  exists recs st',
    get_dns_records http name (Some ty) st = (Ret recs, st')
    /\ Forall (fun r => truthy (DNSRecord.id r) = true
                        /\ DNSRecord.type r = ty
                        /\ DNSRecord.name r = name) recs.
Proof.
  unfold get_dns_records.
  destruct (LinodeCache.ensure_zone_id_returns http name st) as (r & st1 & Hrun).
  rewrite (bind_Ret _ _ _ _ _ Hrun).
  destruct r as [zid|]; [|exists [], st1; split; [reflexivity|constructor]].
  destruct (truthy_str zid); [|exists [], st1; split; [reflexivity|constructor]].
  unfold bind at 1. rewrite LinodeCache.ln_make_request_run.
  destruct (negb _); [eexists [], _; split; [reflexivity|constructor]|].
  match goal with |- context [bind _ _ ?s] =>
    destruct (LinodeCache.get_subdomain_returns http name zid s)
      as (sub & st2 & Hsub) end.
  rewrite (bind_Ret _ _ _ _ _ Hsub).
  match goal with |- context [build_records name sub (Some ty) ?l st2] =>
    destruct (build_records_typed name sub ty l st2) as (recs & Hb & Hall) end.
  exists recs, st2. split; [exact Hb|exact Hall].
Qed.

End Records.
End LinodeRecords.

Section AliasSpied.
Context {S : Type} (P : DNSProvider S).
Hypothesis Hdel : deletes_return P.
Variable gethostbyname : string -> option string.

Lemma delete_cnames_spy name l s log :
  Linode.delete_cnames (P := spy P) name l (s, log)
  = (Ret tt,
     (snd (delete_each name (doomed (fun _ => true) l) s),
      log ++ delete_calls name (doomed (fun _ => true) l))).
Proof using Hdel.
  revert s log. induction l as [|r l IH]; intros s log.
  - simpl. now rewrite app_nil_r.
  - cbn [Linode.delete_cnames doomed]. unfold Base.delete_if_id.
    destruct (DNSRecord.id r) as [rid|]; cbn [andb].
    + destruct (truthy_str rid); cbn [when].
      * destruct (Hdel rid name s) as (b & s' & E).
        cbn [delete_each map]. rewrite (bind_Ret _ _ _ _ _ E).
        unfold bind at 1, ignore, bind at 1.
        cbn [delete_dns_record spy logged]. rewrite E.
        cbn [ret]. rewrite IH. now rewrite <- app_assoc.
      * apply IH.
    + apply IH.
Qed.

Lemma set_alias_record_spy name content ttl proxied ip cnames s s1 log :
  gethostbyname content = Some ip ->
  truthy_str ip = true ->
  get_dns_records name (Some RecordType.CNAME) s = (Ret cnames, s1) ->
  let ids := doomed (fun _ => true) cnames in
  Linode.set_alias_record (P := spy P) gethostbyname name content ttl proxied (s, log)
  = Base.set_a_record (P := spy P) name ip ttl false
      (snd (delete_each name ids s1),
       log ++ [CallGet name (Some RecordType.CNAME)]
           ++ delete_calls name ids).
Proof using Hdel.
  intros Hip Ht Hget ids. unfold Linode.set_alias_record. rewrite Hip.
  unfold bind at 1, ret at 1. rewrite Ht. cbn [negb].
  unfold bind at 1. cbn [get_dns_records spy logged]. rewrite Hget.
  unfold bind at 1. rewrite delete_cnames_spy. fold ids.
  now rewrite <- app_assoc.
Qed.

Hypothesis Hcreate : creates_return P.

(** What [set_a_record] adds to the log: nothing is created but the A
    record with the requested address. *)
Lemma set_a_record_creates_only name ip ttl proxied recs s s1 log :
  get_dns_records name (Some RecordType.A) s = (Ret recs, s1) ->
  exists b s' new,
    Base.set_a_record (P := spy P) name ip ttl proxied (s, log)
    = (Ret b, (s', log ++ new))
    /\ Forall (creates_only
                 (DNSRecord.mk None name RecordType.A ip ttl proxied None None))
              new
    /\ (existsb (fun r => String.eqb (DNSRecord.content r) ip) recs = true
        \/ In (CallCreate
                 (DNSRecord.mk None name RecordType.A ip ttl proxied None None))
              new).
Proof using Hdel Hcreate.
  intros Hget. rewrite (set_a_record_spy P Hdel _ _ _ _ _ _ _ _ Hget). cbn zeta.
  set (ids := doomed _ _).
  assert (Hdeletes : forall r,
             Forall (creates_only r)
                    (delete_calls name ids)).
  { intros r. induction ids; constructor; [exact I|assumption]. }
  destruct (existsb _ recs).
  - eexists _, _, _. split; [reflexivity|]. split; [|now left].
    constructor; [exact I|apply Hdeletes].
  - cbn [create_dns_record spy]. rewrite logged_run.
    set (new_record := DNSRecord.mk _ _ _ _ _ _ _ _).
    destruct (Hcreate new_record (snd (delete_each name ids s1)))
      as (b & s' & E).
    rewrite E. cbn [fst snd]. rewrite <- app_assoc.
    eexists _, _, _. split; [reflexivity|]. split.
    + constructor; [exact I|]. apply Forall_app. split; [apply Hdeletes|].
      repeat constructor.
    + right. right. apply in_or_app. right. now left.
Qed.

End AliasSpied.

Lemma doomed_all_ids l :
  Forall (fun r => truthy (DNSRecord.id r) = true) l ->
  List.map DNSRecord.id l = List.map Some (doomed (fun _ => true) l).
Proof.
  induction 1 as [|r l Hr _ IH]; [reflexivity|].
  cbn [doomed map]. destruct (DNSRecord.id r) as [rid|]; [|discriminate].
  simpl in Hr. rewrite Hr. cbn [andb map]. now rewrite IH.
Qed.

Lemma creates_return_linode {World : Type}
      (http : Linode.request -> World -> Linode.response * World) :
  creates_return (Linode.provider http).
Proof.
  intros r st.
  change (exists b s', Linode.create_dns_record http r st = (Ret b, s')).
  unfold Linode.create_dns_record.
  destruct (LinodeCache.ensure_zone_id_returns http (DNSRecord.name r) st)
    as (z & st' & Hrun).
  rewrite (bind_Ret _ _ _ _ _ Hrun).
  destruct z as [zid|]; [|eauto].
  destruct (truthy_str zid); [|eauto].
  destruct (LinodeCache.get_subdomain_returns http (DNSRecord.name r) zid st')
    as (sub & st2 & Hsub).
  rewrite (bind_Ret _ _ _ _ _ Hsub).
  unfold bind. rewrite LinodeCache.ln_make_request_run. eauto.
Qed.


(** The override run against the in-memory Linode remote: the CNAME at
    app.example.com is deleted and an A record with the resolved address is
    stored in its place. *)
Example linode_alias_end_to_end :
  Linode.set_alias_record (P := Linode.provider LinodeSim.http)
    LinodeSim.gethostbyname "app.example.com" "target.example.org" 60 true
    (Linode.mk None None LinodeSim.with_cname [])
  = (Ret true,
     Linode.mk (Some "1") (Some "example.com")
       (LinodeSim.mk
          [Linode.mk_record_data (Some 8%Z) (Some "app") (Some "A")
             (Some "203.0.113.7") (Some 60%Z) None None] 9)
       [Linode.GetDomains; Linode.GetDomain "1";
        Linode.GetRecords "1"; Linode.GetDomain "1";
        Linode.DeleteRecord "1" "7";
        Linode.GetRecords "1"; Linode.GetDomain "1";
        Linode.GetDomain "1";
        Linode.PostRecord "1"
          (Linode.RecordPayload "A" "app" "203.0.113.7" 60 None)]).
Proof. vm_compute. reflexivity. Qed.

(** An unknown host makes the override raise before any request. *)
Example linode_alias_unresolved :
  Linode.set_alias_record (P := Linode.provider LinodeSim.http)
    LinodeSim.gethostbyname "app.example.com" "nowhere.invalid" 60 true
    (Linode.mk None None LinodeSim.with_cname [])
  = (Raise (gaierror "Name or service not known"),
     Linode.mk None None LinodeSim.with_cname []).
Proof. vm_compute. reflexivity. Qed.

Module NamecheapFacts.
Import Namecheap.

Section Facts.
Context {World : Type} (http : request -> World -> response * World).
Variable py_int : string -> option Z.

Lemma nc_make_request_run req st :
  _make_request http req st
  = (Ret (fst (http req (world st))),
     mk (snd (http req (world st))) (trace st ++ [req])).
Proof. unfold _make_request. now destruct (http req (world st)). Qed.

(** [create_caa_record] requests nothing and leaves the state as it was. *)
Lemma create_caa_record_run caa (st : @state World) :
  create_caa_record caa st = (Ret true, st).
Proof. reflexivity. Qed.

Lemma get_dns_records_short name ty st :
  _get_domain_info name = None ->
  get_dns_records http py_int name ty st = (Ret [], st).
Proof. intros H. unfold get_dns_records. now rewrite H. Qed.

Lemma create_dns_record_short record st :
  _get_domain_info (DNSRecord.name record) = None ->
  create_dns_record http py_int record st = (Ret false, st).
Proof. intros H. unfold create_dns_record. now rewrite H. Qed.

Lemma get_dns_records_rejected name ty sld tld st :
  _get_domain_info name = Some (sld, tld) ->
  rejects http sld tld ->
  exists st', get_dns_records http py_int name ty st = (Ret [], st').
Proof.
  intros H Hrej. unfold get_dns_records. rewrite H.
  unfold bind. rewrite nc_make_request_run.
  destruct (Hrej (world st)) as [-> _]. cbn. eauto.
Qed.

Lemma create_dns_record_rejected record sld tld st :
  _get_domain_info (DNSRecord.name record) = Some (sld, tld) ->
  rejects http sld tld ->
  exists st', create_dns_record http py_int record st = (Ret false, st').
Proof.
  intros H Hrej. unfold create_dns_record. rewrite H.
  destruct (get_dns_records_rejected _ None _ _ st H Hrej) as (st1 & Hget).
  rewrite (bind_Ret _ _ _ _ _ Hget).
  cbn [List.filter map app]. unfold _set_dns_records.
  cbn [host_parameters]. unfold bind at 1 2, ret at 1 2.
  unfold bind. rewrite nc_make_request_run.
  destruct (Hrej (world st1)) as [_ ->]. eauto.
Qed.

End Facts.
End NamecheapFacts.

(** The Namecheap adapter is not a provider whose delete reports by flag:
    [_set_dns_records] calls [record.get] on the [DNSRecord] objects kept
    from the listing, so deleting one of two hosts raises, and so does
    [set_a_record] when it reaches its first delete. *)
Example namecheap_delete_raises :
  Namecheap.delete_dns_record example_namecheap_hosts decimal_int
    "1" "www.example.com" (Namecheap.mk tt [])
  = (Raise (AttributeError "'DNSRecord' object has no attribute 'get'"),
     Namecheap.mk tt [Namecheap.GetHosts "example" "com"])
  /\ Base.set_a_record (P := Namecheap.provider example_namecheap_hosts decimal_int)
       "www.example.com" "10.0.0.9" 60 false (Namecheap.mk tt [])
     = (Raise (AttributeError "'DNSRecord' object has no attribute 'get'"),
        Namecheap.mk tt [Namecheap.GetHosts "example" "com";
                         Namecheap.GetHosts "example" "com"]).
Proof. split; vm_compute; reflexivity. Qed.

Lemma namecheap_not_deletes_return :
  ~ deletes_return (Namecheap.provider example_namecheap_hosts decimal_int).
Proof.
  intros H. destruct (H "1" "www.example.com" (Namecheap.mk tt [])) as (b & s' & E).
  vm_compute in E. discriminate E.
Qed.

(** C5 (amended).  When no zone of the account covers the requested name,
    the Cloudflare adapter without a cached zone id and the Linode adapter
    whose cache does not answer for the name return the empty list from
    [get_dns_records] and [False] from [create_dns_record] and
    [create_caa_record]; the Namecheap adapter, whose remote refuses the
    registered domain derived from the name (or whose name has fewer than two
    labels), returns the empty list and [False] from the first two, and
    [True] from [create_caa_record] without any request.  Every result is a
    returned value: none of these calls raises. *)
Theorem zone_resolution_failure_is_not_fatal :
  (forall (World : Type)
          (http : Cloudflare.request -> World -> Cloudflare.response * World)
          (fuel : nat) (pages : list (list Cloudflare.zone)) (name : string)
          (st : Cloudflare.state),
      Cloudflare.serves_zones http pages ->
      (forall z, In z (concat pages) ->
                 Cloudflare.covers (Cloudflare.zname z) name = false) ->
      length pages < fuel ->
      truthy (Cloudflare.zone_id st) = false ->
      (forall ty, exists st',
          Cloudflare.get_dns_records http fuel name ty st = (Ret [], st'))
      /\ (forall record, DNSRecord.name record = name ->
            exists st',
              Cloudflare.create_dns_record http fuel record st = (Ret false, st'))
      /\ (forall caa, CAARecord.name caa = name ->
            exists st',
              Cloudflare.create_caa_record http fuel caa st = (Ret false, st')))
  /\ (forall (World : Type)
             (http : Linode.request -> World -> Linode.response * World)
             (ds : list Linode.domain_obj) (name : string) (st : Linode.state),
         Linode.serves_domains http ds ->
         (forall d, In d ds -> Linode.covers (Linode.dname d) name = false) ->
         Linode.cache_hit (Linode.zone_id st) (Linode.zone_domain st) name = false ->
         (forall ty, exists st',
             Linode.get_dns_records http name ty st = (Ret [], st'))
         /\ (forall record, DNSRecord.name record = name ->
               exists st',
                 Linode.create_dns_record http record st = (Ret false, st'))
         /\ (forall caa, CAARecord.name caa = name ->
               exists st',
                 Linode.create_caa_record http caa st = (Ret false, st')))
  /\ (forall (World : Type)
             (http : Namecheap.request -> World -> Namecheap.response * World)
             (py_int : string -> option Z) (name : string)
             (st : Namecheap.state),
         match Namecheap._get_domain_info name with
         | Some (sld, tld) => Namecheap.rejects http sld tld
         | None => True
         end ->
         (forall ty, exists st',
             Namecheap.get_dns_records http py_int name ty st = (Ret [], st'))
         /\ (forall record, DNSRecord.name record = name ->
               exists st',
                 Namecheap.create_dns_record http py_int record st = (Ret false, st'))
         /\ (forall caa,
               Namecheap.create_caa_record caa st = (Ret true, st))).
Proof.
  split; [|split].
  - intros World http fuel pages name st Hserve Hnone Hfuel Hid.
    destruct (CloudflareCache.cf_no_zone_outcomes http fuel pages Hserve name Hnone
                Hfuel st Hid) as (H1 & H2 & _ & H4).
    auto.
  - intros World http ds name st Hserve Hnone Hmiss.
    destruct (LinodeCache.ln_no_zone_outcomes http ds Hserve name Hnone st Hmiss)
      as (H1 & H2 & _ & H4).
    auto.
  - intros World http py_int name st Hrej.
    destruct (Namecheap._get_domain_info name) as [[sld tld]|] eqn:Hinfo.
    + split; [|split].
      * intros ty. eapply NamecheapFacts.get_dns_records_rejected; eauto.
      * intros record <-.
        eapply NamecheapFacts.create_dns_record_rejected; eauto.
      * reflexivity.
    + split; [|split].
      * intros ty. eexists. now apply NamecheapFacts.get_dns_records_short.
      * intros record <-. eexists.
        now apply NamecheapFacts.create_dns_record_short.
      * reflexivity.
Qed.

Lemma zone_resolution_failure_is_not_fatal_witness :
  (exists st',
      Cloudflare.get_dns_records example_cloudflare 2 "www.other.org" None
        (Cloudflare.mk None None tt [])
      = (Ret [], st'))
  /\ (exists st',
         Linode.create_dns_record example_linode
           (sim_record None "www.other.org" RecordType.A "10.0.0.1")
           (Linode.mk None None tt [])
         = (Ret false, st'))
  /\ (exists st',
         Namecheap.create_dns_record example_namecheap no_int
           (sim_record None "www.other.org" RecordType.A "10.0.0.1")
           (Namecheap.mk tt [])
         = (Ret false, st')).
Proof.
  destruct zone_resolution_failure_is_not_fatal as (Hcf & Hln & Hnc).
  split; [|split].
  - destruct (Hcf unit example_cloudflare 2 example_zones "www.other.org"
                (Cloudflare.mk None None tt [])) as (H & _).
    + intros w p. reflexivity.
    + intros z Hz. simpl in Hz. destruct Hz as [<-|[<-|[]]]; vm_compute; reflexivity.
    + simpl. lia.
    + reflexivity.
    + apply H.
  - destruct (Hln unit example_linode example_domains "www.other.org"
                (Linode.mk None None tt [])) as (_ & H & _).
    + intros w. eexists _, _. reflexivity.
    + intros d Hd. simpl in Hd. destruct Hd as [<-|[<-|[]]]; vm_compute; reflexivity.
    + reflexivity.
    + apply H. reflexivity.
  - destruct (Hnc unit example_namecheap no_int "www.other.org"
                (Namecheap.mk tt [])) as (_ & H & _).
    + vm_compute. intros w. split; [reflexivity|]. intros hosts. reflexivity.
    + apply H. reflexivity.
Defined.

(** C5 as stated fails for the Namecheap adapter: in an account without any
    domain, where [get_dns_records] returns the empty list,
    [create_caa_record] returns [True], not [False]. *)
Lemma zone_resolution_failure_counterexample :
  Namecheap.get_dns_records example_namecheap no_int "www.other.org" None
    (Namecheap.mk tt [])
  = (Ret [], Namecheap.mk tt [Namecheap.GetHosts "other" "org"])
  /\ Namecheap.create_caa_record
       (CAARecord.mk "www.other.org" 0 "issue" "letsencrypt.org" 60)
       (Namecheap.mk tt [])
     = (Ret true, Namecheap.mk tt []).
Proof. split; vm_compute; reflexivity. Qed.

(** ** C8: Namecheap and CAA records *)

(** C8.  The Namecheap adapter's [create_caa_record] returns [True] for
    every record, in every state of the adapter and of the remote, and
    leaves that state, with its trace of requests, as it was.  It is the
    same result a successful creation gives, here that of the in-memory
    provider. *)
Theorem namecheap_create_caa_record_always_true
        (World : Type) (caa_record : CAARecord.t) (st : @Namecheap.state World) :
  Namecheap.create_caa_record caa_record st = (Ret true, st)
  /\ Namecheap.trace (snd (Namecheap.create_caa_record caa_record st))
     = Namecheap.trace st
  /\ forall sim : Sim.state,
       fst (Namecheap.create_caa_record caa_record st)
       = fst (create_caa_record (DNSProvider := Sim.provider) caa_record sim).
Proof. repeat split. Qed.

(** ** C9: the provider factory *)

Module FactoryFacts.
Import Factory.

Lemma lookup_spec key c :
  lookup key = Some c
  <-> (key = "cloudflare" /\ c = CloudflareDNSProvider)
      \/ (key = "linode" /\ c = LinodeDNSProvider)
      \/ (key = "namecheap" /\ c = NamecheapDNSProvider).
Proof.
  unfold lookup, PROVIDERS. cbn [List.find fst].
  destruct (String.eqb_spec "cloudflare" key) as [<-|H1].
  { cbn. split; [intros [= <-]; auto|].
    intros [[_ ->]|[[[=] _]|[[=] _]]]. reflexivity. }
  destruct (String.eqb_spec "linode" key) as [<-|H2].
  { cbn. split; [intros [= <-]; auto|].
    intros [[[=] _]|[[_ ->]|[[=] _]]]. reflexivity. }
  destruct (String.eqb_spec "namecheap" key) as [<-|H3].
  { cbn. split; [intros [= <-]; auto|].
    intros [[[=] _]|[[[=] _]|[_ ->]]]. reflexivity. }
  cbn. split; [discriminate|]. intros [[-> _]|[[-> _]|[-> _]]]; congruence.
Qed.

Lemma create_provider_explicit env s :
  s <> "" -> create_provider env (Some s) = create_selected env s.
Proof.
  intros H. unfold create_provider. cbn [truthy default].
  apply truthy_str_nonempty in H. now rewrite H.
Qed.

Lemma create_provider_absent env sel :
  truthy sel = false ->
  create_provider env sel
  = match _detect_provider_type env with
    | Ret detected => create_selected env detected
    | Raise e => Raise e
    | OutOfFuel => OutOfFuel
    end.
Proof. intros H. unfold create_provider. now rewrite H. Qed.

Lemma suitable_spec env c :
  suitable env c = true <-> is_Some (env !! DETECT_ENV c).
Proof. unfold suitable. apply bool_decide_eq_true. Qed.

Lemma suitable_absent env c :
  env !! DETECT_ENV c = None -> suitable env c = false.
Proof.
  intros H. unfold suitable. apply bool_decide_eq_false. rewrite H.
  intros [? [=]].
Qed.

(** The scan returns the name of the first suitable entry. *)
Lemma first_suitable_spec env before name c after :
  Forall (fun kv => env !! DETECT_ENV (snd kv) = None) before ->
  is_Some (env !! DETECT_ENV c) ->
  first_suitable env (before ++ (name, c) :: after) = Some name.
Proof.
  intros Hb Hc. induction Hb as [|[k x] before Hx _ IH]; cbn [app first_suitable].
  - apply suitable_spec in Hc. now rewrite Hc.
  - cbn in Hx. now rewrite (suitable_absent _ _ Hx).
Qed.

End FactoryFacts.

Lemma contains_app_r a b sub :
  contains b sub = true -> contains (a +:+ b) sub = true.
Proof.
  intros H. induction a as [|ch a IH]; [exact H|].
  change (String ch a +:+ b) with (String ch (a +:+ b)).
  cbn [contains]. rewrite IH. apply orb_true_r.
Qed.

(** C9 (amended).  [create_provider] with a non-empty selector lowers it
    and looks it up in the table cloudflare, linode, namecheap: selectors
    equal up to case give the same result; a listed one calls the
    constructor of its adapter (which raises [ValueError] when its
    credentials are missing or empty); any other raises the [ValueError]
    whose message names every supported provider.  Without a selector (absent
    or empty) a non-empty [DNS_PROVIDER] is used as the selector; otherwise
    the first adapter in table order whose detection variable is present is
    constructed; and when none is present the call raises the [ValueError]
    that asks to set [DNS_PROVIDER], a message that names no provider. *)
Theorem create_provider_selection (env : Factory.environ) :
  (forall s s', s <> "" -> s' <> "" -> lower s = lower s' ->
                Factory.create_provider env (Some s)
                = Factory.create_provider env (Some s'))
  /\ (forall s c, s <> "" ->
                  In (lower s, c) Factory.PROVIDERS ->
                  Factory.create_provider env (Some s) = Factory.construct env c)
  /\ (forall s, s <> "" ->
                ~ In (lower s) Factory.get_supported_providers ->
                Factory.create_provider env (Some s)
                = Raise (ValueError (Factory.unsupported_error (lower s))))
  /\ (forall sel v, truthy sel = false ->
                    env !! "DNS_PROVIDER" = Some v -> v <> "" ->
                    Factory.create_provider env sel
                    = Factory.create_provider env (Some v))
  /\ (forall sel before name c after,
         truthy sel = false ->
         truthy (env !! "DNS_PROVIDER") = false ->
         Factory.PROVIDERS = before ++ (name, c) :: after ->
         Forall (fun kv => env !! Factory.DETECT_ENV (snd kv) = None) before ->
         is_Some (env !! Factory.DETECT_ENV c) ->
         Factory.create_provider env sel = Factory.construct env c)
  /\ (forall sel,
         truthy sel = false ->
         truthy (env !! "DNS_PROVIDER") = false ->
         (forall c, env !! Factory.DETECT_ENV c = None) ->
         Factory.create_provider env sel
         = Raise (ValueError Factory.detect_error))
  /\ (forall p name, In name Factory.get_supported_providers ->
                     contains (Factory.unsupported_error p) name = true)
  /\ (forall name, In name Factory.get_supported_providers ->
                   contains Factory.detect_error name = false).
Proof.
  split; [|split; [|split; [|split; [|split; [|split; [|split]]]]]].
  - intros s s' Hs Hs' Hl.
    rewrite !FactoryFacts.create_provider_explicit by assumption.
    unfold Factory.create_selected. now rewrite Hl.
  - intros s c Hs Hin. rewrite FactoryFacts.create_provider_explicit by assumption.
    unfold Factory.create_selected.
    assert (Hl : Factory.lookup (lower s) = Some c).
    { apply FactoryFacts.lookup_spec. simpl in Hin.
      destruct Hin as [[= <- <-]|[[= <- <-]|[[= <- <-]|[]]]]; auto. }
    now rewrite Hl.
  - intros s Hs Hnin. rewrite FactoryFacts.create_provider_explicit by assumption.
    unfold Factory.create_selected.
    destruct (Factory.lookup (lower s)) as [c|] eqn:Hl; [|reflexivity].
    exfalso. apply Hnin. apply FactoryFacts.lookup_spec in Hl. simpl.
    destruct Hl as [[-> _]|[[-> _]|[-> _]]]; auto.
  - intros sel v Hsel Hv Hne.
    rewrite FactoryFacts.create_provider_absent by assumption.
    rewrite FactoryFacts.create_provider_explicit by assumption.
    unfold Factory._detect_provider_type. rewrite Hv. cbn [truthy default].
    apply truthy_str_nonempty in Hne. now rewrite Hne.
  - intros sel before name c after Hsel Hdns Htable Hbefore Hc.
    rewrite FactoryFacts.create_provider_absent by assumption.
    unfold Factory._detect_provider_type. rewrite Hdns, Htable.
    rewrite (FactoryFacts.first_suitable_spec env before name c after Hbefore Hc).
    unfold Factory.create_selected.
    assert (Hin : In (name, c) Factory.PROVIDERS).
    { rewrite Htable. apply in_or_app. right. now left. }
    assert (Hl : Factory.lookup (lower name) = Some c).
    { apply FactoryFacts.lookup_spec. simpl in Hin.
      destruct Hin as [[= <- <-]|[[= <- <-]|[[= <- <-]|[]]]]; auto. }
    now rewrite Hl.
  - intros sel Hsel Hdns Hnone.
    rewrite FactoryFacts.create_provider_absent by assumption.
    unfold Factory._detect_provider_type. rewrite Hdns.
    cbn [Factory.PROVIDERS Factory.first_suitable].
    now rewrite !FactoryFacts.suitable_absent by apply Hnone.
  - intros p name Hin. simpl in Hin.
    unfold Factory.unsupported_error.
    apply contains_app_r, contains_app_r.
    destruct Hin as [<-|[<-|[<-|[]]]]; vm_compute; reflexivity.
  - intros name Hin. simpl in Hin.
    destruct Hin as [<-|[<-|[<-|[]]]]; vm_compute; reflexivity.
Qed.

Lemma create_provider_selection_witness :
  Factory.create_provider example_environ (Some "LiNode")
  = Ret (Factory.LinodeInstance "token-l")
  /\ Factory.create_provider example_environ None
     = Ret (Factory.LinodeInstance "token-l")
  /\ Factory.create_provider example_environ (Some "route53")
     = Raise (ValueError
                "Unsupported DNS provider: route53. Supported providers: cloudflare, linode, namecheap")
  /\ Factory.create_provider (<["DNS_PROVIDER" := "NAMECHEAP"]> example_environ) None
     = Ret (Factory.NamecheapInstance "user-n" "key-n" "127.0.0.1" false).
Proof.
  destruct (create_provider_selection example_environ)
    as (_ & Hsel & Hbad & _ & Hdetect & _).
  destruct (create_provider_selection (<["DNS_PROVIDER" := "NAMECHEAP"]> example_environ))
    as (_ & Hsel' & _ & Hdns & _).
  split; [|split; [|split]].
  - rewrite (Hsel "LiNode" Factory.LinodeDNSProvider).
    + vm_compute. reflexivity.
    + discriminate.
    + vm_compute. auto.
  - rewrite (Hdetect None [("cloudflare", Factory.CloudflareDNSProvider)]
               "linode" Factory.LinodeDNSProvider
               [("namecheap", Factory.NamecheapDNSProvider)]).
    + vm_compute. reflexivity.
    + reflexivity.
    + vm_compute. reflexivity.
    + reflexivity.
    + repeat constructor.
    + vm_compute. eauto.
  - rewrite (Hbad "route53").
    + vm_compute. reflexivity.
    + discriminate.
    + vm_compute. intros [H|[H|[H|[]]]]; discriminate H.
  - rewrite (Hdns None "NAMECHEAP").
    + rewrite (Hsel' "NAMECHEAP" Factory.NamecheapDNSProvider).
      * vm_compute. reflexivity.
      * discriminate.
      * vm_compute. auto.
    + reflexivity.
    + vm_compute. reflexivity.
    + discriminate.
Defined.

(** C9 as stated fails: with no selector, no override and no detection
    variable the error raised names none of the supported providers. *)
Lemma create_provider_counterexample :
  Factory.create_provider ∅ None
  = Raise (ValueError
             "Could not detect DNS provider type from environment variables. Please set DNS_PROVIDER environment variable.")
  /\ contains
       "Could not detect DNS provider type from environment variables. Please set DNS_PROVIDER environment variable."
       "cloudflare" = false
  /\ contains
       "Could not detect DNS provider type from environment variables. Please set DNS_PROVIDER environment variable."
       "linode" = false
  /\ contains
       "Could not detect DNS provider type from environment variables. Please set DNS_PROVIDER environment variable."
       "namecheap" = false.
Proof. repeat split; vm_compute; reflexivity. Qed.

(** ** The helpers on the Cloudflare adapter, end to end *)

(** The adapter sends TXT content wrapped in quotes and the remote lists it
    as stored; a second [set_txt_record] with the same unquoted content
    finds the quoted record and issues the listing request only. *)
Example cloudflare_txt_twice :
  let first :=
    Base.set_txt_record (P := Cloudflare.provider CloudflareSim.http 2)
      "_acme-challenge.example.com" "hello" 60
      (Cloudflare.mk None None CloudflareSim.empty []) in
  let quoted_record :=
    Cloudflare.mk_record_data (Some "r0") "_acme-challenge.example.com"
      (Some "TXT") (quoted "hello") (Some 60%Z) None None None in
  first
  = (Ret true,
     Cloudflare.mk (Some "z1") (Some "example.com")
       (CloudflareSim.mk [quoted_record] 1)
       [Cloudflare.GetZones 1;
        Cloudflare.GetRecords "z1" "_acme-challenge.example.com"
          (Some RecordType.TXT);
        Cloudflare.PostRecord "z1"
          (Cloudflare.RecordPayload "TXT" "_acme-challenge.example.com"
             (quoted "hello") 60 None None)])
  /\ Base.set_txt_record (P := Cloudflare.provider CloudflareSim.http 2)
       "_acme-challenge.example.com" "hello" 60
       (Cloudflare.mk (Some "z1") (Some "example.com")
          (CloudflareSim.mk [quoted_record] 1) [])
     = (Ret true,
        Cloudflare.mk (Some "z1") (Some "example.com")
          (CloudflareSim.mk [quoted_record] 1)
          [Cloudflare.GetRecords "z1" "_acme-challenge.example.com"
             (Some RecordType.TXT)]).
Proof. split; vm_compute; reflexivity. Qed.

(** Tag-scoped replacement on the adapter: an issue record is replaced, an
    issuewild record is added next to it. *)
Example cloudflare_caa_replace :
  let st0 := Cloudflare.mk None None CloudflareSim.empty [] in
  let st1 :=
    snd (Base.set_caa_record (P := Cloudflare.provider CloudflareSim.http 2)
           "example.com" "issue" "letsencrypt.org" 0 60 st0) in
  let st2 :=
    snd (Base.set_caa_record (P := Cloudflare.provider CloudflareSim.http 2)
           "example.com" "issue" "other-ca.org" 0 60 st1) in
  let st3 :=
    snd (Base.set_caa_record (P := Cloudflare.provider CloudflareSim.http 2)
           "example.com" "issuewild" "letsencrypt.org" 0 60 st2) in
  List.map Cloudflare.rd_content (CloudflareSim.records (Cloudflare.world st1))
  = ["0 issue letsencrypt.org"]
  /\ List.map Cloudflare.rd_content (CloudflareSim.records (Cloudflare.world st2))
     = ["0 issue other-ca.org"]
  /\ List.map Cloudflare.rd_content (CloudflareSim.records (Cloudflare.world st3))
     = ["0 issue other-ca.org"; "0 issuewild letsencrypt.org"].
Proof. repeat split; vm_compute; reflexivity. Qed.

(** ** Further properties of the shared helpers *)

Section CnameSpied.
Context {S : Type} (P : DNSProvider S).
Hypothesis Hdel : deletes_return P.

Lemma set_cname_record_spy name content ttl proxied recs s s1 log :
  get_dns_records name (Some RecordType.CNAME) s = (Ret recs, s1) ->
  let same r := String.eqb (DNSRecord.content r) content in
  let ids := doomed (fun _ => true) (walked (fun _ => true) same recs) in
  let st := (snd (delete_each name ids s1),
             log ++ [CallGet name (Some RecordType.CNAME)]
                 ++ delete_calls name ids) in
  Base.set_cname_record (P := spy P) name content ttl proxied (s, log)
  = if existsb same recs
    then (Ret true, st)
    else create_dns_record (DNSProvider := spy P)
           (DNSRecord.mk None name RecordType.CNAME content ttl proxied None None) st.
Proof using Hdel.
  intros Hget same ids st.
  pose proof (reconcile_spy P Hdel (fun _ => true) same name _
                (create_dns_record (DNSProvider := spy P)
                   (DNSRecord.mk None name RecordType.CNAME content ttl proxied
                                 None None))
                _ _ _ log Hget) as H.
  cbn zeta in H. fold ids in H. fold st in H.
  rewrite existsb_stops_all in H.
  etransitivity; [|exact H].
  unfold Base.set_cname_record. listing_step Hget.
  now rewrite set_cname_record_loop_shape.
Qed.

End CnameSpied.

(** X1.  The default [set_alias_record] is [set_cname_record]: it lists the
    CNAME records at [name] once.  When a listed record already carries
    [content] it returns [True] without creating anything, after deleting the
    listed records with an id that come before that record.  When none does,
    every listed record with an id is deleted, in order, and exactly one
    record is created: a CNAME at [name] with the requested content, ttl and
    proxied flag; the result is the result of that creation. *)
Theorem set_alias_record_default_upserts_cname
        (S : Type) (P : DNSProvider S) (name content : string) (ttl : Z)
        (proxied : bool) (s s1 : S) (log : list Call)
        (recs : list DNSRecord.t) :
  deletes_return P ->
  get_dns_records name (Some RecordType.CNAME) s = (Ret recs, s1) ->
  let same r := String.eqb (DNSRecord.content r) content in
  let run := Base.set_alias_record (P := spy P) name content ttl proxied (s, log) in
  let listing_call := CallGet name (Some RecordType.CNAME) in
  let new_record :=
    DNSRecord.mk None name RecordType.CNAME content ttl proxied None None in
  run = Base.set_cname_record (P := spy P) name content ttl proxied (s, log)
  /\ (existsb same recs = true ->
      let ids := doomed (fun _ => true) (walked (fun _ => true) same recs) in
      run = (Ret true,
             (snd (delete_each name ids s1),
              log ++ [listing_call] ++ delete_calls name ids)))
  /\ (existsb same recs = false ->
      let ids := doomed (fun _ => true) recs in
      let s2 := snd (delete_each name ids s1) in
      run = (fst (create_dns_record new_record s2),
             (snd (create_dns_record new_record s2),
              log ++ ([listing_call] ++ delete_calls name ids)
                  ++ [CallCreate new_record]))).
Proof.
  intros Hdel Hget same run listing_call new_record.
  pose proof (set_cname_record_spy P Hdel name content ttl proxied recs s s1 log
                Hget) as Hrun.
  cbn zeta in Hrun. fold same listing_call new_record in Hrun.
  assert (Hsame : run
                  = Base.set_cname_record (P := spy P) name content ttl proxied (s, log))
    by reflexivity.
  split; [exact Hsame|]. rewrite Hsame. split.
  - intros Hex ids. rewrite Hrun, Hex. reflexivity.
  - intros Hex ids s2. rewrite Hrun, Hex.
    rewrite walked_all by now rewrite existsb_stops_all.
    cbn [create_dns_record spy]. rewrite logged_run.
    fold ids. fold s2. now rewrite <- app_assoc.
Qed.

Lemma set_alias_record_default_upserts_cname_witness :
  let st := Sim.mk [sim_record (Some "r0") "app.example.com" RecordType.CNAME
                      "old.example.net"] 1 in
  Base.set_alias_record (P := spy Sim.provider) "app.example.com"
    "new.example.net" 60 true (st, [])
  = (Ret true,
     (Sim.mk [DNSRecord.mk (Some "r1") "app.example.com" RecordType.CNAME
                "new.example.net" 60 true None None] 2,
      [CallGet "app.example.com" (Some RecordType.CNAME);
       CallDelete "r0" "app.example.com";
       CallCreate (DNSRecord.mk None "app.example.com" RecordType.CNAME
                     "new.example.net" 60 true None None)])).
Proof.
  pose (st := Sim.mk [sim_record (Some "r0") "app.example.com" RecordType.CNAME
                        "old.example.net"] 1).
  destruct (set_alias_record_default_upserts_cname
              Sim.state Sim.provider "app.example.com" "new.example.net" 60 true
              st st [] (Sim.listing "app.example.com" (Some RecordType.CNAME) st)
              SimFacts.deletes_return_sim eq_refl) as (_ & _ & H).
  cbn zeta. etransitivity; [apply H; vm_compute; reflexivity|].
  vm_compute. reflexivity.
Defined.

(** ** No exception escapes the helpers on a well-behaved provider *)

Section Returns.
Context {S : Type} (P : DNSProvider S).
Hypothesis Hdel : deletes_return P.

Lemma delete_if_id_returns r name (s : S) :
  exists s', Base.delete_if_id r name s = (Ret tt, s').
Proof using Hdel.
  unfold Base.delete_if_id. destruct (DNSRecord.id r) as [rid|]; [|eauto].
  destruct (truthy_str rid); cbn [when]; [|eauto].
  destruct (Hdel rid name s) as (b & s' & E).
  unfold ignore. rewrite (bind_Ret _ _ _ _ _ E). eauto.
Qed.

Lemma reconcile_loop_returns relevant same name recs : forall (s : S),
  exists o s', reconcile_loop relevant same name recs s = (Ret o, s').
Proof using Hdel.
  induction recs as [|r rest IH]; intros s; cbn [reconcile_loop]; [eauto|].
  destruct (relevant r); [|apply IH].
  destruct (same r); [eauto|].
  destruct (delete_if_id_returns r name s) as (s' & E).
  rewrite (bind_Ret _ _ _ _ _ E). apply IH.
Qed.

(** The common body of the helpers returns whenever the listing and the
    final call do. *)
Lemma reconcile_returns relevant same name ty (finish : M S bool) (s : S) :
  (exists recs s1, get_dns_records name ty s = (Ret recs, s1)) ->
  (forall s2, exists b s3, finish s2 = (Ret b, s3)) ->
  exists b s',
    (let* existing_records := get_dns_records name ty in
     let* early := reconcile_loop relevant same name existing_records in
     match early with
     | Some b => ret b
     | None => finish
     end) s = (Ret b, s').
Proof using Hdel.
  intros (recs & s1 & Hget) Hfin.
  rewrite (bind_Ret _ _ _ _ _ Hget).
  destruct (reconcile_loop_returns relevant same name recs s1) as (o & s2 & E).
  rewrite (bind_Ret _ _ _ _ _ E).
  destruct o as [b|]; [eauto|apply Hfin].
Qed.

End Returns.

Lemma creates_caa_return_linode {World : Type}
      (http : Linode.request -> World -> Linode.response * World) caa st :
  exists b s', Linode.create_caa_record http caa st = (Ret b, s').
Proof.
  unfold Linode.create_caa_record.
  destruct (LinodeCache.ensure_zone_id_returns http (CAARecord.name caa) st)
    as (z & st' & Hrun).
  rewrite (bind_Ret _ _ _ _ _ Hrun).
  destruct z as [zid|]; [|eauto].
  destruct (truthy_str zid); [|eauto].
  destruct (LinodeCache.get_subdomain_returns http (CAARecord.name caa) zid st')
    as (sub & st2 & Hsub).
  rewrite (bind_Ret _ _ _ _ _ Hsub).
  unfold bind. rewrite LinodeCache.ln_make_request_run. eauto.
Qed.

Lemma linode_listing_returns {World : Type}
      (http : Linode.request -> World -> Linode.response * World) name ty st :
  exists recs s1,
    get_dns_records (DNSProvider := Linode.provider http) name (Some ty) st
    = (Ret recs, s1).
Proof.
  destruct (LinodeRecords.get_dns_records_typed http name ty st)
    as (recs & s1 & H & _).
  exists recs, s1. exact H.
Qed.


(** ** linode.py: listing, subdomains and the zone cache *)

Lemma substring_prefix pre s :
  String.substring 0 (String.length pre) (pre +:+ s) = pre.
Proof.
  induction pre as [|c pre IH]; cbn.
  - now destruct s.
  - change (String c pre +:+ s) with (String c (pre +:+ s)). cbn.
    f_equal. exact IH.
Qed.

Lemma eqb_longer_false pre s :
  String.eqb (pre +:+ "." +:+ s) s = false.
Proof.
  apply String.eqb_neq. intros E.
  apply (f_equal String.length) in E.
  rewrite !string_length_append in E. cbn in E. lia.
Qed.

Module LinodeMore.
Import Linode.

Section More.
Context {World : Type} (http : request -> World -> response * World).

Lemma scan_domains_inl domain ds : forall best len z,
  scan_domains domain ds best len = inl z -> exists x, z = str x.
Proof.
  induction ds as [|d ds IH]; intros best len z; cbn [scan_domains];
    [discriminate|].
  destruct (String.eqb _ _); [intros [= <-]; eauto|].
  destruct (_ && _); apply IH.
Qed.

Lemma get_zone_id_truthy domain st z st' :
  _get_zone_id http domain st = (Ret (Some z), st') -> truthy_str z = true.
Proof.
  unfold _get_zone_id, bind. rewrite LinodeCache.ln_make_request_run.
  destruct (scan_domains _ _ _ _) as [zid|[best len]] eqn:E.
  - destruct (negb _); [discriminate|].
    intros [= <- _]. apply scan_domains_inl in E as (x & ->).
    apply linode_str_truthy.
  - destruct (negb _); [discriminate|].
    destruct (truthy_int best); [|discriminate].
    intros [= <- _]. apply linode_str_truthy.
Qed.

Lemma ensure_zone_id_truthy domain st z st' :
  _ensure_zone_id http domain st = (Ret (Some z), st') -> truthy_str z = true.
Proof.
  destruct (cache_hit (zone_id st) (zone_domain st) domain) eqn:H.
  - rewrite (LinodeCache.ln_ensure_zone_id_hit _ _ _ H). intros [= E _].
    unfold cache_hit in H. rewrite E in H. cbn in H.
    now destruct (truthy_str z).
  - destruct (LinodeCache.ln_ensure_zone_id_miss http _ _ H)
      as (r & st1 & Hget & Hrun & _).
    rewrite Hrun. intros [= -> _].
    destruct (_get_zone_id http domain st) as [o s] eqn:E. cbn in Hget. subst o.
    eapply get_zone_id_truthy, E.
Qed.

Lemma build_records_selected name sub ty l (st : @state World) :
  exists recs,
    build_records name sub (Some ty) l st = (Ret recs, st)
    /\ List.map DNSRecord.id recs
       = List.map (fun rd => Some (str (rd_id rd)))
                  (List.filter (linode_selected sub ty) l)
    /\ List.map DNSRecord.content recs
       = List.map (fun rd => default "" (rd_target rd))
                  (List.filter (linode_selected sub ty) l)
    /\ Forall (fun r => DNSRecord.name r = name /\ DNSRecord.type r = ty
                        /\ DNSRecord.proxied r = false) recs.
Proof.
  induction l as [|rd l (recs & IH & Hid & Hc & Hall)];
    cbn [build_records List.filter].
  - exists []. repeat split; constructor.
  - assert (Hsel : linode_selected sub ty rd
                   = String.eqb (default "" (rd_name rd)) sub
                     && String.eqb (RecordType.value ty) (default "" (rd_type rd)))
      by reflexivity.
    rewrite Hsel. clear Hsel.
    destruct (String.eqb _ sub); cbn [andb]; [|eauto 10].
    destruct (String.eqb_spec (RecordType.value ty) (default "" (rd_type rd)))
      as [E|_]; cbn [negb]; [|eauto 10].
    unfold RecordType_call. rewrite <- E, RecordType_of_value_value.
    unfold bind at 1, ret at 1. unfold bind at 1. rewrite IH.
    eexists. split; [reflexivity|]. cbn [List.map DNSRecord.id DNSRecord.content].
    rewrite Hid, Hc. repeat split. constructor; [|exact Hall]. now cbn.
Qed.

(** The miss path of [_ensure_zone_id], run. *)
Lemma ensure_zone_id_miss_run domain st r :
  cache_hit (zone_id st) (zone_domain st) domain = false ->
  fst (_get_zone_id http domain st) = Ret r ->
  let w1 := snd (http GetDomains (world st)) in
  _ensure_zone_id http domain st
  = match r with
    | None =>
        (Ret None, mk None (zone_domain st) w1 (trace st ++ [GetDomains]))
    | Some zid =>
        let detail := http (GetDomain zid) w1 in
        (Ret (Some zid),
         mk (Some zid)
            (if success (fst detail)
             then Some (default "" (data_domain (fst detail)))
             else zone_domain st)
            (snd detail) (trace st ++ [GetDomains; GetDomain zid]))
    end.
Proof.
  intros Hmiss Hr w1.
  destruct (LinodeCache.get_zone_id_run http domain st) as (r' & Hrun).
  rewrite Hrun in Hr. cbn [fst] in Hr. injection Hr as ->.
  assert (Hens : _ensure_zone_id http domain st
                 = (let* _ :=
                      match r with
                      | Some zid' =>
                          when (truthy_str zid')
                            (let* result := _make_request http (GetDomain zid') in
                             when (success result)
                               (modify (fun st =>
                                  mk (zone_id st)
                                     (Some (default "" (data_domain result)))
                                     (world st) (trace st))))
                      | None => ret tt
                      end in
                    gets zone_id)
                     (mk r (zone_domain st) w1 (trace st ++ [GetDomains]))).
  { unfold _ensure_zone_id, bind at 1 2, gets at 1 2.
    rewrite Hmiss. unfold bind at 1. rewrite Hrun. reflexivity. }
  rewrite Hens. destruct r as [zid|]; [|reflexivity].
  rewrite (get_zone_id_truthy _ _ _ _ Hrun). cbn [when].
  unfold bind at 1 2. rewrite LinodeCache.ln_make_request_run.
  cbn [zone_id zone_domain world trace fst snd].
  rewrite <- app_assoc. cbn [app].
  destruct (success (fst (http (GetDomain zid) w1))); reflexivity.
Qed.

End More.
End LinodeMore.



(** X4.  Linode's [_get_subdomain] issues one request, for the domain
    object, and leaves the cache alone.  When the request succeeds and
    names the domain [dn]: the name [dn] itself gives the empty string, a
    name [pre.dn] gives [pre] (so the result, a dot and [dn] spell the name
    again), and any other name is returned unchanged.  When the request
    fails every name is returned unchanged. *)
Theorem linode_get_subdomain_strips_domain
        (World : Type)
        (http : Linode.request -> World -> Linode.response * World)
        (zid : string) (st : Linode.state) :
  let resp := fst (http (Linode.GetDomain zid) (Linode.world st)) in
  let dn := default "" (Linode.data_domain resp) in
  let st' :=
    Linode.mk (Linode.zone_id st) (Linode.zone_domain st)
              (snd (http (Linode.GetDomain zid) (Linode.world st)))
              (Linode.trace st ++ [Linode.GetDomain zid]) in
  (Linode.success resp = true ->
   Linode._get_subdomain http dn zid st = (Ret "", st')
   /\ (forall pre,
          Linode._get_subdomain http (pre +:+ "." +:+ dn) zid st = (Ret pre, st'))
   /\ (forall fqdn, Linode.covers dn fqdn = false ->
                    Linode._get_subdomain http fqdn zid st = (Ret fqdn, st')))
  /\ (Linode.success resp = false ->
      forall fqdn, Linode._get_subdomain http fqdn zid st = (Ret fqdn, st')).
Proof.
  intros resp dn st'.
  assert (Hrun : forall fqdn,
             Linode._get_subdomain http fqdn zid st
             = (Ret (if negb (Linode.success resp) then fqdn
                     else if String.eqb fqdn dn then ""
                     else if endswith fqdn ("." +:+ dn)
                     then String.substring 0
                            (String.length fqdn - (String.length dn + 1)) fqdn
                     else fqdn), st')).
  { intros fqdn. unfold Linode._get_subdomain, bind.
    rewrite LinodeCache.ln_make_request_run. fold resp dn st'.
    destruct (negb _); [reflexivity|].
    destruct (String.eqb fqdn dn); [reflexivity|].
    destruct (endswith _ _); reflexivity. }
  split; intros Hs.
  - split; [|split].
    + rewrite Hrun, Hs. cbn [negb]. now rewrite String.eqb_refl.
    + intros pre. rewrite Hrun, Hs. cbn [negb].
      rewrite eqb_longer_false.
      assert (He : endswith (pre +:+ "." +:+ dn) ("." +:+ dn) = true)
        by (apply endswith_spec; now exists pre).
      rewrite He. do 2 f_equal.
      replace (String.length (pre +:+ "." +:+ dn) - (String.length dn + 1))
        with (String.length pre).
      * apply substring_prefix.
      * rewrite !string_length_append. cbn. lia.
    + intros fqdn Hc. rewrite Hrun, Hs. cbn [negb].
      unfold Linode.covers in Hc. apply orb_false_iff in Hc as [-> ->].
      reflexivity.
  - intros fqdn. rewrite Hrun, Hs. reflexivity.
Qed.

Lemma linode_get_subdomain_strips_domain_witness :
  Linode._get_subdomain example_linode "example.com" "1" (Linode.mk None None tt [])
  = (Ret "", Linode.mk None None tt [Linode.GetDomain "1"])
  /\ Linode._get_subdomain example_linode ("_acme.app" +:+ "." +:+ "example.com")
       "1" (Linode.mk None None tt [])
     = (Ret "_acme.app", Linode.mk None None tt [Linode.GetDomain "1"]).
Proof.
  destruct (linode_get_subdomain_strips_domain unit example_linode "1"
              (Linode.mk None None tt [])) as (H & _).
  destruct (H eq_refl) as (H0 & H1 & _).
  split; [exact H0|exact (H1 "_acme.app")].
Defined.

(** X5.  The miss path of Linode's [_ensure_zone_id].  The domains are
    listed and what [_get_zone_id] found replaces the cached id, also when
    nothing was found: a failed resolution returns [None] and clears the
    cached id, so that no later name is served from the cache.  When an id
    was found one more request asks for that domain object, and the cached
    domain name is replaced only if that request succeeds; if it fails the
    new id is cached together with the domain name cached before. *)
Theorem linode_ensure_zone_id_miss_updates
        (World : Type)
        (http : Linode.request -> World -> Linode.response * World)
        (domain : string) (st : Linode.state) :
  Linode.cache_hit (Linode.zone_id st) (Linode.zone_domain st) domain = false ->
  let w1 := snd (http Linode.GetDomains (Linode.world st)) in
  (fst (Linode._get_zone_id http domain st) = Ret None ->
   Linode._ensure_zone_id http domain st
   = (Ret None,
      Linode.mk None (Linode.zone_domain st) w1
                (Linode.trace st ++ [Linode.GetDomains]))
   /\ forall zdom domain',
        Linode.cache_hit None zdom domain' = false)
  /\ (forall zid,
         fst (Linode._get_zone_id http domain st) = Ret (Some zid) ->
         let detail := http (Linode.GetDomain zid) w1 in
         Linode._ensure_zone_id http domain st
         = (Ret (Some zid),
            Linode.mk (Some zid)
                      (if Linode.success (fst detail)
                       then Some (default "" (Linode.data_domain (fst detail)))
                       else Linode.zone_domain st)
                      (snd detail)
                      (Linode.trace st ++ [Linode.GetDomains; Linode.GetDomain zid]))).
Proof.
  intros Hmiss w1. split.
  - intros Hr. split; [|reflexivity].
    exact (LinodeMore.ensure_zone_id_miss_run http domain st None Hmiss Hr).
  - intros zid Hr detail.
    exact (LinodeMore.ensure_zone_id_miss_run http domain st (Some zid) Hmiss Hr).
Qed.

Lemma linode_ensure_zone_id_miss_updates_witness :
  Linode._ensure_zone_id example_linode "www.other.org" cached_linode
  = (Ret None, Linode.mk None (Some "example.com") tt [Linode.GetDomains])
  /\ Linode._ensure_zone_id example_linode "a.sub.example.com"
       (Linode.mk None None tt [])
     = (Ret (Some "2"),
        Linode.mk (Some "2") (Some "sub.example.com") tt
          [Linode.GetDomains; Linode.GetDomain "2"]).
Proof.
  split.
  - destruct (linode_ensure_zone_id_miss_updates unit example_linode
                "www.other.org" cached_linode eq_refl) as (H & _).
    exact (proj1 (H eq_refl)).
  - destruct (linode_ensure_zone_id_miss_updates unit example_linode
                "a.sub.example.com" (Linode.mk None None tt []) eq_refl)
      as (_ & H).
    exact (H "2" eq_refl).
Defined.

(** ** cloudflare.py: the page loop and the zone cache *)

Module CloudflareMore.
Import Cloudflare.

Section More.
Context {World : Type} (http : request -> World -> response * World).

Lemma scan_zones_covers domain zs : forall b,
  best_covers domain b ->
  match scan_zones domain zs b with
  | inl (_, zn) => zn = domain
  | inr b' => best_covers domain b'
  end.
Proof.
  induction zs as [|z zs IH]; intros b Hb; cbn [scan_zones]; [exact Hb|].
  destruct (String.eqb_spec domain (default "" (z_name z))) as [E|_];
    [now symmetry|].
  destruct (endswith domain ("." +:+ default "" (z_name z))) eqn:He;
    cbn [andb]; [|now apply IH].
  destruct (_ <? _)%nat; [|now apply IH].
  apply IH. intros zn [= <-]. exact He.
Qed.

(** A zone the page loop returns is the domain itself or a non-empty
    suffix of it behind a dot. *)
Lemma page_loop_covers n : forall domain page total b st i zn st',
  best_covers domain b ->
  page_loop http n domain page total b st = (Ret (Some (i, zn)), st') ->
  zn = domain
  \/ (endswith domain ("." +:+ zn) = true /\ truthy_str zn = true
      /\ truthy i = true).
Proof.
  assert (Hend : forall domain b (st : @state World) i zn st',
             best_covers domain b ->
             match best_zone_id b, zone_name_found b with
             | Some zid, Some zname =>
                 if truthy_str zid && truthy_str zname
                 then ret (Some (Some zid, zname))
                 else ret None
             | _, _ => ret None
             end st = (Ret (Some (i, zn)), st') ->
             endswith domain ("." +:+ zn) = true /\ truthy_str zn = true
             /\ truthy i = true).
  { intros domain b st i zn st' Hb.
    destruct (best_zone_id b) as [zid|]; [|discriminate].
    destruct (zone_name_found b) as [zname|] eqn:Ez; [|discriminate].
    destruct (truthy_str zid) eqn:E1; [|discriminate].
    destruct (truthy_str zname) eqn:E2; [|discriminate].
    intros [= <- <- _]. repeat split; auto. }
  induction n as [|n IH]; intros domain page total b st i zn st' Hb;
    cbn [page_loop].
  - destruct (page <=? total)%nat; [discriminate|].
    intros H. right. eapply Hend; eauto.
  - destruct (page <=? total)%nat; [|intros H; right; eapply Hend; eauto].
    unfold bind at 1. rewrite CloudflareCache.cf_make_request_run.
    destruct (negb _); [discriminate|].
    destruct (bool_decide _ && _); [discriminate|].
    pose proof (scan_zones_covers domain
                  (zones (fst (http (GetZones page) (world st)))) b Hb) as Hs.
    destruct (scan_zones _ _ _) as [[i' zn']|b'].
    + intros [= <- <- _]. now left.
    + intros H. eapply IH; eauto.
Qed.

(** The pages are requested in order, starting from [page], and nothing
    else is requested or written. *)
Lemma page_loop_trace n : forall domain page total b st r st',
  page_loop http n domain page total b st = (r, st') ->
  exists k,
    k <= n
    /\ trace st' = trace st ++ List.map GetZones (seq page k)
    /\ zone_id st' = zone_id st /\ zone_domain st' = zone_domain st
    /\ ((page <=? total)%nat = true -> r <> OutOfFuel -> 1 <= k).
Proof.
  induction n as [|n IH]; intros domain page total b st r st'; cbn [page_loop].
  - destruct (page <=? total)%nat.
    + intros [= <- <-]. exists 0. cbn. rewrite app_nil_r. repeat split; auto.
      intros _ H. now contradiction H.
    + intros H. exists 0. cbn.
      assert (st' = st) as ->.
      { destruct (best_zone_id b), (zone_name_found b);
          try destruct (truthy_str _ && truthy_str _); now injection H. }
      rewrite app_nil_r. repeat split; auto; first [lia | intros [=]].
  - destruct (page <=? total)%nat.
    + unfold bind at 1. rewrite CloudflareCache.cf_make_request_run.
      set (st1 := mk _ _ _ _).
      assert (Hone : forall r0, (r0, st1) = (r, st') ->
                exists k, k <= Datatypes.S n
                  /\ trace st' = trace st ++ List.map GetZones (seq page k)
                  /\ zone_id st' = zone_id st /\ zone_domain st' = zone_domain st
                  /\ (true = true -> r <> OutOfFuel -> 1 <= k)).
      { intros r0 [= _ <-]. exists 1. cbn. repeat split; auto. lia. }
      destruct (negb _); [apply Hone|].
      destruct (bool_decide _ && _); [apply Hone|].
      destruct (scan_zones _ _ _) as [hit|b']; [apply Hone|].
      intros Hrec. apply IH in Hrec.
      destruct Hrec as (k & Hk & Ht & Hz & Hd & _).
      exists (Datatypes.S k). split; [lia|]. split.
      * rewrite Ht. unfold st1. cbn [trace seq List.map].
        rewrite <- app_assoc. cbn [app].
        now replace (page + 1) with (Datatypes.S page) by lia.
      * repeat split; auto. lia.
    + intros H. exists 0. cbn.
      assert (st' = st) as ->.
      { destruct (best_zone_id b), (zone_name_found b);
          try destruct (truthy_str _ && truthy_str _); now injection H. }
      rewrite app_nil_r. repeat split; auto; first [lia | intros [=]].
Qed.

(** A page that the remote refuses ends the loop with nothing. *)
Lemma page_loop_failed_page n k :
  (forall w, success (fst (http (GetZones k) w)) = false) ->
  forall domain page total b st r st' more,
    page_loop http n domain page total b st = (r, st') ->
    trace st' = trace st ++ more ->
    In (GetZones k) more ->
    r = Ret None.
Proof.
  intros Hfail.
  assert (Hnil : forall (st : @state World) more,
             trace st = trace st ++ more -> In (GetZones k) more -> False).
  { intros st more E. rewrite <- (app_nil_r (trace st)) in E at 1.
    apply app_inv_head in E. now subst more. }
  assert (Hend : forall b (st : @state World) r st' more,
             match best_zone_id b, zone_name_found b with
             | Some zid, Some zname =>
                 if truthy_str zid && truthy_str zname
                 then ret (Some (Some zid, zname))
                 else ret None
             | _, _ => ret None
             end st = (r, st') ->
             trace st' = trace st ++ more -> In (GetZones k) more -> r = Ret None).
  { intros b st r st' more H E Hin. exfalso.
    assert (st' = st) as ->.
    { destruct (best_zone_id b), (zone_name_found b);
        try destruct (truthy_str _ && truthy_str _); now injection H. }
    eapply Hnil; eauto. }
  induction n as [|n IH]; intros domain page total b st r st' more;
    cbn [page_loop].
  - destruct (page <=? total)%nat; [|apply Hend].
    intros [= <- <-] E Hin. exfalso. eapply Hnil; eauto.
  - destruct (page <=? total)%nat; [|apply Hend].
    unfold bind at 1. rewrite CloudflareCache.cf_make_request_run.
    set (st1 := mk _ _ _ _).
    destruct (success (fst (http (GetZones page) (world st)))) eqn:Es;
      cbn [negb]; [|now intros [= <- _]].
    assert (Hpage : forall more', trace st' = trace st1 ++ more' ->
                      trace st' = trace st ++ more -> In (GetZones k) more ->
                      In (GetZones k) more').
    { intros more' E1 E2 Hin. unfold st1 in E1. cbn [trace] in E1.
      rewrite E1, <- app_assoc in E2. apply app_inv_head in E2. subst more.
      destruct Hin as [[= E]|Hin]; [|exact Hin].
      subst page. now rewrite Hfail in Es. }
    destruct (bool_decide _ && _).
    { intros [= <- _]. reflexivity. }
    destruct (scan_zones _ _ _) as [hit|b'].
    + intros [= <- <-] E Hin. exfalso.
      apply (Hpage [] ltac:(now rewrite app_nil_r) E) in Hin. destruct Hin.
    + intros Hrec E Hin.
      destruct (page_loop_trace _ _ _ _ _ _ _ _ Hrec) as (j & _ & Ht & _).
      eapply IH; [exact Hrec|exact Ht|]. eapply Hpage; eauto.
Qed.

End More.
End CloudflareMore.

(** X6.  A resolution made by Cloudflare's [_ensure_zone_id] is cached and
    reused.  When the cache misses and [_get_zone_info] finds the zone
    [(zid, zn)] for a non-empty name, with a non-empty id, the id and the
    zone name are stored; the zone name covers the name; and from then on
    [_ensure_zone_id] answers [zid] for that name, and for every other name
    the zone covers, without any request and without changing the state. *)
Theorem cloudflare_resolution_is_cached
        (World : Type)
        (http : Cloudflare.request -> World -> Cloudflare.response * World)
        (fuel : nat) (domain zid zn : string) (st st1 : Cloudflare.state) :
  domain <> "" ->
  truthy_str zid = true ->
  Cloudflare.cache_hit (Cloudflare.zone_id st) (Cloudflare.zone_domain st) domain
  = false ->
  Cloudflare._get_zone_info http fuel domain st = (Ret (Some (Some zid, zn)), st1) ->
  let st2 :=
    Cloudflare.mk (Some zid) (Some zn) (Cloudflare.world st1)
                  (Cloudflare.trace st1) in
  Cloudflare._ensure_zone_id http fuel domain st = (Ret (Some zid), st2)
  /\ Cloudflare.covers zn domain = true
  /\ forall domain' w tr,
       Cloudflare.covers zn domain' = true ->
       let st3 := Cloudflare.mk (Some zid) (Some zn) w tr in
       Cloudflare._ensure_zone_id http fuel domain' st3 = (Ret (Some zid), st3).
Proof.
  intros Hne Hzid Hmiss Hinfo st2.
  assert (Hzn : truthy_str zn = true /\ Cloudflare.covers zn domain = true).
  { unfold Cloudflare._get_zone_info in Hinfo.
    apply CloudflareMore.page_loop_covers in Hinfo; [|intros ? [=]].
    unfold Cloudflare.covers.
    destruct Hinfo as [->|(He & Ht & _)].
    - rewrite String.eqb_refl. split; [|reflexivity].
      now apply truthy_str_nonempty.
    - rewrite He, orb_true_r. auto. }
  destruct Hzn as (Hzn & Hcov).
  split; [|split; [exact Hcov|]].
  - rewrite (CloudflareCache.cf_ensure_zone_id_miss http fuel _ _ Hmiss).
    now rewrite Hinfo.
  - intros domain' w tr Hc st3.
    apply (CloudflareCache.cf_ensure_zone_id_hit http fuel domain' st3).
    unfold Cloudflare.cache_hit, st3. cbn. now rewrite Hzid, Hzn, Hc.
Qed.

Lemma cloudflare_resolution_is_cached_witness :
  let st2 :=
    Cloudflare.mk (Some "z2") (Some "sub.example.com") tt [Cloudflare.GetZones 1] in
  Cloudflare._ensure_zone_id example_cloudflare 2 "a.sub.example.com"
    (Cloudflare.mk None None tt [])
  = (Ret (Some "z2"), st2)
  /\ Cloudflare._ensure_zone_id example_cloudflare 2 "b.sub.example.com" st2
     = (Ret (Some "z2"), st2).
Proof.
  destruct (cloudflare_resolution_is_cached unit example_cloudflare 2
              "a.sub.example.com" "z2" "sub.example.com"
              (Cloudflare.mk None None tt [])
              (Cloudflare.mk None None tt [Cloudflare.GetZones 1])
              ltac:(discriminate) eq_refl eq_refl eq_refl) as (H1 & _ & H2).
  split; [exact H1|].
  exact (H2 "b.sub.example.com" tt [Cloudflare.GetZones 1] eq_refl).
Defined.

(** X7.  Cloudflare's [_get_zone_info] only reads the zone listing: the
    requests it issues are the pages 1, 2, ..., k of the listing, in order
    and without a gap, at most one per unit of the iteration bound; it
    issues page 1 whenever it returns; and it writes neither the cached
    zone id nor the cached zone name. *)
Theorem cloudflare_get_zone_info_reads_pages_in_order
        (World : Type)
        (http : Cloudflare.request -> World -> Cloudflare.response * World)
        (fuel : nat) (domain : string) (st : Cloudflare.state) :
  let run := Cloudflare._get_zone_info http fuel domain st in
  exists k,
    k <= fuel
    /\ Cloudflare.trace (snd run)
       = Cloudflare.trace st ++ List.map Cloudflare.GetZones (seq 1 k)
    /\ Cloudflare.zone_id (snd run) = Cloudflare.zone_id st
    /\ Cloudflare.zone_domain (snd run) = Cloudflare.zone_domain st
    /\ (fst run <> OutOfFuel -> 1 <= k).
Proof.
  intros run.
  destruct (CloudflareMore.page_loop_trace http fuel domain 1 1
              (Cloudflare.mk_best 0 None None) st (fst run) (snd run))
    as (k & Hk & Ht & Hz & Hd & Hone).
  { unfold run, Cloudflare._get_zone_info. now destruct (Cloudflare.page_loop _ _ _ _ _ _ _). }
  exists k. repeat split; auto.
Qed.

(** X8.  A refused page request discards the resolution.  If the remote
    answers page [k] of the zone listing with a failure and
    [_get_zone_info] has requested that page, the result is [None],
    whatever zones the pages before it listed. *)
Theorem cloudflare_failed_page_discards_resolution
        (World : Type)
        (http : Cloudflare.request -> World -> Cloudflare.response * World)
        (fuel k : nat) (domain : string) (st : Cloudflare.state)
        (more : list Cloudflare.request) :
  (forall w, Cloudflare.success (fst (http (Cloudflare.GetZones k) w)) = false) ->
  let run := Cloudflare._get_zone_info http fuel domain st in
  Cloudflare.trace (snd run) = Cloudflare.trace st ++ more ->
  In (Cloudflare.GetZones k) more ->
  fst run = Ret None.
Proof.
  intros Hfail run Ht Hin.
  eapply (CloudflareMore.page_loop_failed_page http fuel k Hfail domain 1 1
            (Cloudflare.mk_best 0 None None) st (fst run) (snd run) more);
    eauto.
  unfold run, Cloudflare._get_zone_info. now destruct (Cloudflare.page_loop _ _ _ _ _ _ _).
Qed.

Lemma cloudflare_failed_page_discards_resolution_witness :
  Cloudflare.covers "example.com" "app.example.com" = true
  /\ Cloudflare._get_zone_info flaky_cloudflare 5 "app.example.com"
       (Cloudflare.mk None None tt [])
     = (Ret None,
        Cloudflare.mk None None tt [Cloudflare.GetZones 1; Cloudflare.GetZones 2]).
Proof.
  split; [reflexivity|].
  pose proof (cloudflare_failed_page_discards_resolution unit flaky_cloudflare
                5 2 "app.example.com" (Cloudflare.mk None None tt [])
                [Cloudflare.GetZones 1; Cloudflare.GetZones 2]
                (fun w => eq_refl) eq_refl (or_intror (or_introl eq_refl))) as H.
  destruct (Cloudflare._get_zone_info flaky_cloudflare 5 "app.example.com"
              (Cloudflare.mk None None tt [])) as [r s] eqn:E.
  cbn [fst] in H. subst r. f_equal.
  vm_compute in E. now injection E as <-.
Defined.

(** ** Quotes around CAA values and TXT contents *)

Lemma lstrip_quote_head s :
  match lstrip_quote s with
  | String c _ => Ascii.eqb c quote = false
  | EmptyString => True
  end.
Proof.
  induction s as [|c s IH]; cbn [lstrip_quote]; [exact I|].
  destruct (Ascii.eqb c quote) eqn:E; [exact IH|exact E].
Qed.

Lemma rstrip_quote_head c s :
  Ascii.eqb c quote = false ->
  exists r, rstrip_quote (String c s) = String c r.
Proof.
  intros E. cbn [rstrip_quote]. rewrite E.
  destruct (rstrip_quote s); eauto.
Qed.

Lemma rstrip_quote_idem s : rstrip_quote (rstrip_quote s) = rstrip_quote s.
Proof.
  induction s as [|c s IH]; [reflexivity|].
  cbn [rstrip_quote].
  destruct (rstrip_quote s) as [|c' t] eqn:E.
  - destruct (Ascii.eqb c quote) eqn:Ec; [reflexivity|].
    cbn [rstrip_quote]. now rewrite Ec.
  - cbn [rstrip_quote]. cbn [rstrip_quote] in IH.
    destruct (rstrip_quote t) as [|c'' t'] eqn:Et.
    + destruct (Ascii.eqb c' quote); [discriminate|]. now rewrite IH.
    + now rewrite IH.
Qed.

(** The stripped string is empty or starts with another character than the
    quote. *)
Lemma strip_quote_head s :
  match strip_quote s with
  | String c _ => Ascii.eqb c quote = false
  | EmptyString => True
  end.
Proof.
  unfold strip_quote. pose proof (lstrip_quote_head s) as H.
  destruct (lstrip_quote s) as [|c t]; [exact I|].
  destruct (rstrip_quote_head c t H) as (r & ->). exact H.
Qed.

Lemma lstrip_quote_clean s :
  match s with
  | String c _ => Ascii.eqb c quote = false
  | EmptyString => True
  end ->
  lstrip_quote s = s.
Proof. destruct s as [|c s]; [reflexivity|]. cbn. now intros ->. Qed.

Lemma strip_quote_idem s : strip_quote (strip_quote s) = strip_quote s.
Proof.
  unfold strip_quote at 1.
  rewrite (lstrip_quote_clean _ (strip_quote_head s)).
  unfold strip_quote. apply rstrip_quote_idem.
Qed.

Lemma strip_quote_quoted v : strip_quote (quoted v) <> quoted v.
Proof.
  intros E. pose proof (strip_quote_head (quoted v)) as H.
  rewrite E in H. unfold quoted in H. now rewrite Ascii.eqb_refl in H.
Qed.

(** The no-op test of [set_caa_record] on a record whose data dictionary
    holds [tag] and the cleaned value. *)
Lemma caa_round_trip_test r flags tag clean value :
  DNSRecord.data r = Some (caa_data flags tag clean) ->
  Base.caa_same_tag r tag = true
  /\ (Base.data_get_is r "value" value = true <-> clean = value).
Proof.
  intros Hd. split.
  - apply caa_same_tag_spec. exists (caa_data flags tag clean).
    split; [exact Hd|]. split; [apply insert_non_empty|reflexivity].
  - unfold Base.data_get_is. rewrite Hd.
    assert (Hv : caa_data flags tag clean !! "value" = Some (PyStr clean))
      by reflexivity.
    rewrite Hv. rewrite bool_decide_eq_true. split; [now intros [= ->]|now intros ->].
Qed.

(** X9.  CAA values lose their surrounding quotes on the way to Cloudflare.
    With the zone known, [create_caa_record] posts exactly one record, whose
    data holds the flags, the tag and the value with every double quote at
    its two ends removed.  A listed record carrying that data is recognised
    by [set_caa_record] as having the tag, and as having the requested value
    exactly when the requested value has no quote to remove; for a value
    written inside double quotes the test fails, so [set_caa_record] never
    finds the record it created. *)
Theorem cloudflare_caa_value_quotes_round_trip
        (World : Type)
        (http : Cloudflare.request -> World -> Cloudflare.response * World)
        (fuel : nat) (caa : CAARecord.t) (st st1 : Cloudflare.state)
        (zid : string) :
  Cloudflare._ensure_zone_id http fuel (CAARecord.name caa) st
  = (Ret (Some zid), st1) ->
  truthy_str zid = true ->
  let clean := strip_quote (CAARecord.value caa) in
  let post :=
    Cloudflare.PostRecord zid
      (Cloudflare.CAAPayload (CAARecord.name caa) (CAARecord.ttl caa)
         (CAARecord.flags caa) (CAARecord.tag caa) clean) in
  let answer := http post (Cloudflare.world st1) in
  Cloudflare.create_caa_record http fuel caa st
  = (Ret (Cloudflare.success (fst answer)),
     Cloudflare.mk (Cloudflare.zone_id st1) (Cloudflare.zone_domain st1)
                   (snd answer) (Cloudflare.trace st1 ++ [post]))
  /\ strip_quote clean = clean
  /\ forall (rd : Cloudflare.record_data) (st' : @Cloudflare.state World),
       Cloudflare.rd_type rd = Some "CAA" ->
       Cloudflare.rd_data rd
       = Some (caa_data (CAARecord.flags caa) (CAARecord.tag caa) clean) ->
       exists r,
         Cloudflare.build_records [rd] st' = (Ret [r], st')
         /\ Base.caa_same_tag r (CAARecord.tag caa) = true
         /\ (Base.data_get_is r "value" (CAARecord.value caa) = true
             <-> clean = CAARecord.value caa)
         /\ (forall v, CAARecord.value caa = quoted v ->
                       Base.data_get_is r "value" (CAARecord.value caa) = false).
Proof.
  intros Hens Hz clean post answer. split; [|split].
  - unfold Cloudflare.create_caa_record.
    rewrite (bind_Ret _ _ _ _ _ Hens), Hz.
    unfold bind. now rewrite CloudflareCache.cf_make_request_run.
  - apply strip_quote_idem.
  - intros rd st' Hty Hd. cbn [Cloudflare.build_records].
    rewrite Hty. eexists. split; [reflexivity|].
    match goal with |- Base.caa_same_tag ?r _ = _ /\ _ =>
      destruct (caa_round_trip_test r (CAARecord.flags caa) (CAARecord.tag caa)
                  clean (CAARecord.value caa) Hd) as (H1 & H2) end.
    split; [exact H1|]. split; [exact H2|].
    intros v Hv. apply not_true_is_false. rewrite H2. unfold clean.
    rewrite Hv. apply strip_quote_quoted.
Qed.

Lemma cloudflare_caa_value_quotes_round_trip_witness :
  let caa := CAARecord.mk "example.com" 0 "issue" (quoted "letsencrypt.org") 60 in
  Cloudflare.create_caa_record example_cloudflare 2 caa
    (Cloudflare.mk None None tt [])
  = (Ret true,
     Cloudflare.mk (Some "z1") (Some "example.com") tt
       [Cloudflare.GetZones 1;
        Cloudflare.PostRecord "z1"
          (Cloudflare.CAAPayload "example.com" 60 0 "issue" "letsencrypt.org")]).
Proof.
  exact (proj1 (cloudflare_caa_value_quotes_round_trip unit example_cloudflare 2
                  (CAARecord.mk "example.com" 0 "issue" (quoted "letsencrypt.org") 60)
                  (Cloudflare.mk None None tt [])
                  (Cloudflare.mk (Some "z1") (Some "example.com") tt
                     [Cloudflare.GetZones 1])
                  "z1" eq_refl eq_refl)).
Defined.

(** X10.  The same on Linode.  With the zone and the subdomain known,
    [create_caa_record] posts one CAA record with the subdomain as name, the
    tag, and as target the value without the double quotes at its ends; the
    flags are not sent.  A listed record object with that name, tag and
    target is read back with flags 0, is recognised by [set_caa_record] as
    having the tag, and as having the requested value exactly when the
    requested value has no quote to remove. *)
Theorem linode_caa_value_quotes_round_trip
        (World : Type)
        (http : Linode.request -> World -> Linode.response * World)
        (caa : CAARecord.t) (st st1 st2 : Linode.state) (zid sub : string) :
  Linode._ensure_zone_id http (CAARecord.name caa) st = (Ret (Some zid), st1) ->
  Linode._get_subdomain http (CAARecord.name caa) zid st1 = (Ret sub, st2) ->
  let clean := strip_quote (CAARecord.value caa) in
  let post :=
    Linode.PostRecord zid
      (Linode.CAAPayload sub (CAARecord.tag caa) clean (CAARecord.ttl caa)) in
  let answer := http post (Linode.world st2) in
  Linode.create_caa_record http caa st
  = (Ret (Linode.success (fst answer)),
     Linode.mk (Linode.zone_id st2) (Linode.zone_domain st2)
               (snd answer) (Linode.trace st2 ++ [post]))
  /\ forall (rd : Linode.record_data) (st' : @Linode.state World),
       Linode.rd_name rd = Some sub ->
       Linode.rd_type rd = Some "CAA" ->
       Linode.rd_tag rd = Some (CAARecord.tag caa) ->
       Linode.rd_target rd = Some clean ->
       exists r,
         Linode.build_records (CAARecord.name caa) sub (Some RecordType.CAA)
                              [rd] st'
         = (Ret [r], st')
         /\ DNSRecord.data r = Some (caa_data 0 (CAARecord.tag caa) clean)
         /\ Base.caa_same_tag r (CAARecord.tag caa) = true
         /\ (Base.data_get_is r "value" (CAARecord.value caa) = true
             <-> clean = CAARecord.value caa)
         /\ (forall v, CAARecord.value caa = quoted v ->
                       Base.data_get_is r "value" (CAARecord.value caa) = false).
Proof.
  intros Hens Hsub clean post answer. split.
  - unfold Linode.create_caa_record.
    rewrite (bind_Ret _ _ _ _ _ Hens).
    rewrite (LinodeMore.ensure_zone_id_truthy http _ _ _ _ Hens).
    rewrite (bind_Ret _ _ _ _ _ Hsub).
    unfold bind. now rewrite LinodeCache.ln_make_request_run.
  - intros rd st' Hn Hty Htag Htgt. cbn [Linode.build_records].
    rewrite Hn, Hty, Htag, Htgt. cbn [default].
    rewrite String.eqb_refl. cbn.
    eexists. split; [reflexivity|].
    assert (Hd : Some (<["flags" := PyInt 0]>
                       (<["tag" := PyStr (CAARecord.tag caa)]>
                        (<["value" := PyStr (strip_quote clean)]> ∅)))
                 = Some (caa_data 0 (CAARecord.tag caa) clean)).
    { unfold clean. now rewrite strip_quote_idem. }
    match goal with |- DNSRecord.data ?r = _ /\ _ =>
      assert (Hr : DNSRecord.data r = Some (caa_data 0 (CAARecord.tag caa) clean))
        by exact Hd;
      destruct (caa_round_trip_test r 0 (CAARecord.tag caa)
                  clean (CAARecord.value caa) Hr) as (H1 & H2) end.
    split; [exact Hd|]. split; [exact H1|]. split; [exact H2|].
    intros v Hv. apply not_true_is_false. rewrite H2. unfold clean.
    rewrite Hv. apply strip_quote_quoted.
Qed.

Lemma linode_caa_value_quotes_round_trip_witness :
  let caa := CAARecord.mk "example.com" 128 "issue" (quoted "letsencrypt.org") 60 in
  Linode.create_caa_record LinodeSim.http caa
    (Linode.mk None None (LinodeSim.mk [] 1) [])
  = (Ret true,
     Linode.mk (Some "1") (Some "example.com")
       (LinodeSim.mk
          [Linode.mk_record_data (Some 1%Z) (Some "") (Some "CAA")
             (Some "letsencrypt.org") (Some 60%Z) None (Some "issue")] 2)
       [Linode.GetDomains; Linode.GetDomain "1"; Linode.GetDomain "1";
        Linode.PostRecord "1"
          (Linode.CAAPayload "" "issue" "letsencrypt.org" 60)]).
Proof.
  exact (proj1 (linode_caa_value_quotes_round_trip LinodeSim.world LinodeSim.http
                  (CAARecord.mk "example.com" 128 "issue"
                     (quoted "letsencrypt.org") 60)
                  (Linode.mk None None (LinodeSim.mk [] 1) [])
                  (Linode.mk (Some "1") (Some "example.com") (LinodeSim.mk [] 1)
                     [Linode.GetDomains; Linode.GetDomain "1"])
                  (Linode.mk (Some "1") (Some "example.com") (LinodeSim.mk [] 1)
                     [Linode.GetDomains; Linode.GetDomain "1"; Linode.GetDomain "1"])
                  "1" "" eq_refl eq_refl)).
Defined.

(** X11.  What the adapters do with the [proxied] argument.  On Cloudflare
    [set_a_record] behaves the same whatever [proxied] is: the flag is only
    posted for CNAME records, where it is posted as given.  On Linode it
    changes nothing for A records nor for CNAME records. *)
Theorem proxied_flag_reaches_cloudflare_cname_only :
  (forall (World : Type)
          (http : Cloudflare.request -> World -> Cloudflare.response * World)
          (fuel : nat) (name ip : string) (ttl : Z) (proxied : bool)
          (st : Cloudflare.state),
      Base.set_a_record (P := Cloudflare.provider http fuel) name ip ttl proxied st
      = Base.set_a_record (P := Cloudflare.provider http fuel) name ip ttl false st)
  /\ (forall (World : Type)
             (http : Cloudflare.request -> World -> Cloudflare.response * World)
             (fuel : nat) (name content zid : string) (ttl : Z) (proxied : bool)
             (st st1 : Cloudflare.state),
         Cloudflare._ensure_zone_id http fuel name st = (Ret (Some zid), st1) ->
         truthy_str zid = true ->
         let post :=
           Cloudflare.PostRecord zid
             (Cloudflare.RecordPayload "CNAME" name content ttl (Some proxied) None) in
         let answer := http post (Cloudflare.world st1) in
         create_dns_record (DNSProvider := Cloudflare.provider http fuel)
           (DNSRecord.mk None name RecordType.CNAME content ttl proxied None None) st
         = (Ret (Cloudflare.success (fst answer)),
            Cloudflare.mk (Cloudflare.zone_id st1) (Cloudflare.zone_domain st1)
                          (snd answer) (Cloudflare.trace st1 ++ [post])))
  /\ (forall (World : Type)
             (http : Linode.request -> World -> Linode.response * World)
             (name content : string) (ttl : Z) (proxied : bool)
             (st : Linode.state),
         Base.set_a_record (P := Linode.provider http) name content ttl proxied st
         = Base.set_a_record (P := Linode.provider http) name content ttl false st
         /\ Base.set_cname_record (P := Linode.provider http) name content ttl
              proxied st
            = Base.set_cname_record (P := Linode.provider http) name content ttl
                false st).
Proof.
  split; [|split].
  - intros. reflexivity.
  - intros World http fuel name content zid ttl proxied st st1 Hens Hz post answer.
    change (Cloudflare.create_dns_record http fuel
              (DNSRecord.mk None name RecordType.CNAME content ttl proxied None None) st
            = (Ret (Cloudflare.success (fst answer)),
               Cloudflare.mk (Cloudflare.zone_id st1) (Cloudflare.zone_domain st1)
                 (snd answer) (Cloudflare.trace st1 ++ [post]))).
    unfold Cloudflare.create_dns_record. cbn [DNSRecord.name].
    rewrite (bind_Ret _ _ _ _ _ Hens), Hz.
    unfold bind. now rewrite CloudflareCache.cf_make_request_run.
  - intros. split; reflexivity.
Qed.

Lemma proxied_flag_reaches_cloudflare_cname_only_witness :
  create_dns_record (DNSProvider := Cloudflare.provider example_cloudflare 2)
    (DNSRecord.mk None "app.example.com" RecordType.CNAME "target.example.org"
       60 true None None)
    (Cloudflare.mk None None tt [])
  = (Ret true,
     Cloudflare.mk (Some "z1") (Some "example.com") tt
       [Cloudflare.GetZones 1;
        Cloudflare.PostRecord "z1"
          (Cloudflare.RecordPayload "CNAME" "app.example.com" "target.example.org"
             60 (Some true) None)]).
Proof.
  exact (proj1 (proj2 proxied_flag_reaches_cloudflare_cname_only)
           unit example_cloudflare 2 "app.example.com" "target.example.org" "z1"
           60%Z true (Cloudflare.mk None None tt [])
           (Cloudflare.mk (Some "z1") (Some "example.com") tt [Cloudflare.GetZones 1])
           eq_refl eq_refl).
Defined.

(** X12.  TXT contents survive the trip through either adapter.  With the
    zone known, Cloudflare's [create_dns_record] posts a TXT record with the
    content wrapped in double quotes; Linode's posts the content as it is
    when it starts with a double quote and wrapped in double quotes
    otherwise.  In both cases a listed record with the posted content passes
    the equality test of [set_txt_record] for the content that was asked
    for, so that a second [set_txt_record] finds it. *)
Theorem txt_content_round_trip :
  (forall (World : Type)
          (http : Cloudflare.request -> World -> Cloudflare.response * World)
          (fuel : nat) (name content zid : string) (ttl : Z)
          (st st1 : Cloudflare.state),
      Cloudflare._ensure_zone_id http fuel name st = (Ret (Some zid), st1) ->
      truthy_str zid = true ->
      let post :=
        Cloudflare.PostRecord zid
          (Cloudflare.RecordPayload "TXT" name (quoted content) ttl None None) in
      let answer := http post (Cloudflare.world st1) in
      create_dns_record (DNSProvider := Cloudflare.provider http fuel)
        (DNSRecord.mk None name RecordType.TXT content ttl false None None) st
      = (Ret (Cloudflare.success (fst answer)),
         Cloudflare.mk (Cloudflare.zone_id st1) (Cloudflare.zone_domain st1)
                       (snd answer) (Cloudflare.trace st1 ++ [post]))
      /\ forall r, DNSRecord.content r = quoted content ->
                   Base.txt_same_content r content = true)
  /\ (forall (World : Type)
             (http : Linode.request -> World -> Linode.response * World)
             (name content zid sub : string) (ttl : Z)
             (st st1 st2 : Linode.state),
         Linode._ensure_zone_id http name st = (Ret (Some zid), st1) ->
         Linode._get_subdomain http name zid st1 = (Ret sub, st2) ->
         let sent :=
           if startswith content (String quote EmptyString)
           then content else quoted content in
         let post :=
           Linode.PostRecord zid (Linode.RecordPayload "TXT" sub sent ttl None) in
         let answer := http post (Linode.world st2) in
         create_dns_record (DNSProvider := Linode.provider http)
           (DNSRecord.mk None name RecordType.TXT content ttl false None None) st
         = (Ret (Linode.success (fst answer)),
            Linode.mk (Linode.zone_id st2) (Linode.zone_domain st2)
                      (snd answer) (Linode.trace st2 ++ [post]))
         /\ forall r, DNSRecord.content r = sent ->
                      Base.txt_same_content r content = true).
Proof.
  split.
  - intros World http fuel name content zid ttl st st1 Hens Hz post answer.
    split.
    + change (Cloudflare.create_dns_record http fuel
                (DNSRecord.mk None name RecordType.TXT content ttl false None None) st
              = (Ret (Cloudflare.success (fst answer)),
                 Cloudflare.mk (Cloudflare.zone_id st1) (Cloudflare.zone_domain st1)
                   (snd answer) (Cloudflare.trace st1 ++ [post]))).
      unfold Cloudflare.create_dns_record. cbn [DNSRecord.name].
      rewrite (bind_Ret _ _ _ _ _ Hens), Hz.
      unfold bind. now rewrite CloudflareCache.cf_make_request_run.
    + intros r Hr. apply txt_same_content_spec. now right.
  - intros World http name content zid sub ttl st st1 st2 Hens Hsub sent post answer.
    split.
    + change (Linode.create_dns_record http
                (DNSRecord.mk None name RecordType.TXT content ttl false None None) st
              = (Ret (Linode.success (fst answer)),
                 Linode.mk (Linode.zone_id st2) (Linode.zone_domain st2)
                   (snd answer) (Linode.trace st2 ++ [post]))).
      unfold Linode.create_dns_record. cbn [DNSRecord.name].
      rewrite (bind_Ret _ _ _ _ _ Hens).
      rewrite (LinodeMore.ensure_zone_id_truthy http _ _ _ _ Hens).
      rewrite (bind_Ret _ _ _ _ _ Hsub).
      unfold bind. rewrite LinodeCache.ln_make_request_run.
      cbn [DNSRecord.type DNSRecord.content DNSRecord.ttl DNSRecord.priority].
      unfold post, sent, answer, post, sent.
      destruct (startswith content (String quote EmptyString)); reflexivity.
    + intros r Hr. apply txt_same_content_spec. unfold sent in Hr.
      destruct (startswith content (String quote EmptyString)); auto.
Qed.

Lemma txt_content_round_trip_witness :
  create_dns_record (DNSProvider := Cloudflare.provider example_cloudflare 2)
    (DNSRecord.mk None "_acme-challenge.example.com" RecordType.TXT "token"
       60 false None None)
    (Cloudflare.mk None None tt [])
  = (Ret true,
     Cloudflare.mk (Some "z1") (Some "example.com") tt
       [Cloudflare.GetZones 1;
        Cloudflare.PostRecord "z1"
          (Cloudflare.RecordPayload "TXT" "_acme-challenge.example.com"
             (quoted "token") 60 None None)])
  /\ create_dns_record (DNSProvider := Linode.provider LinodeSim.http)
       (DNSRecord.mk None "_acme-challenge.example.com" RecordType.TXT "token"
          60 false None None)
       (Linode.mk (Some "1") (Some "example.com") (LinodeSim.mk [] 1) [])
     = (Ret true,
        Linode.mk (Some "1") (Some "example.com")
          (LinodeSim.mk
             [Linode.mk_record_data (Some 1%Z) (Some "_acme-challenge")
                (Some "TXT") (Some (quoted "token")) (Some 60%Z) None None] 2)
          [Linode.GetDomain "1";
           Linode.PostRecord "1"
             (Linode.RecordPayload "TXT" "_acme-challenge" (quoted "token") 60 None)]).
Proof.
  split.
  - exact (proj1 (proj1 txt_content_round_trip
             unit example_cloudflare 2 "_acme-challenge.example.com" "token" "z1" 60%Z
             (Cloudflare.mk None None tt [])
             (Cloudflare.mk (Some "z1") (Some "example.com") tt [Cloudflare.GetZones 1])
             eq_refl eq_refl)).
  - exact (proj1 (proj2 txt_content_round_trip
             LinodeSim.world LinodeSim.http "_acme-challenge.example.com" "token"
             "1" "_acme-challenge" 60%Z
             (Linode.mk (Some "1") (Some "example.com") (LinodeSim.mk [] 1) [])
             (Linode.mk (Some "1") (Some "example.com") (LinodeSim.mk [] 1) [])
             (Linode.mk (Some "1") (Some "example.com") (LinodeSim.mk [] 1)
                [Linode.GetDomain "1"])
             eq_refl eq_refl)).
Defined.

(** ** namecheap.py: the registered domain and the host list *)

Lemma contains_dot_cons c s :
  contains (String c s) "." = Ascii.eqb c (Ascii.ascii_of_nat 46) || contains s ".".
Proof.
  cbn [contains]. f_equal.
  change "."%string with (String (Ascii.ascii_of_nat 46) EmptyString).
  cbn [String.prefix].
  destruct (Ascii.ascii_dec (Ascii.ascii_of_nat 46) c) as [<-|Hne].
  - rewrite Ascii.eqb_refl. now destruct s.
  - symmetry. apply Ascii.eqb_neq. congruence.
Qed.

Lemma split_char_nonempty sep s : exists w ws, split_char sep s = w :: ws.
Proof.
  destruct s as [|c s]; cbn [split_char]; [eauto|].
  destruct (Ascii.eqb c sep); [eauto|].
  destruct (split_char sep s); eauto.
Qed.

Lemma split_char_dot_free s :
  contains s "." = false -> split_char (Ascii.ascii_of_nat 46) s = [s].
Proof.
  induction s as [|c s IH]; [reflexivity|].
  rewrite contains_dot_cons. intros H. apply orb_false_iff in H as [Hc Hs].
  cbn [split_char]. rewrite Hc, (IH Hs). reflexivity.
Qed.

Lemma split_char_app sep p b :
  split_char sep (p +:+ String sep b) = split_char sep p ++ split_char sep b.
Proof.
  induction p as [|c p IH].
  - change (EmptyString +:+ String sep b) with (String sep b).
    cbn [split_char]. now rewrite Ascii.eqb_refl.
  - change (String c p +:+ String sep b) with (String c (p +:+ String sep b)).
    cbn [split_char]. rewrite IH.
    destruct (Ascii.eqb c sep); [reflexivity|].
    destruct (split_char_nonempty sep p) as (w & ws & ->). reflexivity.
Qed.

Lemma split_char_dotted s :
  contains s "." = true -> 2 <= length (split_char (Ascii.ascii_of_nat 46) s).
Proof.
  induction s as [|c s IH]; [discriminate|].
  rewrite contains_dot_cons. cbn [split_char].
  destruct (Ascii.eqb c (Ascii.ascii_of_nat 46)); cbn [orb].
  - intros _. destruct (split_char_nonempty (Ascii.ascii_of_nat 46) s)
      as (w & ws & ->). cbn. lia.
  - intros H. specialize (IH H).
    destruct (split_char (Ascii.ascii_of_nat 46) s); cbn in *; lia.
Qed.

Lemma last_two_app l a b : Namecheap.last_two (l ++ [a; b]) = Some (a, b).
Proof.
  induction l as [|x l IH]; [reflexivity|].
  destruct l as [|y l]; [reflexivity|].
  cbn [app] in *. destruct (l ++ [a; b]) as [|z t] eqn:E.
  - now destruct l.
  - exact IH.
Qed.

Lemma last_two_none l : Namecheap.last_two l = None -> length l < 2.
Proof.
  induction l as [|x l IH]; cbn; [lia|].
  destruct l as [|y l]; [cbn; lia|].
  destruct l as [|z l]; [discriminate|].
  intros H. specialize (IH H). cbn in IH. lia.
Qed.

(** X13.  Namecheap's [_get_domain_info] takes the last two dot-separated
    labels of a name for the registered domain: it answers nothing exactly
    for the names without a dot, and for a name that ends in [sld.tld],
    where neither label holds a dot, it answers [(sld, tld)] however many
    labels come before. *)
Theorem namecheap_get_domain_info_last_two_labels :
  (forall domain,
      Namecheap._get_domain_info domain = None <-> contains domain "." = false)
  /\ (forall sld tld,
         contains sld "." = false -> contains tld "." = false ->
         Namecheap._get_domain_info (sld +:+ "." +:+ tld) = Some (sld, tld)
         /\ forall pre,
              Namecheap._get_domain_info (pre +:+ "." +:+ sld +:+ "." +:+ tld)
              = Some (sld, tld)).
Proof.
  split.
  - intros domain. unfold Namecheap._get_domain_info. split.
    + intros H. apply last_two_none in H.
      destruct (contains domain ".") eqn:E; [|reflexivity].
      apply split_char_dotted in E. lia.
    + intros H. now rewrite (split_char_dot_free _ H).
  - intros sld tld Hs Ht.
    assert (H2 : split_char (Ascii.ascii_of_nat 46) (sld +:+ "." +:+ tld)
                 = [sld; tld]).
    { change ("." +:+ tld) with (String (Ascii.ascii_of_nat 46) tld).
      rewrite split_char_app, (split_char_dot_free _ Hs), (split_char_dot_free _ Ht).
      reflexivity. }
    unfold Namecheap._get_domain_info. split.
    + now rewrite H2.
    + intros pre.
      change ("." +:+ sld +:+ "." +:+ tld)
        with (String (Ascii.ascii_of_nat 46) (sld +:+ "." +:+ tld)).
      rewrite split_char_app, H2. apply last_two_app.
Qed.

Lemma namecheap_get_domain_info_last_two_labels_witness :
  Namecheap._get_domain_info ("example" +:+ "." +:+ "com") = Some ("example", "com")
  /\ Namecheap._get_domain_info ("www.example" +:+ "." +:+ "co" +:+ "." +:+ "uk")
     = Some ("co", "uk").
Proof.
  split.
  - exact (proj1 (proj2 namecheap_get_domain_info_last_two_labels
                    "example" "com" eq_refl eq_refl)).
  - exact (proj2 (proj2 namecheap_get_domain_info_last_two_labels
                    "co" "uk" eq_refl eq_refl) "www.example").
Defined.

Module NamecheapMore.
Import Namecheap.

Section More.
Context {World : Type} (http : request -> World -> response * World).
Variable py_int : string -> option Z.

Lemma int_call_state s (st : @state World) r st' :
  int_call py_int s st = (r, st') -> st' = st.
Proof. unfold int_call. destruct (py_int s); now intros [= _ <-]. Qed.

Lemma RecordType_call_state (x : option string) (st : @state World) r st' :
  RecordType_call x st = (r, st') -> st' = st.
Proof.
  unfold RecordType_call. destruct x as [s|]; [|now intros [= _ <-]].
  destruct (RecordType.of_value s); now intros [= _ <-].
Qed.

(** A step that leaves the state alone, followed by one that does. *)
Lemma bind_state {A B} (m : M (@state World) A) (k : A -> M state B) st r st' :
  (forall r0 s0, m st = (r0, s0) -> s0 = st) ->
  (forall a r0 s0, k a st = (r0, s0) -> s0 = st) ->
  bind m k st = (r, st') -> st' = st.
Proof.
  intros Hm Hk. unfold bind.
  pose proof (Hm (fst (m st)) (snd (m st))) as E.
  destruct (m st) as [[a|e|] s0]; cbn [fst snd] in E; specialize (E eq_refl);
    subst s0; [apply Hk| |]; now intros [= _ <-].
Qed.

Lemma build_record_state sld tld h (st : @state World) r st' :
  build_record py_int sld tld h st = (r, st') -> st' = st.
Proof.
  unfold build_record.
  apply bind_state.
  { intros r0 s0. destruct (h_Name h) as [n|]; [|now intros [= _ <-]].
    destruct (String.eqb n "@"); [now intros [= _ <-]|].
    destruct (negb _); now intros [= _ <-]. }
  intros record_name r0 s0. apply bind_state; [apply RecordType_call_state|].
  intros ty r1 s1. apply bind_state; [apply int_call_state|].
  intros ttl r2 s2. apply bind_state.
  { intros r3 s3. destruct (h_MXPref h) as [p|]; [|now intros [= _ <-]].
    destruct (truthy_str p); [|now intros [= _ <-]].
    apply bind_state; [apply int_call_state|]. now intros z r4 s4 [= _ <-]. }
  intros priority r3 s3.
  destruct (bool_decide _); [|now intros [= _ <-]].
  destruct (split_char_max _ _ _) as [|p0 [|p1 [|p2 [|p3 ps]]]];
    try (now intros [= _ <-]).
  apply bind_state; [apply int_call_state|]. now intros z r4 s4 [= _ <-].
Qed.

Lemma build_records_state sld tld ty l : forall (st : @state World) r st',
  build_records py_int sld tld ty l st = (r, st') -> st' = st.
Proof.
  induction l as [|h l IH]; intros st r st'; cbn [build_records].
  - now intros [= _ <-].
  - destruct (match ty with Some _ => _ | None => _ end); [apply IH|].
    apply bind_state; [apply build_record_state|].
    intros record r0 s0. apply bind_state; [apply IH|].
    now intros recs r1 s1 [= _ <-].
Qed.

(** A listing of a name with a registered domain is one [getHosts]
    request. *)
Lemma get_dns_records_state name ty sld tld st r st' :
  _get_domain_info name = Some (sld, tld) ->
  get_dns_records http py_int name ty st = (r, st') ->
  st' = mk (snd (http (GetHosts sld tld) (world st)))
           (trace st ++ [GetHosts sld tld]).
Proof.
  intros Hd. unfold get_dns_records. rewrite Hd.
  unfold bind at 1. rewrite NamecheapFacts.nc_make_request_run.
  destruct (negb _); [now intros [= _ <-]|].
  apply build_records_state.
Qed.

(** [_set_dns_records] on a list that holds a [DNSRecord] object first. *)
Lemma host_parameters_obj r rest (st : @state World) :
  host_parameters (Obj r :: rest) st
  = (Raise (AttributeError "'DNSRecord' object has no attribute 'get'"), st).
Proof. reflexivity. Qed.

End More.
End NamecheapMore.

(** X14.  Namecheap's [delete_dns_record] cannot delete one record among
    several.  It lists the hosts of the registered domain with one request
    and drops the records with the given id.  If any other record remains,
    [_set_dns_records] raises [AttributeError] on the first one and no
    [setHosts] request is made.  If none remains (also when the listing
    failed or was empty) one [setHosts] request with an empty host list is
    made, and its success flag is the result. *)
Theorem namecheap_delete_dns_record_wipes_or_raises
        (World : Type)
        (http : Namecheap.request -> World -> Namecheap.response * World)
        (py_int : string -> option Z)
        (record_id domain sld tld : string) (st st1 : Namecheap.state)
        (recs : list DNSRecord.t) :
  Namecheap._get_domain_info domain = Some (sld, tld) ->
  Namecheap.get_dns_records http py_int domain None st = (Ret recs, st1) ->
  let kept :=
    List.filter (fun r => negb (bool_decide (DNSRecord.id r = Some record_id)))
                recs in
  let run := Namecheap.delete_dns_record http py_int record_id domain st in
  Namecheap.trace st1 = Namecheap.trace st ++ [Namecheap.GetHosts sld tld]
  /\ (kept = [] ->
      let answer := http (Namecheap.SetHosts sld tld []) (Namecheap.world st1) in
      run = (Ret (Namecheap.success (fst answer)),
             Namecheap.mk (snd answer)
               (Namecheap.trace st1 ++ [Namecheap.SetHosts sld tld []])))
  /\ (kept <> [] ->
      run = (Raise (AttributeError "'DNSRecord' object has no attribute 'get'"),
             st1)).
Proof.
  intros Hd Hget kept run.
  assert (Hrun : run = Namecheap._set_dns_records http sld tld
                         (List.map Namecheap.Obj kept) st1).
  { unfold run, Namecheap.delete_dns_record. rewrite Hd.
    now rewrite (bind_Ret _ _ _ _ _ Hget). }
  split; [|split].
  - rewrite (NamecheapMore.get_dns_records_state http py_int _ _ _ _ _ _ _ Hd Hget).
    reflexivity.
  - intros Hk answer. rewrite Hrun, Hk. cbn [List.map].
    unfold Namecheap._set_dns_records. cbn [Namecheap.host_parameters].
    rewrite bind_ret_l. unfold bind.
    now rewrite NamecheapFacts.nc_make_request_run.
  - intros Hk. rewrite Hrun. destruct kept as [|r rest]; [congruence|].
    cbn [List.map]. unfold Namecheap._set_dns_records.
    now rewrite (bind_Raise _ _ _ _ _ (NamecheapMore.host_parameters_obj r _ st1)).
Qed.

Lemma namecheap_delete_dns_record_wipes_or_raises_witness :
  Namecheap.delete_dns_record example_namecheap_hosts decimal_int
    "1" "www.example.com" (Namecheap.mk tt [])
  = (Raise (AttributeError "'DNSRecord' object has no attribute 'get'"),
     Namecheap.mk tt [Namecheap.GetHosts "example" "com"]).
Proof.
  destruct (namecheap_delete_dns_record_wipes_or_raises unit
              example_namecheap_hosts decimal_int "1" "www.example.com"
              "example" "com" (Namecheap.mk tt [])
              (Namecheap.mk tt [Namecheap.GetHosts "example" "com"])
              _ eq_refl eq_refl) as (_ & _ & H).
  apply H. discriminate.
Defined.

(** X15.  Namecheap's [create_dns_record] cannot add a record beside
    others.  It lists the hosts of the registered domain and drops the
    records with the name and type of the new one.  If any other record
    remains, [AttributeError] is raised and no [setHosts] request is made.
    If none remains, one [setHosts] request is made whose host list is the
    new record alone: type, content and ttl as given, host name [@] for the
    registered domain itself; its success flag is the result. *)
Theorem namecheap_create_dns_record_replaces_or_raises
        (World : Type)
        (http : Namecheap.request -> World -> Namecheap.response * World)
        (py_int : string -> option Z)
        (record : DNSRecord.t) (sld tld : string) (st st1 : Namecheap.state)
        (recs : list DNSRecord.t) :
  Namecheap._get_domain_info (DNSRecord.name record) = Some (sld, tld) ->
  Namecheap.get_dns_records http py_int (DNSRecord.name record) None st
  = (Ret recs, st1) ->
  let kept :=
    List.filter
      (fun r => negb (String.eqb (DNSRecord.name r) (DNSRecord.name record)
                      && RecordType.eqb (DNSRecord.type r) (DNSRecord.type record)))
      recs in
  let run := Namecheap.create_dns_record http py_int record st in
  (kept = [] ->
   exists host,
     let post := Namecheap.SetHosts sld tld [host] in
     let answer := http post (Namecheap.world st1) in
     run = (Ret (Namecheap.success (fst answer)),
            Namecheap.mk (snd answer) (Namecheap.trace st1 ++ [post]))
     /\ Namecheap.p_RecordType host = RecordType.value (DNSRecord.type record)
     /\ Namecheap.p_Address host = DNSRecord.content record
     /\ Namecheap.p_TTL host = pretty (DNSRecord.ttl record)
     /\ (DNSRecord.name record = sld +:+ "." +:+ tld ->
         Namecheap.p_HostName host = "@"))
  /\ (kept <> [] ->
      run = (Raise (AttributeError "'DNSRecord' object has no attribute 'get'"),
             st1)).
Proof.
  intros Hd Hget kept run.
  unfold run, Namecheap.create_dns_record. rewrite Hd.
  rewrite (bind_Ret _ _ _ _ _ Hget). fold kept.
  split.
  - intros ->. cbn [List.map app]. unfold Namecheap._set_dns_records.
    cbn [Namecheap.host_parameters].
    eexists. cbn zeta. split.
    + unfold bind, ret. rewrite NamecheapFacts.nc_make_request_run. reflexivity.
    + cbn. repeat split. intros ->. now rewrite String.eqb_refl.
  - intros Hk. destruct kept as [|r rest]; [congruence|].
    cbn [List.map app]. unfold Namecheap._set_dns_records.
    now rewrite (bind_Raise _ _ _ _ _ (NamecheapMore.host_parameters_obj r _ st1)).
Qed.

Lemma namecheap_create_dns_record_replaces_or_raises_witness :
  Namecheap.create_dns_record example_namecheap_hosts decimal_int
    (sim_record None "new.example.com" RecordType.A "10.0.0.9")
    (Namecheap.mk tt [])
  = (Raise (AttributeError "'DNSRecord' object has no attribute 'get'"),
     Namecheap.mk tt [Namecheap.GetHosts "example" "com"]).
Proof.
  destruct (namecheap_create_dns_record_replaces_or_raises unit
              example_namecheap_hosts decimal_int
              (sim_record None "new.example.com" RecordType.A "10.0.0.9")
              "example" "com" (Namecheap.mk tt [])
              (Namecheap.mk tt [Namecheap.GetHosts "example" "com"])
              _ eq_refl eq_refl) as (_ & H).
  apply H. discriminate.
Defined.

(** ** factory.py and the constructors of the adapters *)

Lemma truthy_Some_inv (o : option string) :
  truthy o = true -> exists s, o = Some s /\ s <> "".
Proof.
  destruct o as [s|]; [|discriminate]. cbn. intros H.
  exists s. split; [reflexivity|]. now apply truthy_str_nonempty.
Qed.

(** What a constructed instance holds. *)
Lemma construct_credentials env c inst :
  Factory.construct env c = Ret inst ->
  match inst with
  | Factory.CloudflareInstance token =>
      c = Factory.CloudflareDNSProvider
      /\ env !! "CLOUDFLARE_API_TOKEN" = Some token /\ token <> ""
  | Factory.LinodeInstance token =>
      c = Factory.LinodeDNSProvider
      /\ env !! "LINODE_API_TOKEN" = Some token /\ token <> ""
  | Factory.NamecheapInstance username api_key client_ip sandbox =>
      c = Factory.NamecheapDNSProvider
      /\ env !! "NAMECHEAP_USERNAME" = Some username /\ username <> ""
      /\ env !! "NAMECHEAP_API_KEY" = Some api_key /\ api_key <> ""
      /\ client_ip = default "127.0.0.1" (env !! "NAMECHEAP_CLIENT_IP")
      /\ (sandbox = true
          <-> lower (default "false" (env !! "NAMECHEAP_SANDBOX")) = "true")
  end.
Proof.
  destruct c; cbn [Factory.construct].
  - destruct (truthy _) eqn:E; [|discriminate]. intros [= <-].
    apply truthy_Some_inv in E as (s & -> & Hs). auto.
  - destruct (truthy _) eqn:E; [|discriminate]. intros [= <-].
    apply truthy_Some_inv in E as (s & -> & Hs). auto.
  - destruct (truthy (env !! "NAMECHEAP_USERNAME")) eqn:E1; [|discriminate].
    destruct (truthy (env !! "NAMECHEAP_API_KEY")) eqn:E2; [|discriminate].
    cbn [andb]. intros [= <-].
    apply truthy_Some_inv in E1 as (u & -> & Hu).
    apply truthy_Some_inv in E2 as (k & -> & Hk).
    repeat split; auto; apply String.eqb_eq.
Qed.

Lemma create_selected_constructs env s inst :
  Factory.create_selected env s = Ret inst ->
  exists c, Factory.lookup (lower s) = Some c /\ Factory.construct env c = Ret inst.
Proof.
  unfold Factory.create_selected.
  destruct (Factory.lookup (lower s)) as [c|]; [eauto|discriminate].
Qed.

Lemma create_provider_constructs env sel inst :
  Factory.create_provider env sel = Ret inst ->
  exists c, Factory.construct env c = Ret inst.
Proof.
  unfold Factory.create_provider. destruct (truthy sel).
  - intros H. apply create_selected_constructs in H as (c & _ & H). eauto.
  - destruct (Factory._detect_provider_type env) as [d| |]; try discriminate.
    intros H. apply create_selected_constructs in H as (c & _ & H). eauto.
Qed.

(** X16.  The factory never hands out an adapter without credentials.
    Whatever the selector and the environment, an instance returned by
    [create_provider] holds credentials read from the environment and none
    of them is empty: the API token for Cloudflare and Linode, the user name
    and the API key for Namecheap, whose client address defaults to
    127.0.0.1 and whose sandbox flag is set exactly when [NAMECHEAP_SANDBOX]
    spells true in any letter case. *)
Theorem create_provider_needs_credentials
        (env : Factory.environ) (sel : option string) (inst : Factory.instance) :
  Factory.create_provider env sel = Ret inst ->
  match inst with
  | Factory.CloudflareInstance token =>
      env !! "CLOUDFLARE_API_TOKEN" = Some token /\ token <> ""
  | Factory.LinodeInstance token =>
      env !! "LINODE_API_TOKEN" = Some token /\ token <> ""
  | Factory.NamecheapInstance username api_key client_ip sandbox =>
      env !! "NAMECHEAP_USERNAME" = Some username /\ username <> ""
      /\ env !! "NAMECHEAP_API_KEY" = Some api_key /\ api_key <> ""
      /\ client_ip = default "127.0.0.1" (env !! "NAMECHEAP_CLIENT_IP")
      /\ (sandbox = true
          <-> lower (default "false" (env !! "NAMECHEAP_SANDBOX")) = "true")
  end.
Proof.
  intros H. apply create_provider_constructs in H as (c & H).
  apply construct_credentials in H. destruct inst; tauto.
Qed.

Lemma create_provider_needs_credentials_witness :
  example_environ !! "NAMECHEAP_USERNAME" = Some "user-n"
  /\ example_environ !! "NAMECHEAP_API_KEY" = Some "key-n".
Proof.
  pose proof (create_provider_needs_credentials example_environ
                (Some "NameCheap")
                (Factory.NamecheapInstance "user-n" "key-n" "127.0.0.1" false)
                eq_refl) as (H1 & _ & H2 & _).
  split; [exact H1|exact H2].
Defined.

(** X17.  Detection looks at the presence of a variable, the constructors
    at its value.  Without a selector and without [DNS_PROVIDER], when the
    first adapter in table order whose detection variable is present has it
    set to the empty string, [create_provider] raises the [ValueError] of
    that adapter's constructor; adapters later in the table are not tried,
    however well they are configured. *)
Theorem create_provider_detects_empty_variable
        (env : Factory.environ) (sel : option string)
        (before after : list (string * Factory.provider_class))
        (name : string) (c : Factory.provider_class) :
  truthy sel = false ->
  truthy (env !! "DNS_PROVIDER") = false ->
  Factory.PROVIDERS = before ++ (name, c) :: after ->
  Forall (fun kv => env !! Factory.DETECT_ENV (snd kv) = None) before ->
  env !! Factory.DETECT_ENV c = Some "" ->
  Factory.create_provider env sel
  = Raise (ValueError
             match c with
             | Factory.CloudflareDNSProvider =>
                 "CLOUDFLARE_API_TOKEN environment variable is required"
             | Factory.LinodeDNSProvider =>
                 "LINODE_API_TOKEN environment variable is required"
             | Factory.NamecheapDNSProvider =>
                 "NAMECHEAP_USERNAME and NAMECHEAP_API_KEY are required"
             end).
Proof.
  intros Hsel Hdns Htable Hbefore Hc.
  rewrite FactoryFacts.create_provider_absent by assumption.
  unfold Factory._detect_provider_type. rewrite Hdns, Htable.
  rewrite (FactoryFacts.first_suitable_spec env before name c after Hbefore)
    by (rewrite Hc; eauto).
  unfold Factory.create_selected.
  assert (Hin : In (name, c) Factory.PROVIDERS).
  { rewrite Htable. apply in_or_app. right. now left. }
  assert (Hl : Factory.lookup (lower name) = Some c).
  { apply FactoryFacts.lookup_spec. simpl in Hin.
    destruct Hin as [[= <- <-]|[[= <- <-]|[[= <- <-]|[]]]]; auto. }
  rewrite Hl. destruct c; cbn [Factory.construct Factory.DETECT_ENV] in *;
    rewrite Hc; cbn [truthy truthy_str String.eqb negb andb]; [reflexivity..|].
  now rewrite andb_false_r.
Qed.

Lemma create_provider_detects_empty_variable_witness :
  Factory.construct empty_token_environ Factory.LinodeDNSProvider
  = Ret (Factory.LinodeInstance "token-l")
  /\ Factory.create_provider empty_token_environ None
     = Raise (ValueError "CLOUDFLARE_API_TOKEN environment variable is required").
Proof.
  split; [reflexivity|].
  apply (create_provider_detects_empty_variable empty_token_environ None []
           [("linode", Factory.LinodeDNSProvider);
            ("namecheap", Factory.NamecheapDNSProvider)]
           "cloudflare" Factory.CloudflareDNSProvider);
    try reflexivity.
  constructor.
Defined.

(** ** dnsman.py *)

Lemma report_cases {S : Type} (call : M S bool) (s : S) :
  (forall e, fst (Dnsman.report call s) <> Raise e)
  /\ (forall z, fst (Dnsman.report call s) = Ret z -> z = 0%Z \/ z = 1%Z)
  /\ (fst (Dnsman.report call s) = Ret 0%Z <-> fst (call s) = Ret true).
Proof.
  unfold Dnsman.report. destruct (call s) as [[[|]|e|] s']; cbn [fst].
  - split; [discriminate|]. split; [intros z [= <-]; auto|]. tauto.
  - split; [discriminate|]. split; [intros z [= <-]; auto|].
    split; discriminate.
  - split; [discriminate|]. split; [intros z [= <-]; auto|].
    split; discriminate.
  - split; [discriminate|]. split; [discriminate|].
    split; discriminate.
Qed.



(** X19.  On a Linode provider the actions [set_cname] and [set_alias] of
    [dnsman] never create a CNAME record.  [main] ends with a status, and
    among the calls it has made on the adapter every creation is that of an
    A record; no CAA record is created. *)
Theorem dnsman_alias_on_linode_creates_only_a_records
        (World : Type)
        (http : Linode.request -> World -> Linode.response * World)
        (gethostbyname : string -> option string)
        (adapter : Factory.instance
                   -> Dnsman.provider_object (Linode.state * list Call))
        (env : Factory.environ) (a : Dnsman.args) (token : string)
        (st : Linode.state) (log : list Call) :
  adapter (Factory.LinodeInstance token)
  = Dnsman.linode_object (spy (Linode.provider http)) gethostbyname ->
  Factory.create_provider env (Dnsman.a_provider a)
  = Ret (Factory.LinodeInstance token) ->
  Dnsman.a_action a = Dnsman.set_cname \/ Dnsman.a_action a = Dnsman.set_alias ->
  exists z st' new,
    Dnsman.main adapter env a (st, log) = (Ret z, (st', log ++ new))
    /\ Forall creates_a_only new.
Proof.
  intros Had Hinst Hact.
  set (P := Linode.provider http).
  assert (Hrun : Dnsman.main adapter env a (st, log)
                 = if negb (truthy (Dnsman.a_content a)) then (Ret 1%Z, (st, log))
                   else Dnsman.report
                          (Linode.set_alias_record (P := spy P) gethostbyname
                             (Dnsman.a_domain a) (default "" (Dnsman.a_content a))
                             60 false) (st, log)).
  { unfold Dnsman.main. rewrite Hinst, Had.
    destruct Hact as [-> | ->]; destruct (negb _); reflexivity. }
  rewrite Hrun. clear Hrun.
  assert (Hnil : forall z, exists (z' : Z) (st' : Linode.state) new,
             (Ret z, (st, log)) = (Ret z', (st', log ++ new))
             /\ Forall creates_a_only new).
  { intros z. exists z, st, []. rewrite app_nil_r. split; [reflexivity|constructor]. }
  destruct (negb _); [apply Hnil|].
  set (content := default "" (Dnsman.a_content a)).
  set (name := Dnsman.a_domain a).
  unfold Dnsman.report.
  destruct (gethostbyname content) as [ip|] eqn:Hip.
  2:{ unfold Linode.set_alias_record. rewrite Hip. apply Hnil. }
  destruct (truthy_str ip) eqn:Ht.
  2:{ unfold Linode.set_alias_record. rewrite Hip.
      unfold bind at 1, ret at 1. rewrite Ht. apply Hnil. }
  destruct (LinodeRecords.get_dns_records_typed http name RecordType.CNAME st)
    as (cnames & st1 & Hget & _).
  rewrite (set_alias_record_spy P (LinodeCache.deletes_return_linode http)
             gethostbyname name content 60 false ip cnames st st1 log Hip Ht Hget).
  set (ids := doomed (fun _ => true) cnames).
  set (st2 := snd (delete_each (P := P) name ids st1)).
  destruct (LinodeRecords.get_dns_records_typed http name RecordType.A st2)
    as (arecs & st3 & HgetA & _).
  destruct (set_a_record_creates_only P (LinodeCache.deletes_return_linode http)
              (creates_return_linode http) name ip 60 false arecs st2 st3
              (log ++ [CallGet name (Some RecordType.CNAME)] ++ delete_calls name ids)
              HgetA) as (b & st4 & new & Hrun & Hnew & _).
  rewrite Hrun.
  assert (Hall : Forall creates_a_only
                   (([CallGet name (Some RecordType.CNAME)]
                       ++ delete_calls name ids) ++ new)).
  { apply Forall_app. split.
    - constructor; [exact I|]. unfold delete_calls.
      generalize ids. intros l. induction l; constructor; [exact I|assumption].
    - eapply Forall_impl; [exact Hnew|]. intros [ | r | |] Hc; cbn in *; auto.
      now subst r. }
  rewrite <- app_assoc.
  destruct b; eexists _, st4, _; (split; [reflexivity|exact Hall]).
Qed.

Lemma dnsman_alias_on_linode_creates_only_a_records_witness :
  exists z st' new,
    Dnsman.main
      (fun _ => Dnsman.linode_object (spy (Linode.provider LinodeSim.http))
                  LinodeSim.gethostbyname)
      example_environ
      (Dnsman.mk_args Dnsman.set_cname "app.example.com" None
         (Some "target.example.org") None None)
      (Linode.mk None None LinodeSim.with_cname [], [])
    = (Ret z, (st', [] ++ new))
    /\ Forall creates_a_only new.
Proof.
  apply (dnsman_alias_on_linode_creates_only_a_records LinodeSim.world
           LinodeSim.http LinodeSim.gethostbyname _ example_environ _ "token-l");
    [reflexivity|reflexivity|now left].
Defined.

(** ** What the listings of Cloudflare and Namecheap return *)

Lemma bind_Ret_inv {S A B} (m : M S A) (k : A -> M S B) s b s' :
  bind m k s = (Ret b, s') ->
  exists a s1, m s = (Ret a, s1) /\ k a s1 = (Ret b, s').
Proof.
  unfold bind. destruct (m s) as [[a|e|] s1]; try discriminate. eauto.
Qed.

Module CloudflareListing.
Import Cloudflare.

Section Listing.
Context {World : Type}.

(** All record objects carry the value of a [RecordType] member. *)
Lemma cf_build_records_typed l (st : @state World) :
  Forall (fun rd => exists ty, rd_type rd = Some (RecordType.value ty)) l ->
  exists recs,
    build_records l st = (Ret recs, st)
    /\ List.map DNSRecord.id recs = List.map rd_id l
    /\ List.map DNSRecord.name recs = List.map rd_name l
    /\ List.map DNSRecord.content recs = List.map rd_content l
    /\ List.map DNSRecord.data recs = List.map rd_data l
    /\ List.map (fun r => Some (RecordType.value (DNSRecord.type r))) recs
       = List.map rd_type l
    /\ List.map DNSRecord.ttl recs = List.map (fun rd => default 60%Z (rd_ttl rd)) l
    /\ List.map DNSRecord.proxied recs
       = List.map (fun rd => default false (rd_proxied rd)) l.
Proof.
  induction 1 as [|rd l (ty & Hty) _ (recs & IH & H1 & H2 & H3 & H4 & H5 & H6 & H7)];
    cbn [build_records].
  - exists []. repeat split.
  - rewrite Hty. unfold RecordType_call. rewrite RecordType_of_value_value.
    rewrite bind_ret_l. unfold bind. rewrite IH.
    eexists. split; [reflexivity|]. cbn [List.map DNSRecord.id DNSRecord.name
      DNSRecord.content DNSRecord.data DNSRecord.type DNSRecord.ttl
      DNSRecord.proxied].
    now rewrite H1, H2, H3, H4, H5, H6, H7, Hty.
Qed.

(** The first record object with another type ends the loop with a
    [ValueError]. *)
Lemma cf_build_records_untyped before rd after (st : @state World) :
  Forall (fun rd => exists ty, rd_type rd = Some (RecordType.value ty)) before ->
  (forall ty, rd_type rd <> Some (RecordType.value ty)) ->
  exists msg,
    build_records (before ++ rd :: after) st = (Raise (ValueError msg), st).
Proof.
  intros Hb Hrd. induction Hb as [|x l (ty & Hty) _ (msg & IH)];
    cbn [app build_records].
  - unfold RecordType_call. destruct (rd_type rd) as [s|] eqn:E.
    + destruct (RecordType.of_value s) as [ty|] eqn:Ev.
      * exfalso. apply (Hrd ty). f_equal.
        unfold RecordType.of_value in Ev. apply List.find_some in Ev as [_ Ev].
        apply String.eqb_eq in Ev. now symmetry.
      * eexists. reflexivity.
    + eexists. reflexivity.
  - rewrite Hty. unfold RecordType_call. rewrite RecordType_of_value_value.
    rewrite bind_ret_l. unfold bind. rewrite IH. eauto.
Qed.

End Listing.
End CloudflareListing.

(** X20.  Cloudflare's [get_dns_records], once the zone is known, makes one
    request that carries the name and the type filter.  A failed request
    gives the empty list.  A successful one gives one record per listed
    object, in order, with the object's id, name, content, type and data, a
    ttl of 60 and [proxied = False] where the object has none; but a listed
    object whose type is not the value of a [RecordType] member makes the
    call raise [ValueError] instead of returning. *)
Theorem cloudflare_get_dns_records_converts
        (World : Type)
        (http : Cloudflare.request -> World -> Cloudflare.response * World)
        (fuel : nat) (name zid : string) (ty : option RecordType.t)
        (st st1 : Cloudflare.state) :
  Cloudflare._ensure_zone_id http fuel name st = (Ret (Some zid), st1) ->
  truthy_str zid = true ->
  let answer := http (Cloudflare.GetRecords zid name ty) (Cloudflare.world st1) in
  let listed := Cloudflare.records (fst answer) in
  let st2 :=
    Cloudflare.mk (Cloudflare.zone_id st1) (Cloudflare.zone_domain st1)
                  (snd answer)
                  (Cloudflare.trace st1 ++ [Cloudflare.GetRecords zid name ty]) in
  let typed rd := exists t, Cloudflare.rd_type rd = Some (RecordType.value t) in
  let run := Cloudflare.get_dns_records http fuel name ty st in
  (Cloudflare.success (fst answer) = false -> run = (Ret [], st2))
  /\ (Cloudflare.success (fst answer) = true ->
      Forall typed listed ->
      exists recs,
        run = (Ret recs, st2)
        /\ List.map DNSRecord.id recs = List.map Cloudflare.rd_id listed
        /\ List.map DNSRecord.name recs = List.map Cloudflare.rd_name listed
        /\ List.map DNSRecord.content recs = List.map Cloudflare.rd_content listed
        /\ List.map DNSRecord.data recs = List.map Cloudflare.rd_data listed
        /\ List.map (fun r => Some (RecordType.value (DNSRecord.type r))) recs
           = List.map Cloudflare.rd_type listed
        /\ List.map DNSRecord.ttl recs
           = List.map (fun rd => default 60%Z (Cloudflare.rd_ttl rd)) listed
        /\ List.map DNSRecord.proxied recs
           = List.map (fun rd => default false (Cloudflare.rd_proxied rd)) listed)
  /\ (Cloudflare.success (fst answer) = true ->
      forall before rd after,
        listed = before ++ rd :: after ->
        Forall typed before ->
        ~ typed rd ->
        exists msg, run = (Raise (ValueError msg), st2)).
Proof.
  intros Hens Hz answer listed st2 typed run.
  assert (Hrun : run = (if negb (Cloudflare.success (fst answer)) then ret []
                        else Cloudflare.build_records listed) st2).
  { unfold run, Cloudflare.get_dns_records.
    rewrite (bind_Ret _ _ _ _ _ Hens), Hz.
    unfold bind. now rewrite CloudflareCache.cf_make_request_run. }
  rewrite Hrun. split; [|split]; intros Hs; rewrite Hs; cbn [negb].
  - reflexivity.
  - intros Hall. apply CloudflareListing.cf_build_records_typed. exact Hall.
  - intros before rd after -> Hb Hrd.
    apply CloudflareListing.cf_build_records_untyped; [exact Hb|].
    intros t Ht. apply Hrd. now exists t.
Qed.

Lemma cloudflare_get_dns_records_converts_witness :
  let w := CloudflareSim.mk
             [Cloudflare.mk_record_data (Some "r0") "app.example.com" (Some "A")
                "10.0.0.1" None None None None] 1 in
  Cloudflare.get_dns_records CloudflareSim.http 2 "app.example.com"
    (Some RecordType.A) (Cloudflare.mk (Some "z1") (Some "example.com") w [])
  = (Ret [DNSRecord.mk (Some "r0") "app.example.com" RecordType.A "10.0.0.1"
            60 false None None],
     Cloudflare.mk (Some "z1") (Some "example.com") w
       [Cloudflare.GetRecords "z1" "app.example.com" (Some RecordType.A)]).
Proof.
  pose (w := CloudflareSim.mk
               [Cloudflare.mk_record_data (Some "r0") "app.example.com" (Some "A")
                  "10.0.0.1" None None None None] 1).
  pose (st := Cloudflare.mk (Some "z1") (Some "example.com") w []).
  destruct (cloudflare_get_dns_records_converts CloudflareSim.world
              CloudflareSim.http 2 "app.example.com" "z1" (Some RecordType.A)
              st st eq_refl eq_refl) as (_ & H & _).
  destruct (H eq_refl) as (recs & Hrun & _).
  { repeat constructor. now exists RecordType.A. }
  cbn zeta. fold w. fold st. rewrite Hrun. f_equal.
  vm_compute in Hrun. now injection Hrun as <-.
Defined.

Module NamecheapListing.
Import Namecheap.

Section Listing.
Context {World : Type} (http : request -> World -> response * World).
Variable py_int : string -> option Z.

(** The name, id and content of a record built from a host element. *)
Lemma build_record_fields sld tld h (st : @state World) r st' :
  build_record py_int sld tld h st = (Ret r, st') ->
  let suffix := "." +:+ sld +:+ "." +:+ tld in
  (match h_Name h with
   | Some n =>
       DNSRecord.name r
       = if String.eqb n "@" then sld +:+ "." +:+ tld
         else if endswith n suffix then n else n +:+ suffix
   | None => False
   end)
  /\ DNSRecord.id r = h_HostId h
  /\ DNSRecord.content r = default "" (h_Address h)
  /\ DNSRecord.proxied r = false
  /\ h_Type h = Some (RecordType.value (DNSRecord.type r)).
Proof.
  intros H suffix. unfold build_record in H. fold suffix in H.
  apply bind_Ret_inv in H as (record_name & s1 & Hn & H).
  apply bind_Ret_inv in H as (ty & s2 & Hty & H).
  apply bind_Ret_inv in H as (ttl & s3 & Httl & H).
  apply bind_Ret_inv in H as (priority & s4 & Hp & H).
  assert (Hname : match h_Name h with
                  | Some n =>
                      record_name
                      = if String.eqb n "@" then sld +:+ "." +:+ tld
                        else if endswith n suffix then n else n +:+ suffix
                  | None => False
                  end).
  { destruct (h_Name h) as [n|]; [|discriminate].
    destruct (String.eqb n "@"); [now injection Hn as <-|].
    fold suffix in Hn. destruct (endswith n suffix); now injection Hn as <-. }
  assert (Htype : h_Type h = Some (RecordType.value ty)).
  { unfold RecordType_call in Hty. destruct (h_Type h) as [s|]; [|discriminate].
    destruct (RecordType.of_value s) as [t|] eqn:Ev; [|discriminate].
    injection Hty as <- _. f_equal.
    unfold RecordType.of_value in Ev. apply List.find_some in Ev as [_ Ev].
    apply String.eqb_eq in Ev. now symmetry. }
  destruct (bool_decide _).
  - destruct (split_char_max _ _ _) as [|p0 [|p1 [|p2 [|p3 ps]]]];
      try (injection H as <- _; now cbn).
    apply bind_Ret_inv in H as (flags & s5 & _ & H).
    injection H as <- _. now cbn.
  - injection H as <- _. now cbn.
Qed.

Lemma build_records_fields sld tld ty l : forall (st : @state World) recs st',
  build_records py_int sld tld ty l st = (Ret recs, st') ->
  Forall (fun r =>
            (DNSRecord.name r = sld +:+ "." +:+ tld
             \/ endswith (DNSRecord.name r) ("." +:+ sld +:+ "." +:+ tld) = true)
            /\ DNSRecord.proxied r = false
            /\ (exists h, In h l /\ DNSRecord.id r = h_HostId h
                          /\ DNSRecord.content r = default "" (h_Address h))
            /\ match ty with
               | Some t => DNSRecord.type r = t
               | None => True
               end) recs.
Proof.
  induction l as [|h l IH]; intros st recs st'; cbn [build_records].
  - intros [= <- _]. constructor.
  - assert (Hweak : forall recs',
               Forall (fun r =>
                  (DNSRecord.name r = sld +:+ "." +:+ tld
                   \/ endswith (DNSRecord.name r) ("." +:+ sld +:+ "." +:+ tld) = true)
                  /\ DNSRecord.proxied r = false
                  /\ (exists h', In h' l /\ DNSRecord.id r = h_HostId h'
                                 /\ DNSRecord.content r = default "" (h_Address h'))
                  /\ match ty with
                     | Some t => DNSRecord.type r = t
                     | None => True
                     end) recs' ->
               Forall (fun r =>
                  (DNSRecord.name r = sld +:+ "." +:+ tld
                   \/ endswith (DNSRecord.name r) ("." +:+ sld +:+ "." +:+ tld) = true)
                  /\ DNSRecord.proxied r = false
                  /\ (exists h', In h' (h :: l) /\ DNSRecord.id r = h_HostId h'
                                 /\ DNSRecord.content r = default "" (h_Address h'))
                  /\ match ty with
                     | Some t => DNSRecord.type r = t
                     | None => True
                     end) recs').
    { intros recs' F. eapply Forall_impl; [exact F|].
      intros r (H1 & H2 & (h' & Hin & H3) & H4).
      repeat split; auto. exists h'. split; [now right|exact H3]. }
    destruct (match ty with Some _ => _ | None => _ end) eqn:Eskip.
    + intros H. apply Hweak. eapply IH, H.
    + intros H. apply bind_Ret_inv in H as (r & s1 & Hr & H).
      apply bind_Ret_inv in H as (rest & s2 & Hrest & H).
      injection H as <- _.
      constructor; [|apply Hweak; eapply IH, Hrest].
      pose proof (build_record_fields _ _ _ _ _ _ Hr) as (Hn & Hid & Hc & Hp & Hty).
      cbn zeta in Hn. split; [|split; [exact Hp|split]].
      * destruct (h_Name h) as [n|]; [|contradiction].
        destruct (String.eqb n "@"); [now left|]. right.
        destruct (endswith n _) eqn:He; rewrite Hn; [exact He|].
        apply endswith_spec. now exists n.
      * exists h. split; [now left|]. split; assumption.
      * destruct ty as [t|]; [|exact I].
        apply negb_false_iff, bool_decide_eq_true in Eskip.
        rewrite Hty in Eskip. injection Eskip as Eskip.
        destruct (DNSRecord.type r), t; try reflexivity; discriminate Eskip.
Qed.

End Listing.
End NamecheapListing.

(** X21.  Namecheap's [get_dns_records] does not look at the host part of
    the name it is asked about.  Two names with the same registered domain
    get the same answer; and every record returned is named after a host
    entry of the registered domain, in full: its name is [sld.tld] or ends
    in [.sld.tld], whatever name was queried.  Each comes from a listed
    host, with its id and address, has [proxied = False], and has the type
    of the filter when there is one. *)
Theorem namecheap_get_dns_records_ignores_host_name
        (World : Type)
        (http : Namecheap.request -> World -> Namecheap.response * World)
        (py_int : string -> option Z) (ty : option RecordType.t)
        (st : Namecheap.state) :
  (forall name1 name2,
      Namecheap._get_domain_info name1 = Namecheap._get_domain_info name2 ->
      Namecheap.get_dns_records http py_int name1 ty st
      = Namecheap.get_dns_records http py_int name2 ty st)
  /\ (forall name sld tld recs st1,
         Namecheap._get_domain_info name = Some (sld, tld) ->
         Namecheap.get_dns_records http py_int name ty st = (Ret recs, st1) ->
         let listed :=
           Namecheap.hosts
             (fst (http (Namecheap.GetHosts sld tld) (Namecheap.world st))) in
         Forall (fun r =>
                   (DNSRecord.name r = sld +:+ "." +:+ tld
                    \/ endswith (DNSRecord.name r) ("." +:+ sld +:+ "." +:+ tld)
                       = true)
                   /\ DNSRecord.proxied r = false
                   /\ (exists h, In h listed
                                 /\ DNSRecord.id r = Namecheap.h_HostId h
                                 /\ DNSRecord.content r
                                    = default "" (Namecheap.h_Address h))
                   /\ match ty with
                      | Some t => DNSRecord.type r = t
                      | None => True
                      end) recs).
Proof.
  split.
  - intros name1 name2 H. unfold Namecheap.get_dns_records. now rewrite H.
  - intros name sld tld recs st1 Hd Hget listed.
    unfold Namecheap.get_dns_records in Hget. rewrite Hd in Hget.
    unfold bind at 1 in Hget.
    rewrite NamecheapFacts.nc_make_request_run in Hget.
    fold listed in Hget.
    destruct (negb _); [injection Hget as <- _; constructor|].
    eapply NamecheapListing.build_records_fields, Hget.
Qed.

Lemma namecheap_get_dns_records_ignores_host_name_witness :
  Namecheap.get_dns_records example_namecheap_hosts decimal_int
    "fresh.example.com" (Some RecordType.A) (Namecheap.mk tt [])
  = (Ret [DNSRecord.mk (Some "1") "www.example.com" RecordType.A "10.0.0.1"
            300 false None None;
          DNSRecord.mk (Some "2") "api.example.com" RecordType.A "10.0.0.2"
            300 false None None],
     Namecheap.mk tt [Namecheap.GetHosts "example" "com"])
  /\ Namecheap.get_dns_records example_namecheap_hosts decimal_int
       "fresh.example.com" (Some RecordType.A) (Namecheap.mk tt [])
     = Namecheap.get_dns_records example_namecheap_hosts decimal_int
         "www.example.com" (Some RecordType.A) (Namecheap.mk tt []).
Proof.
  split; [vm_compute; reflexivity|].
  exact (proj1 (namecheap_get_dns_records_ignores_host_name unit
                  example_namecheap_hosts decimal_int (Some RecordType.A)
                  (Namecheap.mk tt []))
           "fresh.example.com" "www.example.com" eq_refl).
Defined.

(** ** certman.py *)

Lemma first_suitable_named env table name :
  Factory.first_suitable env table = Some name -> In name (List.map fst table).
Proof.
  induction table as [|[k c] table IH]; cbn [Factory.first_suitable List.map fst];
    [discriminate|].
  destruct (Factory.suitable env c); [intros [= <-]; now left|].
  intros H. right. now apply IH.
Qed.

(** A detected provider type is never the empty string. *)
Lemma detect_provider_type_truthy env d :
  Factory._detect_provider_type env = Ret d -> truthy_str d = true.
Proof.
  unfold Factory._detect_provider_type.
  destruct (env !! "DNS_PROVIDER") as [v|] eqn:E; cbn [truthy default].
  - destruct (truthy_str v) eqn:Ev; [now intros [= <-]|].
    destruct (Factory.first_suitable env Factory.PROVIDERS) as [n|] eqn:Ef;
      [|discriminate].
    intros [= <-]. apply first_suitable_named in Ef.
    cbn in Ef. destruct Ef as [<-|[<-|[<-|[]]]]; reflexivity.
  - destruct (Factory.first_suitable env Factory.PROVIDERS) as [n|] eqn:Ef;
      [|discriminate].
    intros [= <-]. apply first_suitable_named in Ef.
    cbn in Ef. destruct Ef as [<-|[<-|[<-|[]]]]; reflexivity.
Qed.

(** X22.  [certman] chooses its provider as [dnsman] does.  The constructor
    of [CertManager] first settles the provider type itself (the one given,
    or the one detected) and then calls the factory with it; the outcome is
    the outcome of calling the factory with the original selector: the same
    adapter, or the same exception.  The provider type it records is never
    empty. *)
Theorem cert_manager_selects_like_factory
        (env : Factory.environ) (sel : option string) :
  match Certman.CertManager env sel with
  | Ret self =>
      Factory.create_provider env sel = Ret (Certman.provider self)
      /\ Certman.provider_type self <> ""
      /\ Factory.create_provider env (Some (Certman.provider_type self))
         = Ret (Certman.provider self)
  | Raise e => Factory.create_provider env sel = Raise e
  | OutOfFuel => Factory.create_provider env sel = OutOfFuel
  end.
Proof.
  unfold Certman.CertManager.
  destruct (truthy sel) eqn:Hsel.
  - destruct sel as [s|]; [|discriminate].
    cbn [default from_option id truthy] in *.
    destruct (Factory.create_provider env (Some s)) as [inst| |] eqn:E;
      cbn [Certman.provider Certman.provider_type]; auto.
    repeat split; auto. now apply truthy_str_nonempty.
  - assert (Hf : Factory.create_provider env sel
                 = match Factory._detect_provider_type env with
                   | Ret detected => Factory.create_selected env detected
                   | Raise e => Raise e
                   | OutOfFuel => OutOfFuel
                   end)
      by now apply FactoryFacts.create_provider_absent.
    rewrite Hf.
    destruct (Factory._detect_provider_type env) as [d| |] eqn:Ed; auto.
    pose proof (detect_provider_type_truthy env d Ed) as Ht.
    assert (Hd : Factory.create_provider env (Some d) = Factory.create_selected env d).
    { apply FactoryFacts.create_provider_explicit. now apply truthy_str_nonempty. }
    rewrite Hd.
    destruct (Factory.create_selected env d) as [inst| |];
      cbn [Certman.provider Certman.provider_type]; auto.
    repeat split; auto. now apply truthy_str_nonempty.
Qed.

Module CertmanFacts.
Import Certman.

Section Facts.
Context {S : Type}.
Variable install_plugin : manager -> S -> bool * S.
Variable namecheap_validate_credentials : S -> bool * S.
Variable setup_certbot_credentials : Factory.instance -> S -> bool * S.
Variable _get_certbot_command : S -> result (list string).
Variable expanduser : string -> string.
Variable exists_ : string -> S -> bool.
Variable isfile : string -> S -> bool.
Variable subprocess_run : list string -> S -> option completed * S.

Lemma plugin_truthy c : truthy_str (CERTBOT_PLUGIN c) = true.
Proof. now destruct c. Qed.

Lemma credentials_file_truthy c : truthy_str (CERTBOT_CREDENTIALS_FILE c) = true.
Proof. now destruct c. Qed.

(** The command, when one is built. *)
Lemma build_certbot_command_returned self action domain email s cmd :
  _build_certbot_command _get_certbot_command expanduser exists_
    self action domain email s = Returned cmd ->
  let class := class_of (provider self) in
  let credentials_file := expanduser (CERTBOT_CREDENTIALS_FILE class) in
  exists certbot_cmd,
    _get_certbot_command s = Returned certbot_cmd
    /\ exists_ credentials_file s = true
    /\ cmd
       = certbot_cmd
           ++ [action; "-a"; CERTBOT_PLUGIN class; "--non-interactive"; "-v";
               "--" +:+ CERTBOT_PLUGIN class +:+ "-credentials=" +:+ credentials_file]
           ++ (if String.eqb action "certonly"
               then ["--agree-tos"; "--no-eff-email"; "--email"; email; "-d"; domain]
               else [])
           ++ ["--dns-cloudflare-propagation-seconds=120"].
Proof.
  intros H class credentials_file. unfold _build_certbot_command in H.
  fold class in H. rewrite plugin_truthy, credentials_file_truthy in H.
  cbn [negb] in H. fold credentials_file in H.
  destruct (_get_certbot_command s) as [certbot_cmd|e]; [|discriminate].
  exists certbot_cmd. split; [reflexivity|].
  destruct (exists_ credentials_file s); [|discriminate].
  split; [reflexivity|]. injection H as <-.
  destruct (String.eqb action "certonly"); now rewrite <- !app_assoc.
Qed.

(** What [renew_certificate] makes of a completed certbot process. *)
Lemma renew_certificate_completed self domain s s1 cmd result s2 :
  install_plugin self s = (true, s1) ->
  _build_certbot_command _get_certbot_command expanduser exists_
    self "renew" domain "" s1 = Returned cmd ->
  subprocess_run cmd s1 = (Some result, s2) ->
  renew_certificate install_plugin _get_certbot_command expanduser exists_
    subprocess_run self domain s
  = (Returned
       (if (returncode result =? 0)%Z then (true, true)
        else if contains (if truthy_str (stderr result)
                          then strip (stderr result) else "")
                         "unrecognized arguments"
        then (false, false)
        else if contains (if truthy_str (stdout result)
                          then strip (stdout result) else "")
                         "No renewals were attempted"
        then (true, false)
        else (false, false)), s2).
Proof.
  intros Hi Hb Hr. unfold renew_certificate. rewrite Hi. cbn [negb].
  rewrite Hb, Hr.
  destruct (returncode result =? 0)%Z; [reflexivity|].
  destruct (contains _ "unrecognized arguments"); [reflexivity|].
  destruct (contains _ "No renewals were attempted"); reflexivity.
Qed.

(** [renew_certificate] never reports a renewal without success. *)
Lemma renew_certificate_flags self domain s r s' :
  renew_certificate install_plugin _get_certbot_command expanduser exists_
    subprocess_run self domain s = (Returned r, s') ->
  r = (true, true) \/ r = (true, false) \/ r = (false, false).
Proof.
  unfold renew_certificate.
  destruct (install_plugin self s) as [[|] s1]; cbn [negb];
    [|intros [= <- _]; auto].
  destruct (_build_certbot_command _ _ _ _ _ _ _ _) as [cmd|e]; [|discriminate].
  destruct (subprocess_run cmd s1) as [[result|] s2]; [|intros [= <- _]; auto].
  destruct (returncode result =? 0)%Z; [intros [= <- _]; auto|].
  destruct (contains _ "unrecognized arguments"); [intros [= <- _]; auto|].
  destruct (contains _ "No renewals were attempted"); intros [= <- _]; auto.
Qed.

Lemma obtain_then_flags self domain email s r s' :
  match obtain_certificate install_plugin namecheap_validate_credentials
          setup_certbot_credentials _get_certbot_command expanduser exists_
          subprocess_run self domain email s with
  | (Returned success, s) => (Returned (success, success), s)
  | (Raised e, s) => (Raised e, s)
  end = (Returned r, s') ->
  r = (true, true) \/ r = (false, false).
Proof.
  destruct (obtain_certificate _ _ _ _ _ _ _ _ _ _ _) as [[[|]|e] s1];
    intros [= <- _]; auto.
Qed.

End Facts.
End CertmanFacts.

(** X23.  The certbot command of [_build_certbot_command].  Whenever a
    command is built, for any of the three providers, it consists of the
    certbot executable, the action, the provider's plugin, the provider's
    credentials file (which exists), for the action certonly the email
    address and the domain, and as its last argument the Cloudflare option
    that sets the propagation time to 120 seconds, also for Linode and
    Namecheap.  For any other action the domain and the email address do
    not appear in the command. *)
Theorem certbot_command_ends_with_cloudflare_option
        (S : Type)
        (_get_certbot_command : S -> Certman.result (list string))
        (expanduser : string -> string) (exists_ : string -> S -> bool)
        (self : Certman.manager) (action domain email : string) (s : S)
        (cmd : list string) :
  Certman._build_certbot_command _get_certbot_command expanduser exists_
    self action domain email s = Certman.Returned cmd ->
  let class := Certman.class_of (Certman.provider self) in
  let credentials_file := expanduser (Certman.CERTBOT_CREDENTIALS_FILE class) in
  List.last cmd "" = "--dns-cloudflare-propagation-seconds=120"
  /\ exists_ credentials_file s = true
  /\ (exists certbot_cmd,
         _get_certbot_command s = Certman.Returned certbot_cmd
         /\ cmd
            = certbot_cmd
                ++ [action; "-a"; Certman.CERTBOT_PLUGIN class;
                    "--non-interactive"; "-v";
                    "--" +:+ Certman.CERTBOT_PLUGIN class +:+ "-credentials="
                    +:+ credentials_file]
                ++ (if String.eqb action "certonly"
                    then ["--agree-tos"; "--no-eff-email"; "--email"; email;
                          "-d"; domain]
                    else [])
                ++ ["--dns-cloudflare-propagation-seconds=120"])
  /\ (action <> "certonly" ->
      forall domain' email',
        Certman._build_certbot_command _get_certbot_command expanduser exists_
          self action domain' email' s = Certman.Returned cmd).
Proof.
  intros H class credentials_file.
  pose proof (CertmanFacts.build_certbot_command_returned _ _ _ _ _ _ _ _ _ H)
    as (certbot_cmd & Hc & He & Hcmd).
  fold class credentials_file in He, Hcmd.
  split; [|split; [exact He|split; [eauto|]]].
  - rewrite Hcmd, !app_assoc. apply last_last.
  - intros Hne domain' email'. rewrite <- H.
    unfold Certman._build_certbot_command.
    apply String.eqb_neq in Hne. now rewrite Hne.
Qed.

Lemma certbot_command_ends_with_cloudflare_option_witness :
  let self := Certman.mk_manager "linode" (Factory.LinodeInstance "token-l") in
  Certman._build_certbot_command
    (fun _ : unit => Certman.Returned ["/venv/bin/certbot"])
    (fun p => p) (fun _ _ => true) self "renew" "example.com" "" tt
  = Certman.Returned
      ["/venv/bin/certbot"; "renew"; "-a"; "dns-linode"; "--non-interactive"; "-v";
       "--dns-linode-credentials=~/.linode/credentials.ini";
       "--dns-cloudflare-propagation-seconds=120"]
  /\ Certman.CERTBOT_PROPAGATION_SECONDS Factory.LinodeDNSProvider = 300%Z.
Proof.
  split; [|reflexivity].
  pose (self := Certman.mk_manager "linode" (Factory.LinodeInstance "token-l")).
  destruct (certbot_command_ends_with_cloudflare_option unit
              (fun _ => Certman.Returned ["/venv/bin/certbot"])
              (fun p => p) (fun _ _ => true) self "renew" "other.org" "x@y" tt
              _ eq_refl) as (_ & _ & _ & H).
  apply H. discriminate.
Defined.

(** X24.  How [renew_certificate] reads the certbot process.  With the
    plugin installed and the command built: an exit status of 0 gives
    [(True, True)], a renewal, whatever certbot printed, also when it
    printed that no renewals were attempted; with any other exit status the
    result is [(True, False)] exactly when the standard output says that no
    renewals were attempted and the error output does not complain of
    unrecognized arguments, and [(False, False)] otherwise.  When
    [subprocess.run] raises the result is [(False, False)].  In no case is
    a renewal reported without success. *)
Theorem renew_certificate_reads_exit_status_first
        (S : Type)
        (install_plugin : Certman.manager -> S -> bool * S)
        (_get_certbot_command : S -> Certman.result (list string))
        (expanduser : string -> string) (exists_ : string -> S -> bool)
        (subprocess_run : list string -> S -> option Certman.completed * S)
        (self : Certman.manager) (domain : string) (s s1 : S)
        (cmd : list string) :
  install_plugin self s = (true, s1) ->
  Certman._build_certbot_command _get_certbot_command expanduser exists_
    self "renew" domain "" s1 = Certman.Returned cmd ->
  let run :=
    Certman.renew_certificate install_plugin _get_certbot_command expanduser
      exists_ subprocess_run self domain s in
  (forall result s2,
      subprocess_run cmd s1 = (Some result, s2) ->
      let error_output :=
        if truthy_str (Certman.stderr result)
        then Certman.strip (Certman.stderr result) else "" in
      let stdout_output :=
        if truthy_str (Certman.stdout result)
        then Certman.strip (Certman.stdout result) else "" in
      (Certman.returncode result = 0%Z ->
       run = (Certman.Returned (true, true), s2))
      /\ (Certman.returncode result <> 0%Z ->
          (contains error_output "unrecognized arguments" = false
           /\ contains stdout_output "No renewals were attempted" = true ->
           run = (Certman.Returned (true, false), s2))
          /\ (contains error_output "unrecognized arguments" = true
              \/ contains stdout_output "No renewals were attempted" = false ->
              run = (Certman.Returned (false, false), s2))))
  /\ (forall s2, subprocess_run cmd s1 = (None, s2) ->
                 run = (Certman.Returned (false, false), s2))
  /\ (forall r s', run = (Certman.Returned r, s') -> r <> (false, true)).
Proof.
  intros Hi Hb run. split; [|split].
  - intros result s2 Hr error_output stdout_output.
    pose proof (CertmanFacts.renew_certificate_completed install_plugin
                  _get_certbot_command expanduser exists_ subprocess_run
                  self domain s s1 cmd result s2 Hi Hb Hr) as Hrun.
    fold run error_output stdout_output in Hrun. rewrite Hrun. split.
    + intros ->. reflexivity.
    + intros Hne. apply Z.eqb_neq in Hne. rewrite Hne. split.
      * intros [-> ->]. reflexivity.
      * intros [-> | ->]; [reflexivity|].
        now destruct (contains error_output "unrecognized arguments").
  - intros s2 Hr. unfold run, Certman.renew_certificate.
    rewrite Hi. cbn [negb]. now rewrite Hb, Hr.
  - intros r s' Hrun.
    apply CertmanFacts.renew_certificate_flags in Hrun.
    destruct Hrun as [-> |[-> | ->]]; discriminate.
Qed.

Lemma renew_certificate_reads_exit_status_first_witness :
  let self := Certman.mk_manager "cloudflare" (Factory.CloudflareInstance "t") in
  let certbot (_ : list string) (s : unit) :=
    (Some (Certman.mk_completed 0 "No renewals were attempted." ""), s) in
  Certman.renew_certificate (fun _ s => (true, s))
    (fun _ => Certman.Returned ["certbot"]) (fun p => p) (fun _ _ => true)
    certbot self "example.com" tt
  = (Certman.Returned (true, true), tt).
Proof.
  pose (self := Certman.mk_manager "cloudflare" (Factory.CloudflareInstance "t")).
  pose (certbot := fun (_ : list string) (s : unit) =>
          (Some (Certman.mk_completed 0 "No renewals were attempted." ""), s)).
  destruct (renew_certificate_reads_exit_status_first unit (fun _ s => (true, s))
              (fun _ => Certman.Returned ["certbot"]) (fun p => p)
              (fun _ _ => true) certbot self "example.com" tt tt _
              eq_refl eq_refl) as (H & _).
  exact (proj1 (H _ tt eq_refl) eq_refl).
Defined.



(** ** The Linode cache on a consistent remote *)

(** X26.  On a Linode account whose domain objects agree with its domain
    listing, a resolution is cached and reused.  When the cache misses and
    some listed domain covers the name, [_ensure_zone_id] lists the domains,
    asks for the domain it chose, and stores its id and its name; that name
    covers the name that was asked for; and from then on [_ensure_zone_id]
    answers from the cache, for that name and for every name the domain
    covers, without a request. *)
Theorem linode_resolution_is_cached
        (World : Type)
        (http : Linode.request -> World -> Linode.response * World)
        (ds : list Linode.domain_obj) (domain : string) (st : Linode.state) :
  Linode.serves_domains http ds ->
  Forall Linode.wf_domain ds ->
  linode_serves_details http ds ->
  (exists d, In d ds /\ Linode.covers (Linode.dname d) domain = true) ->
  Linode.cache_hit (Linode.zone_id st) (Linode.zone_domain st) domain = false ->
  exists zid zn st',
    Linode._ensure_zone_id http domain st = (Ret (Some zid), st')
    /\ Linode.zone_id st' = Some zid
    /\ Linode.zone_domain st' = Some zn
    /\ Linode.covers zn domain = true
    /\ Linode.trace st'
       = Linode.trace st ++ [Linode.GetDomains; Linode.GetDomain zid]
    /\ forall domain' w tr,
         Linode.covers zn domain' = true ->
         let st'' := Linode.mk (Some zid) (Some zn) w tr in
         Linode._ensure_zone_id http domain' st'' = (Ret (Some zid), st'').
Proof.
  intros Hserve Hwf Hdetail (d0 & Hin0 & Hc0) Hmiss.
  destruct (LinodeFacts.get_zone_id_spec http domain ds Hserve Hwf st)
    as (r & st1 & Hrun & Hlm).
  destruct r as [zid|]; [|now rewrite (Hlm d0 Hin0) in Hc0].
  destruct Hlm as (d & Hin & -> & Hc & _).
  assert (Hr : fst (Linode._get_zone_id http domain st)
               = Ret (Some (Linode.str (Linode.d_id d)))) by now rewrite Hrun.
  pose proof (LinodeMore.ensure_zone_id_miss_run http domain st _ Hmiss Hr) as Hens.
  cbv beta iota zeta in Hens.
  destruct (Hdetail d (snd (http Linode.GetDomains (Linode.world st))) Hin)
    as (Hs & Hd).
  rewrite Hs, Hd in Hens.
  assert (Hn : exists n, Linode.d_domain d = Some n /\ n <> ""
                         /\ Linode.dname d = n).
  { rewrite Forall_forall in Hwf. destruct (Hwf d) as (_ & Ht).
    { now apply list_elem_of_In. }
    unfold Linode.dname. destruct (Linode.d_domain d) as [n|]; [|discriminate].
    exists n. repeat split. now apply truthy_str_nonempty. }
  destruct Hn as (n & Hdn & Hne & Hname).
  rewrite Hdn in Hens. cbn [default from_option id] in Hens.
  rewrite Hname in Hc.
  eexists _, n, _. split; [exact Hens|]. cbn [Linode.zone_id Linode.zone_domain
                                               Linode.trace].
  split; [reflexivity|]. split; [reflexivity|]. split; [exact Hc|].
  split; [reflexivity|].
  intros domain' w tr Hc'.
  apply (LinodeCache.ln_ensure_zone_id_hit http domain'
           (Linode.mk (Some (Linode.str (Linode.d_id d))) (Some n) w tr)).
  unfold Linode.cache_hit. cbn [Linode.zone_id Linode.zone_domain truthy
                                        default from_option id].
  rewrite linode_str_truthy, Hc'.
  apply truthy_str_nonempty in Hne. now rewrite Hne.
Qed.

Lemma linode_resolution_is_cached_witness :
  exists zid zn st',
    Linode._ensure_zone_id example_linode "a.sub.example.com"
      (Linode.mk None None tt [])
    = (Ret (Some zid), st')
    /\ Linode.zone_id st' = Some zid
    /\ Linode.zone_domain st' = Some zn
    /\ Linode.covers zn "a.sub.example.com" = true.
Proof.
  destruct (linode_resolution_is_cached unit example_linode example_domains
              "a.sub.example.com" (Linode.mk None None tt []))
    as (zid & zn & st' & H1 & H2 & H3 & H4 & _).
  - intros w. eexists _, _. reflexivity.
  - repeat constructor.
  - intros d w [<-|[<-|[]]]; split; reflexivity.
  - exists (Linode.mk_domain_obj (Some 2%Z) (Some "sub.example.com")).
    split; [right; now left|reflexivity].
  - reflexivity.
  - exists zid, zn, st'. auto.
Defined.

(** ** Namecheap: a match on another host *)

Lemma set_a_record_first_match {S : Type} (P : DNSProvider S)
      name ip ttl proxied (s s1 : S) r rest :
  get_dns_records name (Some RecordType.A) s = (Ret (r :: rest), s1) ->
  DNSRecord.content r = ip ->
  Base.set_a_record name ip ttl proxied s = (Ret true, s1).
Proof.
  intros Hget Hc. unfold Base.set_a_record.
  rewrite (bind_Ret _ _ _ _ _ Hget). cbn [Base.set_a_record_loop].
  rewrite Hc, String.eqb_refl. reflexivity.
Qed.

(** X27.  On Namecheap [set_a_record] takes a host of any name for the
    record it is asked to set.  When the first A host that the registered
    domain lists has the requested address, and the listing returns,
    [set_a_record] returns [True] after that one [getHosts] request and
    writes nothing, whatever the name of that host and whatever name was
    asked for. *)
Theorem namecheap_set_a_record_matches_any_host
        (World : Type)
        (http : Namecheap.request -> World -> Namecheap.response * World)
        (py_int : string -> option Z)
        (name sld tld ip : string) (ttl : Z) (proxied : bool)
        (st st1 : Namecheap.state) (h : Namecheap.host)
        (rest : list Namecheap.host) (recs : list DNSRecord.t) :
  Namecheap._get_domain_info name = Some (sld, tld) ->
  fst (http (Namecheap.GetHosts sld tld) (Namecheap.world st))
  = Namecheap.mk_response true (h :: rest) ->
  Namecheap.h_Type h = Some "A" ->
  Namecheap.h_Address h = Some ip ->
  Namecheap.get_dns_records http py_int name (Some RecordType.A) st
  = (Ret recs, st1) ->
  Base.set_a_record (P := Namecheap.provider http py_int) name ip ttl proxied st
  = (Ret true, st1)
  /\ Namecheap.trace st1
     = Namecheap.trace st ++ [Namecheap.GetHosts sld tld]
  /\ exists r others,
       recs = r :: others
       /\ DNSRecord.id r = Namecheap.h_HostId h
       /\ match Namecheap.h_Name h with
          | Some n =>
              DNSRecord.name r
              = if String.eqb n "@" then sld +:+ "." +:+ tld
                else if endswith n ("." +:+ sld +:+ "." +:+ tld) then n
                else n +:+ "." +:+ sld +:+ "." +:+ tld
          | None => False
          end.
Proof.
  intros Hd Hhosts Hty Haddr Hget.
  assert (Hrecs : exists r others,
             recs = r :: others
             /\ DNSRecord.content r = ip
             /\ DNSRecord.id r = Namecheap.h_HostId h
             /\ match Namecheap.h_Name h with
                | Some n =>
                    DNSRecord.name r
                    = if String.eqb n "@" then sld +:+ "." +:+ tld
                      else if endswith n ("." +:+ sld +:+ "." +:+ tld) then n
                      else n +:+ "." +:+ sld +:+ "." +:+ tld
                | None => False
                end).
  { pose proof Hget as Hb. unfold Namecheap.get_dns_records in Hb.
    rewrite Hd in Hb. unfold bind at 1 in Hb.
    rewrite NamecheapFacts.nc_make_request_run, Hhosts in Hb.
    cbn [Namecheap.success Namecheap.hosts negb Namecheap.build_records] in Hb.
    rewrite Hty in Hb. cbn [RecordType.value] in Hb.
    rewrite bool_decide_eq_true_2 in Hb by reflexivity. cbn [negb] in Hb.
    apply bind_Ret_inv in Hb as (r & s2 & Hr & Hb).
    apply bind_Ret_inv in Hb as (others & s3 & _ & Hb).
    injection Hb as <- _.
    pose proof (NamecheapListing.build_record_fields py_int _ _ _ _ _ _ Hr)
      as (Hn & Hid & Hc & _).
    exists r, others. rewrite Hc, Haddr. repeat split; auto. }
  destruct Hrecs as (r & others & -> & Hc & Hid & Hn).
  split; [|split; [|eauto]].
  - exact (set_a_record_first_match (Namecheap.provider http py_int)
             name ip ttl proxied st st1 r others Hget Hc).
  - now rewrite (NamecheapMore.get_dns_records_state http py_int _ _ _ _ _ _ _
                   Hd Hget).
Qed.

Lemma namecheap_set_a_record_matches_any_host_witness :
  Base.set_a_record (P := Namecheap.provider example_namecheap_hosts decimal_int)
    "fresh.example.com" "10.0.0.1" 60 false (Namecheap.mk tt [])
  = (Ret true, Namecheap.mk tt [Namecheap.GetHosts "example" "com"]).
Proof.
  exact (proj1 (namecheap_set_a_record_matches_any_host unit
                  example_namecheap_hosts decimal_int "fresh.example.com"
                  "example" "com" "10.0.0.1" 60 false (Namecheap.mk tt [])
                  (Namecheap.mk tt [Namecheap.GetHosts "example" "com"])
                  _ _ _ eq_refl eq_refl eq_refl eq_refl eq_refl)).
Defined.

(** ** Which exceptions leave the Cloudflare adapter *)

Section Quiet.
Context {S : Type} (P : DNSProvider S).
Hypothesis Hdel : forall rid dom s, never_raises (fst (delete_dns_record rid dom s)).

Lemma bind_never_raises {A B} (m : M S A) (k : A -> M S B) s :
  never_raises (fst (m s)) ->
  (forall a s', never_raises (fst (k a s'))) ->
  never_raises (fst (bind m k s)).
Proof.
  intros Hm Hk. unfold bind. destruct (m s) as [[a|e|] s']; cbn [fst] in *.
  - apply Hk.
  - now contradiction (Hm e).
  - discriminate.
Qed.

Lemma delete_if_id_never_raises r name (s : S) :
  never_raises (fst (Base.delete_if_id r name s)).
Proof using Hdel.
  unfold Base.delete_if_id. destruct (DNSRecord.id r) as [rid|]; [|discriminate].
  destruct (truthy_str rid); cbn [when]; [|discriminate].
  unfold ignore. apply bind_never_raises; [apply Hdel|discriminate].
Qed.

Lemma reconcile_loop_never_raises relevant same name recs : forall (s : S),
  never_raises (fst (reconcile_loop relevant same name recs s)).
Proof using Hdel.
  induction recs as [|r rest IH]; intros s; cbn [reconcile_loop]; [discriminate|].
  destruct (relevant r); [|apply IH].
  destruct (same r); [discriminate|].
  apply bind_never_raises; [apply delete_if_id_never_raises|auto].
Qed.

Lemma reconcile_raises_only_ValueError relevant same name ty
      (finish : M S bool) (s : S) :
  raises_only_ValueError (fst (get_dns_records name ty s)) ->
  (forall s', never_raises (fst (finish s'))) ->
  raises_only_ValueError
    (fst ((let* existing_records := get_dns_records name ty in
           let* early := reconcile_loop relevant same name existing_records in
           match early with
           | Some b => ret b
           | None => finish
           end) s)).
Proof using Hdel.
  intros Hget Hfin. unfold bind at 1.
  destruct (get_dns_records name ty s) as [[recs|e|] s1]; cbn [fst] in *.
  - intros e He. exfalso. revert e He.
    apply bind_never_raises; [apply reconcile_loop_never_raises|].
    intros [b|] s'; [discriminate|apply Hfin].
  - intros e0 [= <-]. exact (Hget e eq_refl).
  - discriminate.
Qed.

End Quiet.

Module CloudflareQuiet.
Import Cloudflare.

Section Quiet.
Context {World : Type} (http : request -> World -> response * World).
Variable fuel : nat.

Lemma page_loop_never_raises n : forall domain page total b st,
  never_raises (fst (page_loop http n domain page total b st)).
Proof.
  assert (Hend : forall b (st : @state World),
             never_raises
               (fst (match best_zone_id b, zone_name_found b with
                     | Some zid, Some zname =>
                         if truthy_str zid && truthy_str zname
                         then ret (Some (Some zid, zname))
                         else ret None
                     | _, _ => ret None
                     end st))).
  { intros b st. destruct (best_zone_id b), (zone_name_found b);
      try destruct (truthy_str _ && truthy_str _); discriminate. }
  induction n as [|n IH]; intros domain page total b st; cbn [page_loop].
  - destruct (page <=? total)%nat; [discriminate|apply Hend].
  - destruct (page <=? total)%nat; [|apply Hend].
    unfold bind at 1. rewrite CloudflareCache.cf_make_request_run.
    destruct (negb _); [discriminate|].
    destruct (bool_decide _ && _); [discriminate|].
    destruct (scan_zones _ _ _) as [hit|b']; [discriminate|apply IH].
Qed.

Lemma ensure_zone_id_never_raises domain st :
  never_raises (fst (_ensure_zone_id http fuel domain st)).
Proof.
  destruct (cache_hit (zone_id st) (zone_domain st) domain) eqn:H.
  - rewrite (CloudflareCache.cf_ensure_zone_id_hit _ _ _ _ H). discriminate.
  - rewrite (CloudflareCache.cf_ensure_zone_id_miss _ _ _ _ H).
    pose proof (page_loop_never_raises fuel domain 1 1 (mk_best 0 None None) st)
      as Hq.
    unfold _get_zone_info.
    destruct (page_loop _ _ _ _ _ _ _) as [[[[i n]|]|e|] st']; cbn [fst] in *;
      try discriminate.
    now contradiction (Hq e).
Qed.

(** A call that resolves the zone and then makes one request. *)
Lemma after_zone_never_raises domain (post : string -> request) st :
  never_raises
    (fst ((let* zone_id := _ensure_zone_id http fuel domain in
           match zone_id with
           | Some zid =>
               if truthy_str zid then
                 let* result := _make_request http (post zid) in
                 ret (success result)
               else ret false
           | None => ret false
           end) st)).
Proof.
  apply bind_never_raises; [apply ensure_zone_id_never_raises|].
  intros [zid|] s'; [|discriminate].
  destruct (truthy_str zid); [|discriminate].
  unfold bind. rewrite CloudflareCache.cf_make_request_run. discriminate.
Qed.

Lemma build_records_raises_only_ValueError l (st : @state World) :
  raises_only_ValueError (fst (build_records l st)).
Proof.
  revert st. induction l as [|rd l IH]; intros st; cbn [build_records];
    [discriminate|].
  unfold bind at 1. unfold RecordType_call.
  destruct (rd_type rd) as [s|]; [|intros e [= <-]; eauto].
  destruct (RecordType.of_value s) as [ty|]; [|intros e [= <-]; eauto].
  cbn [ret]. unfold bind at 1. specialize (IH st).
  destruct (build_records l st) as [[recs|e|] s1]; cbn [fst] in *;
    [discriminate|exact IH|discriminate].
Qed.

Lemma get_dns_records_raises_only_ValueError name ty st :
  raises_only_ValueError (fst (get_dns_records http fuel name ty st)).
Proof.
  unfold get_dns_records, bind at 1.
  pose proof (ensure_zone_id_never_raises name st) as Hq.
  destruct (_ensure_zone_id http fuel name st) as [[[zid|]|e|] s1];
    cbn [fst] in *; try discriminate.
  - destruct (truthy_str zid); [|discriminate].
    unfold bind at 1. rewrite CloudflareCache.cf_make_request_run.
    destruct (negb _); [discriminate|].
    apply build_records_raises_only_ValueError.
  - now contradiction (Hq e).
Qed.

End Quiet.
End CloudflareQuiet.

